(** * HistoFlow: the task lifecycle, the configuration merge and the stage
      functions of the HistoGPT pipeline, embedded in Rocq.

    The Python sources are embedded shallowly.  A function that can raise
    or that touches the status store, the file system, the clock or the
    task queue is a computation [M A]: it takes the current [World] and
    returns either a value or the raised exception, together with the
    world it leaves behind.  What the repository calls but does not
    contain (Redis, the operating system, the clock, pandas, torch, the
    HistoGPT library) is reached through the oracle record [Env]; the
    field validation of pydantic and the executor of Dagster are small
    models of their own. *)

From Stdlib Require Import ZArith QArith List String Ascii Lia.
From stdpp Require Import base option list gmap strings pretty.

Local Open Scope Z_scope.
Local Open Scope string_scope.

(** ** Python exceptions and results *)

Module Py.

(** The subclasses of [Exception] that occur in the sources.
    [RedisConnectionError] is [redis.exceptions.ConnectionError], a
    subclass of [redis.exceptions.RedisError]. *)
Inductive exn_class : Type :=
  | RedisError
  | RedisConnectionError
  | ValueError
  | TypeError
  | OSError
  | RuntimeError
  | ValidationError
  | HTTPException (status_code : Z)
  | OtherException.

Record exn : Type := Exn { exn_cls : exn_class; exn_msg : string }.

(** [str(e)].  For an [HTTPException] it is Starlette's [__str__]: the
    status code, a colon and the detail. *)
Definition str (e : exn) : string :=
  match exn_cls e with
  | HTTPException status_code => pretty status_code +:+ ": " +:+ exn_msg e
  | _ => exn_msg e
  end.

(** [isinstance(e, redis.exceptions.RedisError)] *)
Definition is_RedisError (e : exn) : bool :=
  match exn_cls e with
  | RedisError | RedisConnectionError => true
  | _ => false
  end.

(** [isinstance(e, HTTPException)] *)
Definition is_HTTPException (e : exn) : bool :=
  match exn_cls e with
  | HTTPException _ => true
  | _ => false
  end.

Inductive result (A : Type) : Type :=
  | Ok (a : A)
  | Raise (e : exn).
Arguments Ok {A} a.
Arguments Raise {A} e.

Definition is_Ok {A} (r : result A) : bool :=
  match r with Ok _ => true | Raise _ => false end.

End Py.
Export Py.

(** ** Settings (pipeline/config.py) *)

(** [AppSettings]: only carried around by the functions modelled here. *)
Module AppSettings.
Record t : Type := Build {
  environment : string;
  log_level : string;
  log_file : option string;
  log_format : string;
  redis_url : string;
  redis_pool_size : Z;
  redis_timeout : Z;
  redis_retry_attempts : Z;
  dagster_home : string;
  dagster_execution_timeout : string;
  dagster_max_retries : string
}.
End AppSettings.

(** A validated [PipelineSettings] object; [dict()] of it has exactly these
    keys.  [diagnosis_prompt] is the one extra key ([extra = "allow"]) that
    the stage functions look up. *)
Module PipelineSettings.
Record t : Type := Build {
  wsi_folder : string;
  file_ending : string;
  save_patches : bool;
  output_folder : string;
  batch_size : Z;
  max_workers : Z;
  execution_timeout : Z;
  max_retries : Z;
  ctranspath_model_path : string;
  histogpt_model_path : string;
  ctranspath_model_url : string;
  histogpt_model_url : string;
  patch_size : Z;
  white_thresh : string;
  edge_threshold : Z;
  downscaling_factor : Q;
  diagnosis_prompt : option string
}.
End PipelineSettings.

(** Keyword arguments of the [PipelineSettings] constructor, and the typed view of
    the [PIPELINE_*] environment: every field may be absent. *)
Module Kwargs.
Record t : Type := Build {
  wsi_folder : option string;
  file_ending : option string;
  save_patches : option bool;
  output_folder : option string;
  batch_size : option Z;
  max_workers : option Z;
  execution_timeout : option Z;
  max_retries : option Z;
  ctranspath_model_path : option string;
  histogpt_model_path : option string;
  ctranspath_model_url : option string;
  histogpt_model_url : option string;
  patch_size : option Z;
  white_thresh : option string;
  edge_threshold : option Z;
  downscaling_factor : option Q;
  diagnosis_prompt : option string
}.

Definition empty : t :=
  Build None None None None None None None None None None None None None
        None None None None.
End Kwargs.

(** The request body of [POST /run-pipeline] (fastapi_app/main.py). *)
Module ApiPipelineConfig.
Record t : Type := Build {
  wsi_folder : option string;
  file_ending : option string;
  save_patches : option bool;
  output_folder : option string;
  batch_size : option Z;
  max_workers : option Z
}.
End ApiPipelineConfig.

(** ** Task records (fastapi_app/main.py) *)

Inductive Status : Type := queued | running | completed | failed.

(** The dictionary [status_obj] / [init_status]; [results] is the
    dictionary [{"success": True}] when present.  Timestamps are the
    values of [datetime.now().timestamp()], kept as integers
    (microseconds): only their order is used. *)
Record TaskStatus : Type := mkTaskStatus {
  status : Status;
  start_time : Z;
  end_time : option Z;
  error : option string;
  results : option (list (string * bool));
  pipeline_config : PipelineSettings.t
}.

Definition with_status (s : Status) (o : TaskStatus) : TaskStatus :=
  mkTaskStatus s (start_time o) (end_time o) (error o) (results o) (pipeline_config o).
Definition with_end_time (t : option Z) (o : TaskStatus) : TaskStatus :=
  mkTaskStatus (status o) (start_time o) t (error o) (results o) (pipeline_config o).
Definition with_error (e : option string) (o : TaskStatus) : TaskStatus :=
  mkTaskStatus (status o) (start_time o) (end_time o) e (results o) (pipeline_config o).
Definition with_results (r : option (list (string * bool))) (o : TaskStatus) : TaskStatus :=
  mkTaskStatus (status o) (start_time o) (end_time o) (error o) r (pipeline_config o).

(** One entry of the [BackgroundTasks] queue: the arguments of
    [run_pipeline_in_background]. *)
Record BgTask : Type := mkBgTask {
  bg_task_id : string;
  bg_app_config : AppSettings.t;
  bg_pipeline_config : PipelineSettings.t
}.

(** ** The world *)

Inductive Node : Type :=
  | Dir
  | File (content : string).

Record World : Type := mkWorld {
  redis_db : gmap string TaskStatus;          (* the status store *)
  redis_writes : list (string * TaskStatus);  (* SETs that reached it, oldest first *)
  redis_calls : nat;                          (* SET commands issued *)
  clock_reads : nat;                          (* calls of datetime.now() *)
  uuid_calls : nat;                           (* calls of uuid.uuid4() *)
  fs : gmap string Node;                      (* the file system, by resolved path *)
  op_calls : list (string * option exn);      (* op invocations and what they raised, oldest first *)
  sleeps : list Z;                            (* retry delays slept *)
  logs : list string;                         (* logging.critical messages *)
  background_tasks : list BgTask              (* queued background tasks *)
}.

(** ** Computations *)

(** State and exceptions over a state type [S]: [FS] for the functions that
    only touch the file system (validators and stage functions), [World]
    for the task lifecycle. *)
Definition SE (S A : Type) : Type := S -> result A * S.

Abbreviation FS := (gmap string Node).
Abbreviation FSM := (SE FS).
Abbreviation M := (SE World).

Definition ret {S A} (a : A) : SE S A := fun s => (Ok a, s).
Definition raise {S A} (e : exn) : SE S A := fun s => (Raise e, s).
Definition bind {S A B} (c : SE S A) (k : A -> SE S B) : SE S B :=
  fun s => match c s with
           | (Ok a, s') => k a s'
           | (Raise e, s') => (Raise e, s')
           end.

(** [try: c  except Exception as e: h e] *)
Definition try_except {S A} (c : SE S A) (h : exn -> SE S A) : SE S A :=
  fun s => match c s with
           | (Ok a, s') => (Ok a, s')
           | (Raise e, s') => h e s'
           end.

Declare Scope py_scope.
Delimit Scope py_scope with py.
Notation "x <- c ;; k" := (bind c (fun x => k))
  (at level 100, c at next level, right associativity) : py_scope.
Notation "c ;;; k" := (bind c (fun _ => k))
  (at level 100, right associativity) : py_scope.
Local Open Scope py_scope.

Definition set_fs (f : FS) (w : World) : World :=
  mkWorld (redis_db w) (redis_writes w) (redis_calls w) (clock_reads w)
          (uuid_calls w) f (op_calls w) (sleeps w) (logs w) (background_tasks w).

(** A file-system computation run in the world. *)
Definition lift_fs {A} (c : FSM A) : M A :=
  fun w => let '(r, f') := c (fs w) in (r, set_fs f' w).

(** ** External collaborators *)

(** [requests.get(url, stream=True)]: the response as [download_file] reads it. *)
Record HttpResponse : Type := mkHttpResponse {
  status_code : Z;
  content_length : Z;            (* int(headers.get('content-length', 0)) *)
  iter_content : list string     (* the chunks *)
}.

(** [PatchingConfigs] of the HistoGPT library, as filled by [run_embeddings]. *)
Record PatchingConfigs : Type := mkPatchingConfigs {
  slide_path : string;
  save_path : string;
  model_path : string;
  save_patch_images : bool;
  file_extension : string;
  pc_white_thresh : list Z;
  pc_patch_size : Z;
  pc_edge_threshold : Z;
  pc_downscaling_factor : Q;
  pc_batch_size : Z;
  resolution_in_mpp : Q
}.

(** A [pandas.DataFrame] with string cells. *)
Record DataFrame : Type := mkDataFrame {
  columns : list string;
  rows : list (list string)
}.

Record Env : Type := mkEnv {
  (* process environment *)
  environ : Kwargs.t;                     (* the PIPELINE_* variables and .env_pipeline,
                                             parsed to the fields' types *)
  cpu_count : Z;                          (* os.cpu_count() *)
  json_load_pipeline : string -> result Kwargs.t;
                                          (* json.load(open(p)).get("pipeline", {}) *)
  app_settings : AppSettings.t;           (* AppSettings() *)
  (* os.path and pathlib *)
  expanduser : string -> string;
  resolve : string -> string;             (* Path.resolve / the path a name denotes *)
  path_join : string -> string -> string;
  dirname : string -> string;
  splitext : string -> string;            (* os.path.splitext(p)[0] *)
  os_walk : FS -> string -> list (string * list string);
                                          (* (root, files) of os.walk *)
  mkdir_fault : string -> option exn;     (* mkdir / makedirs refused *)
  read_fault : string -> option exn;      (* open(p, "r").read() fails *)
  write_fault : string -> option exn;     (* open(p, "w") / to_csv fails *)
  (* time, identifiers, the status store *)
  clock : nat -> Z;                       (* the n-th reading of the clock *)
  uuid4 : nat -> string;                  (* the n-th generated identifier *)
  redis_fault : nat -> option exn;        (* outcome of the n-th SET *)
  (* worker set-up *)
  setup_logging_fault : option exn;       (* setup_logging(app_config) *)
  dagster_fault : option exn;             (* DagsterInstance.get, reconstructable and
                                             the start of execute_job *)
  run_events : list (string * option exn) -> list (string * string);
                                          (* (event_type_value, message) of the events
                                             Dagster reports for a run, by the record of
                                             the run's op invocations *)
  (* libraries used by the stage functions *)
  http_get : string -> result HttpResponse;
  parse_int : string -> option Z;         (* int(x) *)
  split_comma : string -> list string;    (* s.split(",") *)
  run_patching : PatchingConfigs -> FSM unit;
  torch_load : string -> FS -> option exn;
                                          (* load_state_dict(torch.load(path)) *)
  tokenizer_fault : option exn;           (* BioGptTokenizer.from_pretrained *)
  histogpt_generate : string -> string -> FS -> result string;
                                          (* features of an .h5 file, prompt -> decoded text *)
  to_csv : DataFrame -> string            (* the text DataFrame.to_csv writes *)
}.

(** ** Operating system, clock, identifiers and status store *)

Section Primitives.
Context (env : Env).

(** [os.path.exists(p)] *)
Definition path_exists (f : FS) (p : string) : bool :=
  match f !! resolve env p with Some _ => true | None => false end.

(** [os.path.isfile(p)] *)
Definition isfile (f : FS) (p : string) : bool :=
  match f !! resolve env p with Some (File _) => true | _ => false end.

(** [os.path.exists(p)] on a value that may be [None]: [os.stat(None)]
    raises [TypeError], which [exists] does not catch. *)
Definition os_path_exists (p : option string) : FSM bool :=
  fun f => match p with
           | None => (Raise (Exn TypeError
                "stat: path should be string, bytes, os.PathLike or integer, not NoneType"), f)
           | Some p => (Ok (path_exists f p), f)
           end.

(** [os.makedirs(p, exist_ok=True)] and [Path(p).mkdir(parents=True,
    exist_ok=True)].  The ancestors they create are not tracked: nothing
    here looks at them. *)
Definition makedirs (p : string) : FSM unit :=
  fun f => match mkdir_fault env p with
           | Some e => (Raise e, f)
           | None =>
               match f !! resolve env p with
               | Some Dir => (Ok tt, f)
               | Some (File _) => (Raise (Exn OSError ("File exists: " +:+ p)), f)
               | None => (Ok tt, <[resolve env p := Dir]> f)
               end
           end.

(** [open(p, "r").read()] *)
Definition read_text (p : string) : FSM string :=
  fun f => match read_fault env p with
           | Some e => (Raise e, f)
           | None =>
               match f !! resolve env p with
               | Some (File c) => (Ok c, f)
               | Some Dir => (Raise (Exn OSError ("Is a directory: " +:+ p)), f)
               | None => (Raise (Exn OSError ("No such file or directory: " +:+ p)), f)
               end
           end.

(** [open(p, "w").write(c)]: the file is replaced. *)
Definition write_text (p c : string) : FSM unit :=
  fun f => match write_fault env p with
           | Some e => (Raise e, f)
           | None =>
               match f !! resolve env p with
               | Some Dir => (Raise (Exn OSError ("Is a directory: " +:+ p)), f)
               | _ => (Ok tt, <[resolve env p := File c]> f)
               end
           end.

(** [datetime.now().timestamp()] *)
Definition datetime_now : M Z :=
  fun w => (Ok (clock env (clock_reads w)),
            mkWorld (redis_db w) (redis_writes w) (redis_calls w) (S (clock_reads w))
                    (uuid_calls w) (fs w) (op_calls w) (sleeps w) (logs w)
                    (background_tasks w)).

(** [str(uuid.uuid4())] *)
Definition uuid_uuid4 : M string :=
  fun w => (Ok (uuid4 env (uuid_calls w)),
            mkWorld (redis_db w) (redis_writes w) (redis_calls w) (clock_reads w)
                    (S (uuid_calls w)) (fs w) (op_calls w) (sleeps w) (logs w)
                    (background_tasks w)).

(** [redis_client.set(key, json.dumps(status_obj))]: the store keeps the
    encoded record; a faulty call leaves the store as it was. *)
Definition redis_set (key : string) (value : TaskStatus) : M unit :=
  fun w => match redis_fault env (redis_calls w) with
           | Some e =>
               (Raise e,
                mkWorld (redis_db w) (redis_writes w) (S (redis_calls w)) (clock_reads w)
                        (uuid_calls w) (fs w) (op_calls w) (sleeps w) (logs w)
                        (background_tasks w))
           | None =>
               (Ok tt,
                mkWorld (<[key := value]> (redis_db w)) (redis_writes w ++ [(key, value)])
                        (S (redis_calls w)) (clock_reads w)
                        (uuid_calls w) (fs w) (op_calls w) (sleeps w) (logs w)
                        (background_tasks w))
           end.

(** [logging.critical(msg)] *)
Definition logging_critical (msg : string) : M unit :=
  fun w => (Ok tt,
            mkWorld (redis_db w) (redis_writes w) (redis_calls w) (clock_reads w)
                    (uuid_calls w) (fs w) (op_calls w) (sleeps w) (logs w ++ [msg])
                    (background_tasks w)).

(** [time.sleep(d)] *)
Definition time_sleep (d : Z) : M unit :=
  fun w => (Ok tt,
            mkWorld (redis_db w) (redis_writes w) (redis_calls w) (clock_reads w)
                    (uuid_calls w) (fs w) (op_calls w) (sleeps w ++ [d]) (logs w)
                    (background_tasks w)).

(** The executor's record of one invocation of an op body. *)
Definition record_op_call (name : string) (outcome : option exn) (w : World) : World :=
  mkWorld (redis_db w) (redis_writes w) (redis_calls w) (clock_reads w)
          (uuid_calls w) (fs w) (op_calls w ++ [(name, outcome)]) (sleeps w) (logs w)
          (background_tasks w).

Definition set_background_tasks (q : list BgTask) (w : World) : World :=
  mkWorld (redis_db w) (redis_writes w) (redis_calls w) (clock_reads w)
          (uuid_calls w) (fs w) (op_calls w) (sleeps w) (logs w) q.

(** [background_tasks.add_task(run_pipeline_in_background, ...)] *)
Definition add_task (t : BgTask) : M unit :=
  fun w => (Ok tt, set_background_tasks (background_tasks w ++ [t]) w).

End Primitives.

(** ** pipeline/config.py *)

Section Config.
Context (env : Env).

(** [@validator("wsi_folder", pre=True)] *)
Definition validate_input_folder (v : string) : FSM string :=
  fun f =>
    let path := expanduser env v in
    if negb (path_exists env f path)
    then (Raise (Exn ValueError ("Input WSI folder does not exist: " +:+ v)), f)
    else (Ok (resolve env path), f).

(** [@validator("output_folder", pre=True)] *)
Definition validate_output_folder (v : string) : FSM string :=
  let path := expanduser env v in
  makedirs env path ;;;
  ret (resolve env path).

(** Where pydantic-settings takes a field's input from: the keyword
    argument if given, else the environment. *)
Definition field_source {A} (kw ev : option A) : option A :=
  match kw with
  | Some v => Some v
  | None => ev
  end.

(** A field with a default: keyword argument, else environment, else default. *)
Definition field_value {A} (kw ev : option A) (default : A) : A :=
  match field_source kw ev with
  | Some v => v
  | None => default
  end.

(** pydantic runs a field's validator on its input: a missing required
    field and a [ValueError] of the validator become line errors of the
    [ValidationError] raised at the end; any other exception of a
    validator propagates at once. *)
Definition validate_field (name : string) (input : option string)
    (validator : string -> FSM string) : FSM (string + string) :=
  match input with
  | None => ret (inr (name +:+ ": Field required"))
  | Some v =>
      try_except (r <- validator v ;; ret (inl r))
        (fun e => match exn_cls e with
                  | ValueError => ret (inr (name +:+ ": Value error, " +:+ str e))
                  | _ => raise e
                  end)
  end.

(** The object pydantic builds once the two folders are validated: every
    other field is its keyword argument, else its environment value, else
    its default. *)
Definition PipelineSettings_fields (kw : Kwargs.t) (wsi_folder output_folder : string)
    : PipelineSettings.t :=
  let ev := environ env in
  PipelineSettings.Build
    wsi_folder
    (field_value (Kwargs.file_ending kw) (Kwargs.file_ending ev) ".svs")
    (field_value (Kwargs.save_patches kw) (Kwargs.save_patches ev) false)
    output_folder
    (field_value (Kwargs.batch_size kw) (Kwargs.batch_size ev) 32)
    (field_value (Kwargs.max_workers kw) (Kwargs.max_workers ev) (cpu_count env))
    (field_value (Kwargs.execution_timeout kw) (Kwargs.execution_timeout ev) 3600)
    (field_value (Kwargs.max_retries kw) (Kwargs.max_retries ev) 2)
    (field_value (Kwargs.ctranspath_model_path kw) (Kwargs.ctranspath_model_path ev)
       "data/models/ctranspath.pth")
    (field_value (Kwargs.histogpt_model_path kw) (Kwargs.histogpt_model_path ev)
       "data/models/histogpt-1b-6k-pruned.pth")
    (field_value (Kwargs.ctranspath_model_url kw) (Kwargs.ctranspath_model_url ev)
       "https://huggingface.co/marr-peng-lab/histogpt/resolve/main/ctranspath.pth?download=true")
    (field_value (Kwargs.histogpt_model_url kw) (Kwargs.histogpt_model_url ev)
       "https://huggingface.co/marr-peng-lab/histogpt/resolve/main/histogpt-1b-6k-pruned.pth?download=true")
    (field_value (Kwargs.patch_size kw) (Kwargs.patch_size ev) 256)
    (field_value (Kwargs.white_thresh kw) (Kwargs.white_thresh ev) "170,185,175")
    (field_value (Kwargs.edge_threshold kw) (Kwargs.edge_threshold ev) 2)
    (field_value (Kwargs.downscaling_factor kw) (Kwargs.downscaling_factor ev) (4 # 1)%Q)
    (field_source (Kwargs.diagnosis_prompt kw) (Kwargs.diagnosis_prompt ev)).

(** The constructor [PipelineSettings(...)]: the fields are validated in
    the order of their declaration, [wsi_folder] before [output_folder]. *)
Definition PipelineSettings_init (kw : Kwargs.t) : FSM PipelineSettings.t :=
  let ev := environ env in
  wsi <- validate_field "wsi_folder"
           (field_source (Kwargs.wsi_folder kw) (Kwargs.wsi_folder ev))
           validate_input_folder ;;
  out <- validate_field "output_folder"
           (field_source (Kwargs.output_folder kw) (Kwargs.output_folder ev))
           validate_output_folder ;;
  match wsi, out with
  | inl wsi_folder, inl output_folder =>
      ret (PipelineSettings_fields kw wsi_folder output_folder)
  | inr e1, inr e2 =>
      raise (Exn ValidationError
               ("2 validation errors for PipelineSettings: " +:+ e1 +:+ "; " +:+ e2))
  | inr e1, inl _ | inl _, inr e1 =>
      raise (Exn ValidationError ("1 validation error for PipelineSettings: " +:+ e1))
  end.

(** [settings.dict()] *)
Definition dict (s : PipelineSettings.t) : Kwargs.t :=
  Kwargs.Build
    (Some (PipelineSettings.wsi_folder s))
    (Some (PipelineSettings.file_ending s))
    (Some (PipelineSettings.save_patches s))
    (Some (PipelineSettings.output_folder s))
    (Some (PipelineSettings.batch_size s))
    (Some (PipelineSettings.max_workers s))
    (Some (PipelineSettings.execution_timeout s))
    (Some (PipelineSettings.max_retries s))
    (Some (PipelineSettings.ctranspath_model_path s))
    (Some (PipelineSettings.histogpt_model_path s))
    (Some (PipelineSettings.ctranspath_model_url s))
    (Some (PipelineSettings.histogpt_model_url s))
    (Some (PipelineSettings.patch_size s))
    (Some (PipelineSettings.white_thresh s))
    (Some (PipelineSettings.edge_threshold s))
    (Some (PipelineSettings.downscaling_factor s))
    (PipelineSettings.diagnosis_prompt s).

(** [load_app_settings(None)] *)
Definition load_app_settings : FSM AppSettings.t := ret (app_settings env).

(** The keyword arguments of the fallback in [load_pipeline_settings]. *)
Definition fallback_kwargs : Kwargs.t :=
  Kwargs.Build (Some "data/wsi") None None (Some "data/test_output")
    None None None None None None None None None None None None None.

(** [load_pipeline_settings(json_path)] *)
Definition load_pipeline_settings (json_path : option string) : FSM PipelineSettings.t :=
  let from_environment : FSM PipelineSettings.t :=
    try_except (PipelineSettings_init Kwargs.empty)
      (fun _ => PipelineSettings_init fallback_kwargs) in
  fun f =>
    match json_path with
    | Some p =>
        if negb (String.eqb p "") && path_exists env f p
        then
          try_except
            (match json_load_pipeline env p with
             | Ok pipeline_data => PipelineSettings_init pipeline_data
             | Raise e => raise e
             end)
            (fun ex => raise (Exn ValueError
                 ("Failed to load or parse pipeline config from '" +:+ p +:+ "': " +:+ str ex)))
            f
        else from_environment f
    | None => from_environment f
    end.

End Config.

(** ** pipeline/utils.py *)

Section Utils.
Context (env : Env).

Definition chunks_length (chunks : list string) : Z :=
  fold_right (fun c n => Z.of_nat (String.length c) + n) 0 chunks.

(** [download_file(url, dest_path)] *)
Definition download_file (url dest_path : string) : FSM unit :=
  makedirs env (dirname env dest_path) ;;;
  response <- (fun f => (http_get env url, f)) ;;
  if negb (status_code response =? 200)%Z
  then raise (Exn RuntimeError ("Failed to download from " +:+ url +:+
                                ". HTTP Status: " +:+ pretty (status_code response)))
  else
    let total_size := content_length response in
    write_text env dest_path (String.concat "" (iter_content response)) ;;;
    if negb (total_size =? 0)%Z && negb (chunks_length (iter_content response) =? total_size)%Z
    then raise (Exn RuntimeError "Download ended prematurely. File size mismatch.")
    else ret tt.

End Utils.

(** ** The inter-stage records *)

Module ItemStatus.
Inductive t : Type := success | error | skipped.
End ItemStatus.

(** An item of the list returned by [run_embeddings]. *)
Module Embedding.
Record t : Type := Build {
  wsi_name : string;
  hdf5_path : option string;
  status : ItemStatus.t;
  error : option string
}.
End Embedding.

(** An item of the list returned by [generate_report]. *)
Module Report.
Record t : Type := Build {
  wsi_name : string;
  report_path : option string;
  status : ItemStatus.t;
  error : option string
}.
End Report.

(** [s.endswith(suffix)] *)
Definition endswith (s suffix : string) : bool :=
  (String.length suffix <=? String.length s)%nat &&
  String.eqb (String.substring (String.length s - String.length suffix)
                               (String.length suffix) s) suffix.

(** [for x in l: ...] with a body that may raise. *)
Fixpoint for_each {S A B} (body : A -> SE S B) (l : list A) : SE S (list B) :=
  match l with
  | [] => ret []
  | x :: rest =>
      y <- body x ;;
      ys <- for_each body rest ;;
      ret (y :: ys)
  end.

(** ** pipeline/ops/embeddings.py *)

Section Embeddings.
Context (env : Env).

(** [[int(x) for x in white_thresh_str.split(",")]] *)
Definition parse_white_thresh (white_thresh_str : string) : FSM (list Z) :=
  for_each
    (fun x => match parse_int env x with
              | Some n => ret n
              | None => raise (Exn ValueError
                           ("invalid literal for int() with base 10: '" +:+ x +:+ "'"))
              end)
    (split_comma env white_thresh_str).

(** The items collected from one [(root, files)] of [os.walk]. *)
Definition h5_items (root : string) (files : list string) : list Embedding.t :=
  flat_map
    (fun fname =>
       if endswith fname ".h5"
       then [Embedding.Build (splitext env fname) (Some (path_join env root fname))
                             ItemStatus.success None]
       else [])
    files.

(** [run_embeddings(context, config_dict)] *)
Definition run_embeddings (config_dict : PipelineSettings.t) : FSM (list Embedding.t) :=
  let wsi_folder := PipelineSettings.wsi_folder config_dict in
  let file_ending := PipelineSettings.file_ending config_dict in
  let ctranspath_url := PipelineSettings.ctranspath_model_url config_dict in
  let output_folder := PipelineSettings.output_folder config_dict in
  let ctranspath_model_path := PipelineSettings.ctranspath_model_path config_dict in
  exists_wsi <- (fun f => (Ok (path_exists env f wsi_folder), f)) ;;
  if negb exists_wsi
  then raise (Exn ValueError ("WSI folder does not exist: " +:+ wsi_folder))
  else
    have_model <- (fun f => (Ok (isfile env f ctranspath_model_path), f)) ;;
    (if negb have_model
     then try_except (download_file env ctranspath_url ctranspath_model_path)
                     (fun e => raise e)
     else ret tt) ;;;
    white_thresh <- parse_white_thresh (PipelineSettings.white_thresh config_dict) ;;
    let patch_configs :=
      mkPatchingConfigs wsi_folder output_folder ctranspath_model_path
        (PipelineSettings.save_patches config_dict) file_ending white_thresh
        (PipelineSettings.patch_size config_dict)
        (PipelineSettings.edge_threshold config_dict)
        (PipelineSettings.downscaling_factor config_dict)
        (PipelineSettings.batch_size config_dict)
        (0 # 1)%Q in
    try_except (run_patching env patch_configs) (fun e => raise e) ;;;
    let hdf5_dir := path_join env output_folder "h5_files" in
    exists_dir <- (fun f => (Ok (path_exists env f hdf5_dir), f)) ;;
    if negb exists_dir
    then ret []
    else
      walk <- (fun f => (Ok (os_walk env f hdf5_dir), f)) ;;
      ret (flat_map (fun '(root, files) => h5_items root files) walk).

End Embeddings.

(** ** pipeline/ops/report_gen.py *)

Section ReportGen.
Context (env : Env).

(** The body of the loop over [embeddings].  Where the features are read,
    [os.path.exists] has returned, so [hdf5_path] is a string. *)
Definition report_for (reports_dir initial_prompt : string) (item : Embedding.t)
    : FSM Report.t :=
  let wsi_name := Embedding.wsi_name item in
  let hdf5_path := Embedding.hdf5_path item in
  match Embedding.status item with
  | ItemStatus.error =>
      ret (Report.Build wsi_name None ItemStatus.skipped (Some "Embedding step failed"))
  | _ =>
      present <- os_path_exists env hdf5_path ;;
      if negb present
      then ret (Report.Build wsi_name None ItemStatus.error (Some "Missing HDF5 features"))
      else
        try_except
          (decoded_text <- (fun f => (histogpt_generate env (default "" hdf5_path)
                                        initial_prompt f, f)) ;;
           let report_path := path_join env reports_dir (wsi_name +:+ ".txt") in
           write_text env report_path decoded_text ;;;
           ret (Report.Build wsi_name (Some report_path) ItemStatus.success None))
          (fun e => ret (Report.Build wsi_name None ItemStatus.error (Some (str e))))
  end.

(** [generate_report(context, embeddings, config_dict)] *)
Definition generate_report (embeddings : list Embedding.t)
    (config_dict : PipelineSettings.t) : FSM (list Report.t) :=
  match embeddings with
  | [] => ret []
  | _ =>
      let output_folder := PipelineSettings.output_folder config_dict in
      let histogpt_path := PipelineSettings.histogpt_model_path config_dict in
      let histogpt_url := PipelineSettings.histogpt_model_url config_dict in
      have_model <- (fun f => (Ok (isfile env f histogpt_path), f)) ;;
      (if negb have_model
       then try_except (download_file env histogpt_url histogpt_path) (fun e => raise e)
       else ret tt) ;;;
      let reports_dir := path_join env output_folder "reports" in
      makedirs env reports_dir ;;;
      try_except
        (fun f => match torch_load env histogpt_path f with
                  | Some e => (Raise e, f)
                  | None => (Ok tt, f)
                  end)
        (fun e => raise e) ;;;
      match tokenizer_fault env with Some e => raise e | None => ret tt end ;;;
      let initial_prompt :=
        default "Final diagnosis:" (PipelineSettings.diagnosis_prompt config_dict) in
      for_each (report_for reports_dir initial_prompt) embeddings
  end.

End ReportGen.

(** ** pipeline/ops/aggregate.py *)

Section Aggregate.
Context (env : Env).

(** The [try] block of the loop over [reports]: the row of a report that
    could be read, [None] for one counted in [failed_files].  Where the
    file is read, [os.path.exists] has returned, so [rep_path] is a
    string. *)
Definition read_report (rep : Report.t) : FSM (option (list string)) :=
  let wsi_name := Report.wsi_name rep in
  let rep_path := Report.report_path rep in
  try_except
    (present <- os_path_exists env rep_path ;;
     if negb present
     then ret None
     else
       text <- read_text env (default "" rep_path) ;;
       ret (Some [wsi_name; text]))
    (fun exc => ret None).

(** The loop: [(aggregated_rows, failed_files)]. *)
Fixpoint aggregate_loop (reports : list Report.t)
    (aggregated_rows : list (list string)) (failed_files : list string)
    : FSM (list (list string) * list string) :=
  match reports with
  | [] => ret (aggregated_rows, failed_files)
  | rep :: rest =>
      row <- read_report rep ;;
      match row with
      | Some r => aggregate_loop rest (aggregated_rows ++ [r]) failed_files
      | None => aggregate_loop rest aggregated_rows (failed_files ++ [Report.wsi_name rep])
      end
  end.

(** [aggregate_reports(context, reports, config_dict)] *)
Definition aggregate_reports (reports : list Report.t)
    (config_dict : PipelineSettings.t) : FSM unit :=
  match reports with
  | [] => ret tt
  | _ =>
      let output_folder := PipelineSettings.output_folder config_dict in
      makedirs env output_folder ;;;
      let csv_path := path_join env output_folder "results.csv" in
      collected <- aggregate_loop reports [] [] ;;
      let '(aggregated_rows, failed_files) := collected in
      let df :=
        match aggregated_rows with
        | [] => mkDataFrame ["wsi_name"; "report_text"] []
        | _ => mkDataFrame ["wsi_name"; "report_text"] aggregated_rows
        end in
      try_except (write_text env csv_path (to_csv env df)) (fun e => raise e)
  end.

End Aggregate.

(** ** The executor *)

Module Dagster.

Record RetryPolicy : Type := mkRetryPolicy { max_retries : nat; delay : Z }.

(** An op: the decorated function with its name and retry policy. *)
Record Op (A : Type) : Type := mkOp {
  op_name : string;
  retry_policy : option RetryPolicy;
  op_body : M A
}.
Arguments mkOp {A} _ _ _.
Arguments op_name {A} _.
Arguments retry_policy {A} _.
Arguments op_body {A} _.

Record DagsterEvent : Type := mkEvent {
  event_type_value : string;
  message : string
}.

Record ExecuteJobResult : Type := mkResult {
  success : bool;
  all_events : list DagsterEvent
}.

(** Modelled from the spec: the executor's handling of one stage, which
    the repository takes from the Dagster library.  The stage function is
    invoked; when it fails and retries are left, the executor sleeps
    [delay] and invokes the same stage again from scratch; when none is
    left the failure ends the run. *)
Fixpoint invoke_with_retries {A} (name : string) (retries_left : nat) (delay : Z)
    (body : M A) : M A :=
  fun w =>
    match body w with
    | (Ok a, w') => (Ok a, record_op_call name None w')
    | (Raise e, w') =>
        match retries_left with
        | O => (Raise e, record_op_call name (Some e) w')
        | S n =>
            (time_sleep delay ;;; invoke_with_retries name n delay body)
              (record_op_call name (Some e) w')
        end
    end.

(** Modelled from the spec: a stage is run under its own retry policy; one
    without a policy is not retried. *)
Definition execute_op {A} (o : Op A) : M A :=
  match retry_policy o with
  | Some p => invoke_with_retries (op_name o) (max_retries p) (delay p) (op_body o)
  | None => invoke_with_retries (op_name o) 0 0 (op_body o)
  end.

(** Modelled from the spec: [execute_job], also Dagster's.  The job's
    stage chain is run; a stage failure that exhausted its retries makes
    the run fail and is not raised to the caller.  What the events of
    the result say is the library's business: they are [events] of the
    record of the run's op invocations. *)
Definition execute_job (events : list (string * option exn) -> list DagsterEvent)
    (job : M unit) : M ExecuteJobResult :=
  fun w =>
    match job w with
    | (r, w') =>
        (Ok (mkResult (is_Ok r) (events (drop (length (op_calls w)) (op_calls w')))), w')
    end.

End Dagster.

(** ** pipeline/pipeline_definition.py *)

Section PipelineDefinition.
Context (env : Env).

Definition load_config_op (op_config : PipelineSettings.t) : Dagster.Op PipelineSettings.t :=
  Dagster.mkOp "load_config_op" None (ret op_config).

Definition process_embeddings_op (config_dict : PipelineSettings.t)
    : Dagster.Op (list Embedding.t) :=
  Dagster.mkOp "process_embeddings_op" (Some (Dagster.mkRetryPolicy 2 30))
    (lift_fs (run_embeddings env config_dict)).

Definition process_report_gen_op (config_dict : PipelineSettings.t)
    (embeddings : list Embedding.t) : Dagster.Op (list Report.t) :=
  Dagster.mkOp "process_report_gen_op" (Some (Dagster.mkRetryPolicy 2 30))
    (lift_fs (generate_report env embeddings config_dict)).

Definition process_aggregation_op (config_dict : PipelineSettings.t)
    (reports : list Report.t) : Dagster.Op unit :=
  Dagster.mkOp "process_aggregation_op" None
    (lift_fs (aggregate_reports env reports config_dict)).

(** The job: [op_config] is the [run_config] entry of [load_config_op]. *)
Definition histogpt_pipeline (op_config : PipelineSettings.t) : M unit :=
  config_dict <- Dagster.execute_op (load_config_op op_config) ;;
  embeddings <- Dagster.execute_op (process_embeddings_op config_dict) ;;
  reports <- Dagster.execute_op (process_report_gen_op config_dict embeddings) ;;
  Dagster.execute_op (process_aggregation_op config_dict reports).

End PipelineDefinition.

(** ** fastapi_app/main.py *)

Section Main.
Context (env : Env).

(** [update_task_status(redis_client, task_id, status_obj)] *)
Definition update_task_status (task_id : string) (status_obj : TaskStatus) : M unit :=
  try_except (redis_set env ("task:" +:+ task_id) status_obj)
    (fun e => logging_critical
                ("Failed to update status for task " +:+ task_id +:+ ": " +:+ str e)).

(** The events of a run as [DagsterEvent]s. *)
Definition dagster_events (tr : list (string * option exn)) : list Dagster.DagsterEvent :=
  map (fun tm => Dagster.mkEvent (fst tm) (snd tm)) (run_events env tr).

(** The message of the first [PIPELINE_FAILURE] event. *)
Definition failure_message (events : list Dagster.DagsterEvent) : string :=
  match List.find (fun e => String.eqb (Dagster.event_type_value e) "PIPELINE_FAILURE")
                  events with
  | Some failure_event => Dagster.message failure_event
  | None => "Unknown pipeline error"
  end.

(** [run_pipeline_in_background(task_id, app_config, pipeline_config,
    redis_client)].  No statement of the [try] block that follows a
    change of [status_obj] can raise, so the handlers see the record as it
    was first built. *)
Definition run_pipeline_in_background (task_id : string) (app_config : AppSettings.t)
    (pipeline_config : PipelineSettings.t) : M unit :=
  current_time <- datetime_now env ;;
  let status_obj := mkTaskStatus running current_time None None None pipeline_config in
  status_obj <-
    try_except
      (update_task_status task_id status_obj ;;;
       match setup_logging_fault env with Some e => raise e | None => ret tt end ;;;
       (* os.path.abspath(os.path.expanduser(app_config.dagster_home)) *)
       let dagster_home :=
         resolve env (expanduser env (AppSettings.dagster_home app_config)) in
       lift_fs (makedirs env dagster_home) ;;;
       match dagster_fault env with Some e => raise e | None => ret tt end ;;;
       result <- Dagster.execute_job dagster_events
                   (histogpt_pipeline env pipeline_config) ;;
       final_time <- datetime_now env ;;
       let status_obj :=
         if Dagster.success result
         then with_results (Some [("success", true)]) (with_status completed status_obj)
         else with_error (Some (failure_message (Dagster.all_events result)))
                (with_status failed status_obj) in
       ret (with_end_time (Some final_time) status_obj))
      (fun e =>
         if is_RedisError e
         then
           t <- datetime_now env ;;
           ret (with_end_time (Some t)
                  (with_error (Some ("Redis error: " +:+ str e))
                     (with_status failed status_obj)))
         else
           t <- datetime_now env ;;
           ret (with_end_time (Some t)
                  (with_error (Some (str e)) (with_status failed status_obj)))) ;;
  update_task_status task_id status_obj.

(** [{k: v for k, v in config.dict().items() if v is not None}] *)
Definition user_overrides (config : ApiPipelineConfig.t) : Kwargs.t :=
  Kwargs.Build
    (ApiPipelineConfig.wsi_folder config)
    (ApiPipelineConfig.file_ending config)
    (ApiPipelineConfig.save_patches config)
    (ApiPipelineConfig.output_folder config)
    (ApiPipelineConfig.batch_size config)
    (ApiPipelineConfig.max_workers config)
    None None None None None None None None None None None.

(** [{**a, **b}] *)
Definition dict_merge (a b : Kwargs.t) : Kwargs.t :=
  Kwargs.Build
    (field_source (Kwargs.wsi_folder b) (Kwargs.wsi_folder a))
    (field_source (Kwargs.file_ending b) (Kwargs.file_ending a))
    (field_source (Kwargs.save_patches b) (Kwargs.save_patches a))
    (field_source (Kwargs.output_folder b) (Kwargs.output_folder a))
    (field_source (Kwargs.batch_size b) (Kwargs.batch_size a))
    (field_source (Kwargs.max_workers b) (Kwargs.max_workers a))
    (field_source (Kwargs.execution_timeout b) (Kwargs.execution_timeout a))
    (field_source (Kwargs.max_retries b) (Kwargs.max_retries a))
    (field_source (Kwargs.ctranspath_model_path b) (Kwargs.ctranspath_model_path a))
    (field_source (Kwargs.histogpt_model_path b) (Kwargs.histogpt_model_path a))
    (field_source (Kwargs.ctranspath_model_url b) (Kwargs.ctranspath_model_url a))
    (field_source (Kwargs.histogpt_model_url b) (Kwargs.histogpt_model_url a))
    (field_source (Kwargs.patch_size b) (Kwargs.patch_size a))
    (field_source (Kwargs.white_thresh b) (Kwargs.white_thresh a))
    (field_source (Kwargs.edge_threshold b) (Kwargs.edge_threshold a))
    (field_source (Kwargs.downscaling_factor b) (Kwargs.downscaling_factor a))
    (field_source (Kwargs.diagnosis_prompt b) (Kwargs.diagnosis_prompt a)).

(** The settings part of [start_pipeline]: load the base settings and
    merge the request into them. *)
Definition merge_settings (config : ApiPipelineConfig.t) : FSM PipelineSettings.t :=
  pipeline_config <- load_pipeline_settings env None ;;
  let user_overrides := user_overrides config in
  let pipeline_data := dict_merge (dict pipeline_config) user_overrides in
  PipelineSettings_init env pipeline_data.

(** [start_pipeline(config, background_tasks)] *)
Definition start_pipeline (config : ApiPipelineConfig.t) : M string :=
  try_except
    (app_config <- lift_fs (load_app_settings env) ;;
     merged_pipeline_settings <- lift_fs (merge_settings config) ;;
     wsi_present <- (fun w => (Ok (path_exists env (fs w)
                        (PipelineSettings.wsi_folder merged_pipeline_settings)), w)) ;;
     if negb wsi_present
     then raise (Exn (HTTPException 400)
                   ("WSI folder does not exist: " +:+
                    PipelineSettings.wsi_folder merged_pipeline_settings))
     else
       lift_fs (makedirs env (PipelineSettings.output_folder merged_pipeline_settings)) ;;;
       task_id <- uuid_uuid4 env ;;
       now <- datetime_now env ;;
       let init_status := mkTaskStatus queued now None None None merged_pipeline_settings in
       try_except (update_task_status task_id init_status)
         (fun e =>
            if is_RedisError e
            then raise (Exn (HTTPException 500) ("Failed to initialize task: " +:+ str e))
            else raise e) ;;;
       add_task (mkBgTask task_id app_config merged_pipeline_settings) ;;;
       ret task_id)
    (fun e =>
       if is_HTTPException e
       then raise e
       else raise (Exn (HTTPException 500) ("Failed to start pipeline: " +:+ str e))).

(** The background tasks of a request, run in the order they were added. *)
Fixpoint run_background_tasks (tasks : list BgTask) : M unit :=
  match tasks with
  | [] => ret tt
  | t :: rest =>
      run_pipeline_in_background (bg_task_id t) (bg_app_config t) (bg_pipeline_config t) ;;;
      run_background_tasks rest
  end.

(** [POST /run-pipeline] as the framework serves it: the handler gets a
    fresh [BackgroundTasks]; when it returned, the response goes out and
    the queued tasks run. *)
Definition post_run_pipeline (config : ApiPipelineConfig.t) : M string :=
  fun w =>
    match start_pipeline config (set_background_tasks [] w) with
    | (Ok task_id, w1) =>
        let '(_, w2) := run_background_tasks (background_tasks w1) w1 in
        (Ok task_id, w2)
    | (Raise e, w1) => (Raise e, w1)
    end.

End Main.

(** ** Vocabulary of the properties *)

(** What a run added to the executor's record and to the store's. *)
Definition new_op_calls (w w' : World) : list (string * option exn) :=
  drop (length (op_calls w)) (op_calls w').
Definition new_writes (w w' : World) : list (string * TaskStatus) :=
  drop (length (redis_writes w)) (redis_writes w').

(** The invocations of the op [name] in a record, and whether one of them
    returned. *)
Definition attempts (name : string) (tr : list (string * option exn))
    : list (string * option exn) :=
  List.filter (fun c => String.eqb (fst c) name) tr.
Definition succeeded (name : string) (tr : list (string * option exn)) : bool :=
  existsb (fun c => String.eqb (fst c) name &&
                    match snd c with None => true | Some _ => false end) tr.

(** The order [queued -> running -> {completed | failed}]: the status a
    record may take after [s]. *)
Definition transition_ok (s s' : Status) : bool :=
  match s, s' with
  | queued, _ => true
  | running, queued => false
  | running, _ => true
  | completed, completed => true
  | failed, failed => true
  | _, _ => false
  end.

Definition is_terminal (s : Status) : bool :=
  match s with
  | completed | failed => true
  | _ => false
  end.

(** Every later element stands in [R] to every earlier one. *)
Fixpoint ordered {A} (R : A -> A -> bool) (l : list A) : bool :=
  match l with
  | [] => true
  | x :: rest => forallb (R x) rest && ordered R rest
  end.

(** The parts of the world that only the lifecycle functions touch. *)
Definition same_control (w w' : World) : Prop :=
  redis_db w' = redis_db w /\ redis_writes w' = redis_writes w /\
  redis_calls w' = redis_calls w /\ clock_reads w' = clock_reads w /\
  uuid_calls w' = uuid_calls w /\ logs w' = logs w /\
  background_tasks w' = background_tasks w.

(** What [start_pipeline] does once the settings are merged and checked. *)
Definition accept (env : Env) (app_config : AppSettings.t) (merged : PipelineSettings.t) : M string :=
  task_id <- uuid_uuid4 env ;;
  now <- datetime_now env ;;
  update_task_status env task_id (mkTaskStatus queued now None None None merged) ;;;
  add_task (mkBgTask task_id app_config merged) ;;;
  ret task_id.

(** The [try] block of [run_pipeline_in_background] between the first
    status write and the reading of the result. *)
Definition run_job (env : Env) (app_config : AppSettings.t)
    (pipeline_config : PipelineSettings.t) : M Dagster.ExecuteJobResult :=
  match setup_logging_fault env with Some e => raise e | None => ret tt end ;;;
  lift_fs (makedirs env (resolve env (expanduser env (AppSettings.dagster_home app_config)))) ;;;
  match dagster_fault env with Some e => raise e | None => ret tt end ;;;
  Dagster.execute_job (dagster_events env) (histogpt_pipeline env pipeline_config).

(** The records [run_pipeline_in_background] writes: the first one, and
    the last one by the outcome of [run_job]. *)
Definition running_record (t0 : Z) (pipeline_config : PipelineSettings.t) : TaskStatus :=
  mkTaskStatus running t0 None None None pipeline_config.

Definition final_record (t0 t1 : Z) (pipeline_config : PipelineSettings.t)
    (outcome : result Dagster.ExecuteJobResult) : TaskStatus :=
  match outcome with
  | Ok result =>
      if Dagster.success result
      then mkTaskStatus completed t0 (Some t1) None (Some [("success", true)]) pipeline_config
      else mkTaskStatus failed t0 (Some t1)
             (Some (failure_message (Dagster.all_events result))) None pipeline_config
  | Raise e =>
      mkTaskStatus failed t0 (Some t1)
        (Some (if is_RedisError e then "Redis error: " +:+ str e else str e))
        None pipeline_config
  end.

(** The failures [l] of the op [name], as the executor records them. *)
Definition fails_of (name : string) (l : list exn) : list (string * option exn) :=
  map (fun e => (name, Some e)) l.

(** A computation that leaves the lifecycle's part of the world and the
    executor's record alone. *)
Definition quiet_body {A} (body : M A) : Prop :=
  forall w, same_control w (snd (body w)) /\ op_calls (snd (body w)) = op_calls w.

(** The records the executor can leave for one run of the job, by the
    job's outcome: every stage returned (after at most two failures of a
    stage with the retry policy), or one of the stages failed for good. *)
Inductive pipeline_trace : result unit -> list (string * option exn) -> Prop :=
  | trace_completed (f2 f3 : list exn) :
      (length f2 <= 2)%nat -> (length f3 <= 2)%nat ->
      pipeline_trace (Ok tt)
        (("load_config_op", None) ::
         fails_of "process_embeddings_op" f2 ++ ("process_embeddings_op", None) ::
         fails_of "process_report_gen_op" f3 ++ ("process_report_gen_op", None) ::
         [("process_aggregation_op", None)])%list
  | trace_embeddings_failed (f2 : list exn) (e : exn) :
      length f2 = 2%nat ->
      pipeline_trace (Raise e)
        (("load_config_op", None) :: fails_of "process_embeddings_op" (f2 ++ [e]))%list
  | trace_report_gen_failed (f2 f3 : list exn) (e : exn) :
      (length f2 <= 2)%nat -> length f3 = 2%nat ->
      pipeline_trace (Raise e)
        (("load_config_op", None) ::
         fails_of "process_embeddings_op" f2 ++ ("process_embeddings_op", None) ::
         fails_of "process_report_gen_op" (f3 ++ [e]))%list
  | trace_aggregation_failed (f2 f3 : list exn) (e : exn) :
      (length f2 <= 2)%nat -> (length f3 <= 2)%nat ->
      pipeline_trace (Raise e)
        (("load_config_op", None) ::
         fails_of "process_embeddings_op" f2 ++ ("process_embeddings_op", None) ::
         fails_of "process_report_gen_op" f3 ++ ("process_report_gen_op", None) ::
         [("process_aggregation_op", Some e)])%list.

(** What a run of the worker leaves: the executor's record of the run
    and the last record it hands to the store.  Either the job was not
    started, or it ran and every stage returned, or it ran and a stage
    failed for good with [e]; the error of the record is then what the
    executor's events say of the run. *)
Inductive worker_outcome (env : Env) : list (string * option exn) -> TaskStatus -> Prop :=
  | outcome_not_started (final : TaskStatus) :
      status final = failed -> is_Some (error final) -> results final = None ->
      worker_outcome env [] final
  | outcome_completed (tr : list (string * option exn)) (final : TaskStatus) :
      pipeline_trace (Ok tt) tr ->
      status final = completed -> error final = None ->
      results final = Some [("success", true)] ->
      worker_outcome env tr final
  | outcome_failed (tr : list (string * option exn)) (e : exn) (final : TaskStatus) :
      pipeline_trace (Raise e) tr ->
      status final = failed ->
      error final = Some (failure_message (dagster_events env tr)) ->
      results final = None ->
      worker_outcome env tr final.

(** The record [start_pipeline] writes. *)
Definition queued_record (now : Z) (merged : PipelineSettings.t) : TaskStatus :=
  mkTaskStatus queued now None None None merged.

(** What a SET adds to the store's record, by the store's answer. *)
Definition written (fault : option exn) (key : string) (value : TaskStatus)
    : list (string * TaskStatus) :=
  match fault with
  | None => [(key, value)]
  | Some _ => []
  end.

(** The input and output locations a request asks for, given the loaded
    base settings: the request's own when it names one. *)
Definition requested_wsi_folder (config : ApiPipelineConfig.t) (base : PipelineSettings.t)
    : string :=
  default (PipelineSettings.wsi_folder base) (ApiPipelineConfig.wsi_folder config).
Definition requested_output_folder (config : ApiPipelineConfig.t) (base : PipelineSettings.t)
    : string :=
  default (PipelineSettings.output_folder base) (ApiPipelineConfig.output_folder config).

(** The CSV row of a report whose source file can be read in [f]; [None]
    for a report without a path, with a missing file, with a directory in
    its place or with a file that cannot be read. *)
Definition report_row (env : Env) (f : FS) (rep : Report.t) : option (list string) :=
  match Report.report_path rep with
  | None => None
  | Some p =>
      match read_fault env p, f !! resolve env p with
      | None, Some (File text) => Some [Report.wsi_name rep; text]
      | _, _ => None
      end
  end.

(** The reports counted as failed: those without a row. *)
Definition unreadable (env : Env) (f : FS) (reports : list Report.t) : list Report.t :=
  List.filter (fun rep => match report_row env f rep with None => true | Some _ => false end)
              reports.

(** The entry [generate_report] gives for an item it does not act on. *)
Definition skipped_entry (item : Embedding.t) : Report.t :=
  Report.Build (Embedding.wsi_name item) None ItemStatus.skipped
               (Some "Embedding step failed").

(** The paths the report and aggregation stages write under. *)
Definition reports_dir (env : Env) (config_dict : PipelineSettings.t) : string :=
  path_join env (PipelineSettings.output_folder config_dict) "reports".
Definition results_csv (env : Env) (config_dict : PipelineSettings.t) : string :=
  path_join env (PipelineSettings.output_folder config_dict) "results.csv".

(** ** A concrete deployment, for running the model *)

Module Demo.

(** Relative paths are taken from the working directory [/app]. *)
Definition resolve (p : string) : string :=
  if String.prefix "/" p then p else "/app/" +:+ p.

Definition initial_fs : FS :=
  <["/data/wsi" := Dir]>
  (<["/app/data/wsi" := Dir]>
  (<["/app/data/models/ctranspath.pth" := File "ctranspath"]>
  (<["/app/data/models/histogpt-1b-6k-pruned.pth" := File "histogpt"]> ∅))).

Definition app : AppSettings.t :=
  AppSettings.Build "development" "INFO" None
    "%(asctime)s - %(name)s - %(levelname)s - %(message)s"
    "redis://localhost:6379" 10 5 3 "/dagster" "3600" "2".

(** The environment names both folders. *)
Definition environ : Kwargs.t :=
  Kwargs.Build (Some "/data/wsi") None None (Some "/data/out")
    None None None None None None None None None None None None None.

(** [os.path] and [int] on the strings met here. *)
Fixpoint before_last (c : ascii) (l : list ascii) : option (list ascii) :=
  match l with
  | [] => None
  | x :: rest =>
      match before_last c rest with
      | Some p => Some (x :: p)
      | None => if Ascii.eqb x c then Some [] else None
      end
  end.

Definition dirname (p : string) : string :=
  match before_last "/" (list_ascii_of_string p) with
  | Some d => string_of_list_ascii d
  | None => ""
  end.

Definition splitext (p : string) : string :=
  match before_last "." (list_ascii_of_string p) with
  | Some d => string_of_list_ascii d
  | None => p
  end.

Fixpoint split_on (c : ascii) (l cur : list ascii) : list string :=
  match l with
  | [] => [string_of_list_ascii cur]
  | x :: rest =>
      if Ascii.eqb x c
      then string_of_list_ascii cur :: split_on c rest []
      else split_on c rest (cur ++ [x])
  end.

Fixpoint parse_digits (l : list ascii) (acc : Z) : option Z :=
  match l with
  | [] => Some acc
  | x :: rest =>
      let n := Z.of_nat (nat_of_ascii x) in
      if (48 <=? n)%Z && (n <=? 57)%Z
      then parse_digits rest (10 * acc + (n - 48))
      else None
  end.

Definition parse_int (s : string) : option Z :=
  match list_ascii_of_string s with
  | [] => None
  | l => parse_digits l 0
  end.

(** The events of a run in the words of the Dagster library: a failed
    run ends with a step failure and a run failure that names the job
    and the failed step. *)
Definition quote : string := String (Ascii.ascii_of_nat 34) "".

Definition failed_step (tr : list (string * option exn)) : option string :=
  match last tr with
  | Some (name, Some _) => Some name
  | _ => None
  end.

Definition run_failure_text (name : string) : string :=
  "Execution of run for " +:+ quote +:+ "histogpt_pipeline" +:+ quote +:+
  " failed. Steps failed: ['" +:+ name +:+ "'].".

Definition run_events (tr : list (string * option exn)) : list (string * string) :=
  match failed_step tr with
  | Some name =>
      [("PIPELINE_START", "Started execution of run for " +:+ quote +:+
                          "histogpt_pipeline" +:+ quote +:+ ".");
       ("STEP_FAILURE", "Execution of step " +:+ quote +:+ name +:+ quote +:+ " failed.");
       ("PIPELINE_FAILURE", run_failure_text name)]
  | None =>
      [("PIPELINE_START", "Started execution of run for " +:+ quote +:+
                          "histogpt_pipeline" +:+ quote +:+ ".");
       ("PIPELINE_SUCCESS", "Finished execution of run for " +:+ quote +:+
                            "histogpt_pipeline" +:+ quote +:+ ".")]
  end.

(** A deployment in which the environment is [environ], the store fails
    as [faults] says and the libraries behave as [patching], [walk] and
    [generate] say. *)
Definition env (environ : Kwargs.t) (faults : nat -> option exn)
    (patching : PatchingConfigs -> FSM unit)
    (walk : FS -> string -> list (string * list string))
    (generate : string -> string -> FS -> result string) : Env :=
  mkEnv environ 4 (fun _ => Ok Kwargs.empty) app
    (fun p => p) resolve
    (fun a b => a +:+ "/" +:+ b)
    dirname splitext walk
    (fun _ => None) (fun _ => None) (fun _ => None)
    (fun n => 1000 + Z.of_nat n)
    (fun n => "task-" +:+ pretty n)
    faults
    None None run_events
    (fun _ => Raise (Exn OtherException "no network"))
    parse_int
    (fun s => split_on "," (list_ascii_of_string s) [])
    patching (fun _ _ => None) None generate
    (fun df => String.concat "," (columns df)).

(** The store is up, patching leaves no features. *)
Definition quiet : Env :=
  env environ (fun _ => None) (fun _ => ret tt) (fun _ _ => [])
    (fun _ _ _ => Ok "report").

(** The store refuses every write. *)
Definition store_down : Env :=
  env environ (fun _ => Some (Exn RedisConnectionError "Connection refused"))
    (fun _ => ret tt) (fun _ _ => []) (fun _ _ _ => Ok "report").

(** Patching fails on every call. *)
Definition patching_fails : Env :=
  env environ (fun _ => None) (fun _ => raise (Exn RuntimeError "patching failed"))
    (fun _ _ => []) (fun _ _ _ => Ok "report").

Definition world : World := mkWorld ∅ [] 0 0 0 initial_fs [] [] [] [].

(** The settings the environment above resolves to. *)
Definition settings : PipelineSettings.t :=
  PipelineSettings.Build "/data/wsi" ".svs" false "/data/out" 32 4 3600 2
    "data/models/ctranspath.pth" "data/models/histogpt-1b-6k-pruned.pth"
    "https://huggingface.co/marr-peng-lab/histogpt/resolve/main/ctranspath.pth?download=true"
    "https://huggingface.co/marr-peng-lab/histogpt/resolve/main/histogpt-1b-6k-pruned.pth?download=true"
    256 "170,185,175" 2 (4 # 1)%Q None.

Definition empty_request : ApiPipelineConfig.t :=
  ApiPipelineConfig.Build None None None None None None.

(** Patching leaves the features of one slide, next to a stray file. *)
Definition with_features : Env :=
  env environ (fun _ => None)
    (fun _ f => (Ok tt, <["/data/out/h5_files" := Dir]>
                          (<["/data/out/h5_files/slide1.h5" := File "feats"]> f)))
    (fun _ root => [(root, ["slide1.h5"; "notes.txt"])])
    (fun _ _ _ => Ok "report").

(** A file system with the features of [slide1], and one with its report. *)
Definition features_fs : FS :=
  <["/data/out/h5_files/slide1.h5" := File "feats"]> initial_fs.
Definition reports_fs : FS :=
  <["/data/out/reports/slide1.txt" := File "Final diagnosis: nevus"]> initial_fs.

(** Upstream items: one marked error, one with features, and two marked
    skipped, with and without a feature file. *)
Definition item_error : Embedding.t :=
  Embedding.Build "slide0" None ItemStatus.error (Some "patching failed").
Definition item_success : Embedding.t :=
  Embedding.Build "slide1" (Some "/data/out/h5_files/slide1.h5") ItemStatus.success None.
Definition item_skipped_with_features : Embedding.t :=
  Embedding.Build "slide1" (Some "/data/out/h5_files/slide1.h5") ItemStatus.skipped
    (Some "skipped upstream").
Definition item_skipped : Embedding.t :=
  Embedding.Build "slide2" None ItemStatus.skipped (Some "skipped upstream").

(** Reports: one with its file, one skipped without a path, one whose
    file is missing. *)
Definition reports : list Report.t :=
  [Report.Build "slide1" (Some "/data/out/reports/slide1.txt") ItemStatus.success None;
   Report.Build "slide2" None ItemStatus.skipped (Some "Embedding step failed");
   Report.Build "slide3" (Some "/data/out/reports/slide3.txt") ItemStatus.success None].

(** A request that names the input folder by a relative path, and one
    whose input folder does not exist. *)
Definition relative_request : ApiPipelineConfig.t :=
  ApiPipelineConfig.Build (Some "data/wsi") None None None (Some 8) None.
Definition bad_request : ApiPipelineConfig.t :=
  ApiPipelineConfig.Build (Some "/nowhere") None None (Some "/data/new_out") None None.

(** The settings merged for [relative_request]. *)
Definition relative_settings : PipelineSettings.t :=
  PipelineSettings.Build "/app/data/wsi" ".svs" false "/data/out" 8 4 3600 2
    "data/models/ctranspath.pth" "data/models/histogpt-1b-6k-pruned.pth"
    "https://huggingface.co/marr-peng-lab/histogpt/resolve/main/ctranspath.pth?download=true"
    "https://huggingface.co/marr-peng-lab/histogpt/resolve/main/histogpt-1b-6k-pruned.pth?download=true"
    256 "170,185,175" 2 (4 # 1)%Q None.

(** The world after a request was served with every stage returning,
    and after the worker ran with patching failing. *)
Definition quiet_run : World :=
  snd (post_run_pipeline quiet empty_request world).
Definition patching_fails_run : World :=
  snd (run_pipeline_in_background patching_fails "t" app settings world).

End Demo.

(** ** The read side of fastapi_app/main.py *)

(** [s.split(sep)] for a non-empty [sep]: the pieces between the leftmost
    non-overlapping occurrences of [sep].  [skip] counts the characters of
    an occurrence still to pass, [cur] is the piece being read. *)
Fixpoint split_scan (sep : string) (skip : nat) (cur s : string) : list string :=
  match s with
  | EmptyString => [cur]
  | String c rest =>
      match skip with
      | S k => split_scan sep k cur rest
      | O =>
          if String.prefix sep s
          then cur :: split_scan sep (String.length sep - 1) "" rest
          else split_scan sep 0 (cur +:+ String c "") rest
      end
  end.

Definition py_split (sep s : string) : list string := split_scan sep 0 "" s.

(** [sep in s] *)
Fixpoint contains (sep s : string) : bool :=
  match s with
  | EmptyString => String.prefix sep ""
  | String _ rest => String.prefix sep s || contains sep rest
  end.

(** The dictionary [health_check] returns: [components] is the entry
    [{"redis": ...}] when present. *)
Record Health : Type := mkHealth {
  health_status : string;
  health_version : string;
  health_components : option string;
  health_error : option string
}.

Section ReadSide.

(** [base_redis_client.get(key)], the store answering [fault] or with
    what it holds.  The store holds only what [update_task_status] wrote,
    so [json.loads] and [TaskStatus(...)] return on every value read. *)
Definition redis_get (fault : option exn) (key : string) : M (option TaskStatus) :=
  fun w => match fault with
           | Some e => (Raise e, w)
           | None => (Ok (redis_db w !! key), w)
           end.

(** [base_redis_client.keys("task:*")], in the order the store gives. *)
Definition redis_keys (fault : option exn) : M (list string) :=
  fun w => match fault with
           | Some e => (Raise e, w)
           | None => (Ok (List.filter (String.prefix "task:")
                            (elements (dom (redis_db w)))), w)
           end.

(** [GET /status/{task_id}]: the handlers are tried in the order
    [RedisError], [JSONDecodeError], [Exception]; none lets an
    [HTTPException] through. *)
Definition check_status (fault : option exn) (task_id : string) : M TaskStatus :=
  try_except
    (raw_data <- redis_get fault ("task:" +:+ task_id) ;;
     match raw_data with
     | None => raise (Exn (HTTPException 404) "Task not found")
     | Some task_data => ret task_data
     end)
    (fun e =>
       if is_RedisError e
       then raise (Exn (HTTPException 500)
                     ("Failed to retrieve task status: " +:+ str e))
       else raise (Exn (HTTPException 500)
                     ("Error retrieving task status: " +:+ str e))).

(** [GET /result/{task_id}]: here [except HTTPException: raise] stands
    before [except Exception]. *)
Definition get_result (fault : option exn) (task_id : string) : M TaskStatus :=
  try_except
    (raw_data <- redis_get fault ("task:" +:+ task_id) ;;
     match raw_data with
     | None => raise (Exn (HTTPException 404) "Task not found")
     | Some task_data =>
         match status task_data with
         | running | queued => raise (Exn (HTTPException 400) "Task is still running")
         | _ => ret task_data
         end
     end)
    (fun e =>
       if is_RedisError e
       then raise (Exn (HTTPException 500)
                     ("Failed to retrieve task result: " +:+ str e))
       else if is_HTTPException e
       then raise e
       else raise (Exn (HTTPException 500)
                     ("Error retrieving task result: " +:+ str e))).

(** [k.split("task:")[1]] *)
Definition task_id_of_key (k : string) : M string :=
  match py_split "task:" k with
  | _ :: task_id :: _ => ret task_id
  | _ => raise (Exn OtherException "list index out of range")
  end.

(** [GET /tasks] *)
Definition list_tasks (fault : option exn) : M (list string) :=
  try_except
    (keys <- redis_keys fault ;;
     for_each task_id_of_key keys)
    (fun e =>
       if is_RedisError e
       then raise (Exn (HTTPException 500) ("Failed to list tasks: " +:+ str e))
       else raise (Exn (HTTPException 500) ("Error listing tasks: " +:+ str e))).

(** [GET /health], [ping] being what [base_redis_client.ping()] does. *)
Definition health_check (ping : result bool) : M Health :=
  try_except
    (redis_ok <- (fun w => (ping, w)) ;;
     ret (mkHealth (if redis_ok then "healthy" else "degraded") "2.0.0"
            (Some (if redis_ok then "connected" else "disconnected")) None))
    (fun e =>
       if is_RedisError e
       then ret (mkHealth "degraded" "2.0.0" (Some ("error: " +:+ str e)) None)
       else ret (mkHealth "error" "2.0.0" None (Some (str e)))).

(** The [while retry_count < max_retries] loop of [startup_event], with
    [ping n] the outcome of the ping made when [retry_count] is [n].
    Every round that does not leave the loop adds one to [retry_count], so
    [max_retries] rounds are all there are. *)
Fixpoint startup_loop (ping : nat -> result bool) (max_retries rounds retry_count : nat)
    : M unit :=
  match rounds with
  | O => ret tt
  | S rounds' =>
      if (retry_count <? max_retries)%nat
      then
        match ping retry_count with
        | Ok _ => ret tt
        | Raise e =>
            match exn_cls e with
            | RedisConnectionError =>
                let retry_count := S retry_count in
                (if (max_retries <=? retry_count)%nat
                 then ret tt
                 else time_sleep 1) ;;;
                startup_loop ping max_retries rounds' retry_count
            | _ => raise e
            end
        end
      else ret tt
  end.

(** [startup_event()] *)
Definition startup_event (ping : nat -> result bool) : M unit :=
  startup_loop ping 3 3 0.

End ReadSide.

(** ** [load_app_settings] with a JSON file, and pipeline/run_pipeline.py *)

(** The ["app"] section of a JSON configuration file, parsed to the
    fields' types: every field may be absent. *)
Module AppKwargs.
Record t : Type := Build {
  environment : option string;
  log_level : option string;
  log_file : option (option string);
  log_format : option string;
  redis_url : option string;
  redis_pool_size : option Z;
  redis_timeout : option Z;
  redis_retry_attempts : option Z;
  dagster_home : option string;
  dagster_execution_timeout : option string;
  dagster_max_retries : option string
}.
End AppKwargs.

(** What [parser.parse_args()] does with the command line, for a parser
    whose one argument is the optional [--config]: it returns the
    namespace, of which [main] reads [args.config]; or it prints the help
    and ends the process with status 0; or it refuses the command line
    and ends the process with status 2. *)
Inductive ParseArgs : Type :=
  | Namespace (config : option string)
  | Help
  | UsageError.

(** The status the interpreter exits with: that of the [SystemExit], or
    1 after an uncaught exception. *)
Definition exit_status (r : result Z) : Z :=
  match r with
  | Ok code => code
  | Raise _ => 1
  end.

Section CommandLine.
Context (env : Env).
(** [json.load(open(p)).get("app", {})] *)
Context (json_load_app : string -> result AppKwargs.t).

(** [AppSettings] built from [base_settings.dict()] overlaid with
    [app_data]: every field is given, so neither the environment nor a
    default is consulted. *)
Definition AppSettings_merged (base_settings : AppSettings.t) (app_data : AppKwargs.t)
    : AppSettings.t :=
  AppSettings.Build
    (default (AppSettings.environment base_settings) (AppKwargs.environment app_data))
    (default (AppSettings.log_level base_settings) (AppKwargs.log_level app_data))
    (default (AppSettings.log_file base_settings) (AppKwargs.log_file app_data))
    (default (AppSettings.log_format base_settings) (AppKwargs.log_format app_data))
    (default (AppSettings.redis_url base_settings) (AppKwargs.redis_url app_data))
    (default (AppSettings.redis_pool_size base_settings) (AppKwargs.redis_pool_size app_data))
    (default (AppSettings.redis_timeout base_settings) (AppKwargs.redis_timeout app_data))
    (default (AppSettings.redis_retry_attempts base_settings)
       (AppKwargs.redis_retry_attempts app_data))
    (default (AppSettings.dagster_home base_settings) (AppKwargs.dagster_home app_data))
    (default (AppSettings.dagster_execution_timeout base_settings)
       (AppKwargs.dagster_execution_timeout app_data))
    (default (AppSettings.dagster_max_retries base_settings)
       (AppKwargs.dagster_max_retries app_data)).

(** [load_app_settings(json_path)] *)
Definition load_app_settings_json (json_path : option string) : FSM AppSettings.t :=
  let base_settings := app_settings env in
  fun f =>
    match json_path with
    | Some p =>
        if negb (String.eqb p "") && path_exists env f p
        then
          try_except
            (match json_load_app p with
             | Ok app_data => ret (AppSettings_merged base_settings app_data)
             | Raise e => raise e
             end)
            (fun ex => raise (Exn ValueError
                 ("Failed to load or parse app config from '" +:+ p +:+ "': " +:+ str ex)))
            f
        else (Ok base_settings, f)
    | None => (Ok base_settings, f)
    end.

(** [main()] of run_pipeline.py, by what [parser.parse_args()] did with
    the command line.  The value is the status of the [SystemExit] that
    ends [main]: that of [parse_args] itself for the help and for a
    command line it refuses, that of [sys.exit] otherwise; an exception
    that leaves [main] is raised.  After the settings are loaded the
    steps are those of [run_job]: logging set-up, the Dagster home, the
    instance, the job. *)
Definition main (parsed : ParseArgs) : M Z :=
  match parsed with
  | Help => ret 0
  | UsageError => ret 2
  | Namespace args_config =>
      app_settings <- lift_fs (load_app_settings_json args_config) ;;
      pipeline_settings <- lift_fs (load_pipeline_settings env args_config) ;;
      result <- run_job env app_settings pipeline_settings ;;
      if Dagster.success result then ret 0 else ret 1
  end.

End CommandLine.

(** ** Vocabulary of the further properties *)

(** What a SET leaves in the store, by the store's answer. *)
Definition stored (fault : option exn) (key : string) (value : TaskStatus)
    (db : gmap string TaskStatus) : gmap string TaskStatus :=
  match fault with
  | None => <[key := value]> db
  | Some _ => db
  end.

(** A SET that the store refused. *)
Definition refused (fault : option exn) : bool :=
  match fault with Some _ => true | None => false end.

(** The identifier [list_tasks] reads off a key. *)
Definition listed_id (k : string) : string := nth 1 (py_split "task:" k) "".

(** The [n]-th ping of the start-up was refused with a connection error. *)
Definition refused_ping (ping : nat -> result bool) (n : nat) : Prop :=
  exists e, ping n = Raise e /\ exn_cls e = RedisConnectionError.

(** The deployment [env] with the network answering as [h] says. *)
Definition with_http_get (h : string -> result HttpResponse) (env : Env) : Env :=
  mkEnv (environ env) (cpu_count env) (json_load_pipeline env) (app_settings env)
    (expanduser env) (resolve env) (path_join env) (dirname env) (splitext env)
    (os_walk env) (mkdir_fault env) (read_fault env) (write_fault env)
    (clock env) (uuid4 env) (redis_fault env) (setup_logging_fault env)
    (dagster_fault env) (run_events env) h (parse_int env) (split_comma env) (run_patching env)
    (torch_load env) (tokenizer_fault env) (histogpt_generate env) (to_csv env).

(** The files of [f] are those of [g], with the same contents. *)
Definition same_files (f g : FS) : Prop :=
  forall q c, f !! q = Some (File c) <-> g !! q = Some (File c).

(** What [download_file] raises when fewer bytes came than announced. *)
Definition size_mismatch : exn :=
  Exn RuntimeError "Download ended prematurely. File size mismatch.".

(** The file system after a download of the CTranspath weights that
    wrote the chunks of [response]. *)
Definition short_download (env : Env) (config_dict : PipelineSettings.t)
    (response : HttpResponse) (f1 : FS) : FS :=
  <[resolve env (PipelineSettings.ctranspath_model_path config_dict) :=
      File (String.concat "" (iter_content response))]> f1.

Definition is_success (rep : Report.t) : bool :=
  match Report.status rep with ItemStatus.success => true | _ => false end.

(** Every file of [f] is still a file in [g]. *)
Definition keeps_files (f g : FS) : Prop :=
  forall k c, f !! k = Some (File c) -> exists c', g !! k = Some (File c').

(** An entry of the report stage's list, in the file system the stage
    leaves: a success entry names the report file of its slide, which
    exists; any other entry names no file. *)
Definition entry_ok (env : Env) (dir : string) (f : FS) (rep : Report.t) : Prop :=
  if is_success rep
  then Report.report_path rep = Some (path_join env dir (Report.wsi_name rep +:+ ".txt")) /\
       isfile env f (path_join env dir (Report.wsi_name rep +:+ ".txt")) = true
  else Report.report_path rep = None.

(** What one run of the job adds to the executor's record. *)
Definition job_calls (env : Env) (op_config : PipelineSettings.t) (w : World)
    : list (string * option exn) :=
  new_op_calls w (snd (histogpt_pipeline env op_config w)).

(** What a run of the command line adds to the executor's record. *)
Definition main_calls (env : Env) (json_load_app : string -> result AppKwargs.t)
    (parsed : ParseArgs) (w : World) : list (string * option exn) :=
  new_op_calls w (snd (main env json_load_app parsed w)).

(** ** Further concrete deployments *)

Module Scenario.

(** The store takes the first two writes and refuses the third. *)
Definition last_write_lost : Env :=
  Demo.env Demo.environ
    (fun n => if Nat.eqb n 2 then Some (Exn RedisConnectionError "Connection refused")
              else None)
    (fun _ => ret tt) (fun _ _ => []) (fun _ _ _ => Ok "report").

Definition last_write_lost_run : World :=
  snd (post_run_pipeline last_write_lost Demo.empty_request Demo.world).

(** A completed record. *)
Definition completed_record : TaskStatus :=
  mkTaskStatus completed 1000 (Some 1001) None (Some [("success", true)]) Demo.settings.

(** A store with two tasks and a key of another kind. *)
Definition two_tasks : World :=
  mkWorld (<["task:a1" := completed_record]>
           (<["task:b2" := running_record 1000 Demo.settings]>
           (<["session:9" := completed_record]> ∅)))
          [] 0 0 0 Demo.initial_fs [] [] [] [].

(** Redis refuses the first ping and answers the second. *)
Definition ping_second : nat -> result bool :=
  fun n => if Nat.eqb n 0 then Raise (Exn RedisConnectionError "Connection refused")
           else Ok true.

(** Redis refuses every ping. *)
Definition ping_never : nat -> result bool :=
  fun _ => Raise (Exn RedisConnectionError "Connection refused").

(** The environment names an input folder that does not exist, and a
    batch size. *)
Definition bad_environ : Kwargs.t :=
  Kwargs.Build (Some "/nowhere") None None (Some "/data/out") (Some 8)
    None None None None None None None None None None None None.

Definition wsi_missing : Env :=
  Demo.env bad_environ (fun _ => None) (fun _ => ret tt) (fun _ _ => [])
    (fun _ _ _ => Ok "report").

(** The settings [load_pipeline_settings] falls back to there. *)
Definition fallback_settings : PipelineSettings.t :=
  PipelineSettings.Build "/app/data/wsi" ".svs" false "/app/data/test_output" 8 4 3600 2
    "data/models/ctranspath.pth" "data/models/histogpt-1b-6k-pruned.pth"
    "https://huggingface.co/marr-peng-lab/histogpt/resolve/main/ctranspath.pth?download=true"
    "https://huggingface.co/marr-peng-lab/histogpt/resolve/main/histogpt-1b-6k-pruned.pth?download=true"
    256 "170,185,175" 2 (4 # 1)%Q None.

(** A configuration file [config.json] whose pipeline section gives the
    batch size, and whose app section gives the Redis URL. *)
Definition json_pipeline : Kwargs.t :=
  Kwargs.Build None None None None (Some 16)
    None None None None None None None None None None None None.

Definition json_config : Env :=
  mkEnv Demo.environ 4
    (fun p => if String.eqb p "config.json" then Ok json_pipeline
              else Raise (Exn OSError ("No such file or directory: " +:+ p)))
    Demo.app (fun p => p) Demo.resolve (fun a b => a +:+ "/" +:+ b)
    Demo.dirname Demo.splitext (fun _ _ => [])
    (fun _ => None) (fun _ => None) (fun _ => None)
    (fun n => 1000 + Z.of_nat n) (fun n => "task-" +:+ pretty n) (fun _ => None)
    None None Demo.run_events (fun _ => Raise (Exn OtherException "no network"))
    Demo.parse_int (fun s => Demo.split_on "," (list_ascii_of_string s) [])
    (fun _ => ret tt) (fun _ _ => None) None (fun _ _ _ => Ok "report")
    (fun df => String.concat "," (columns df)).

Definition config_fs : FS := <["/app/config.json" := File "{}"]> Demo.initial_fs.

Definition json_settings : PipelineSettings.t :=
  PipelineSettings.Build "/data/wsi" ".svs" false "/data/out" 16 4 3600 2
    "data/models/ctranspath.pth" "data/models/histogpt-1b-6k-pruned.pth"
    "https://huggingface.co/marr-peng-lab/histogpt/resolve/main/ctranspath.pth?download=true"
    "https://huggingface.co/marr-peng-lab/histogpt/resolve/main/histogpt-1b-6k-pruned.pth?download=true"
    256 "170,185,175" 2 (4 # 1)%Q None.

(** The server answers every request with 404. *)
Definition not_found : Env :=
  with_http_get (fun _ => Ok (mkHttpResponse 404 0 [])) Demo.quiet.

(** The server announces 100 bytes and sends five; the CTranspath
    weights are not on disk. *)
Definition short_response : HttpResponse := mkHttpResponse 200 100 ["abc"; "de"].

Definition truncated : Env := with_http_get (fun _ => Ok short_response) Demo.quiet.

Definition no_model_fs : FS :=
  <["/data/wsi" := Dir]>
  (<["/app/data/wsi" := Dir]>
  (<["/app/data/models/histogpt-1b-6k-pruned.pth" := File "histogpt"]> ∅)).

Definition models_dir_fs : FS := <["/app/data/models" := Dir]> no_model_fs.

(** The reports generated for a failed item and an item with features,
    and the file system the report stage leaves. *)
Definition generated : list Report.t :=
  [Report.Build "slide0" None ItemStatus.skipped (Some "Embedding step failed");
   Report.Build "slide1" (Some "/data/out/reports/slide1.txt") ItemStatus.success None].

Definition generated_fs : FS :=
  snd (generate_report Demo.quiet [Demo.item_error; Demo.item_success] Demo.settings
         Demo.features_fs).

(** The file system after the aggregation of [Demo.reports]. *)
Definition aggregated_fs : FS :=
  snd (aggregate_reports Demo.quiet Demo.reports Demo.settings Demo.reports_fs).

End Scenario.

(** * Properties *)

Local Open Scope list_scope.

(** ** The status write never raises *)

Section StatusWrite.
Context (env : Env).

Lemma update_task_status_cases (task_id : string) (status_obj : TaskStatus) (w : World) :
  match redis_fault env (redis_calls w) with
  | None =>
      update_task_status env task_id status_obj w =
      (Ok tt, snd (redis_set env ("task:" +:+ task_id) status_obj w))
  | Some e =>
      update_task_status env task_id status_obj w =
      (Ok tt,
       snd (logging_critical
              ("Failed to update status for task " +:+ task_id +:+ ": " +:+ str e)
              (snd (redis_set env ("task:" +:+ task_id) status_obj w))))
  end.
Proof.
  unfold update_task_status, try_except, redis_set.
  destruct (redis_fault env (redis_calls w)); reflexivity.
Qed.

Lemma update_task_status_ok (task_id : string) (status_obj : TaskStatus) (w : World) :
  fst (update_task_status env task_id status_obj w) = Ok tt.
Proof.
  pose proof (update_task_status_cases task_id status_obj w) as H.
  destruct (redis_fault env (redis_calls w)); rewrite H; reflexivity.
Qed.

End StatusWrite.

(** ** Submission *)

Section Submission.
Context (env : Env).

Lemma accept_ok (app_config : AppSettings.t) (merged : PipelineSettings.t) (w : World) :
  fst (accept env app_config merged w) = Ok (uuid4 env (uuid_calls w)).
Proof.
  unfold accept, bind, uuid_uuid4, datetime_now, add_task, ret.
  match goal with |- context [update_task_status env ?t ?o ?w0] =>
    pose proof (update_task_status_ok env t o w0) as H;
    destruct (update_task_status env t o w0) as [r w1] end.
  simpl in H. subst r. reflexivity.
Qed.

(** The equations of [start_pipeline], by the outcome of its steps. *)
Lemma start_pipeline_merge_fails (config : ApiPipelineConfig.t) (w : World) e f' :
  merge_settings env config (fs w) = (Raise e, f') ->
  start_pipeline env config w =
  (Raise (if is_HTTPException e then e
          else Exn (HTTPException 500) ("Failed to start pipeline: " +:+ str e)),
   set_fs f' w).
Proof.
  intros H. unfold start_pipeline, try_except, bind, lift_fs, load_app_settings, ret.
  simpl. rewrite H. unfold raise. destruct (is_HTTPException e); reflexivity.
Qed.

Lemma start_pipeline_wsi_missing (config : ApiPipelineConfig.t) (w : World) merged f1 :
  merge_settings env config (fs w) = (Ok merged, f1) ->
  path_exists env f1 (PipelineSettings.wsi_folder merged) = false ->
  start_pipeline env config w =
  (Raise (Exn (HTTPException 400)
            ("WSI folder does not exist: " +:+ PipelineSettings.wsi_folder merged)),
   set_fs f1 w).
Proof.
  intros H E. unfold start_pipeline, try_except, bind, lift_fs, load_app_settings, ret.
  simpl. rewrite H. simpl. rewrite E. reflexivity.
Qed.

Lemma start_pipeline_makedirs_fails (config : ApiPipelineConfig.t) (w : World) merged f1 e f2 :
  merge_settings env config (fs w) = (Ok merged, f1) ->
  path_exists env f1 (PipelineSettings.wsi_folder merged) = true ->
  makedirs env (PipelineSettings.output_folder merged) f1 = (Raise e, f2) ->
  start_pipeline env config w =
  (Raise (if is_HTTPException e then e
          else Exn (HTTPException 500) ("Failed to start pipeline: " +:+ str e)),
   set_fs f2 w).
Proof.
  intros H E D. unfold start_pipeline, try_except, bind, lift_fs, load_app_settings, ret.
  simpl. rewrite H. simpl. rewrite E. simpl. rewrite D. simpl.
  unfold raise. destruct (is_HTTPException e); reflexivity.
Qed.

Lemma start_pipeline_accepts (config : ApiPipelineConfig.t) (w : World) merged f1 f2 :
  merge_settings env config (fs w) = (Ok merged, f1) ->
  path_exists env f1 (PipelineSettings.wsi_folder merged) = true ->
  makedirs env (PipelineSettings.output_folder merged) f1 = (Ok tt, f2) ->
  start_pipeline env config w = accept env (app_settings env) merged (set_fs f2 w).
Proof.
  intros H E D. unfold start_pipeline, try_except, bind, lift_fs, load_app_settings, ret.
  simpl. rewrite H. simpl. rewrite E. simpl. rewrite D. simpl.
  unfold accept, bind, uuid_uuid4, datetime_now, add_task, ret. simpl.
  match goal with |- context [update_task_status env ?t ?o ?w0] =>
    pose proof (update_task_status_ok env t o w0) as Hu;
    destruct (update_task_status env t o w0) as [r w1] end.
  simpl in Hu. subst r. reflexivity.
Qed.

Lemma start_pipeline_cases (config : ApiPipelineConfig.t) (w : World) :
  (exists e f', merge_settings env config (fs w) = (Raise e, f') /\
     start_pipeline env config w =
     (Raise (if is_HTTPException e then e
             else Exn (HTTPException 500) ("Failed to start pipeline: " +:+ str e)),
      set_fs f' w)) \/
  (exists merged f1, merge_settings env config (fs w) = (Ok merged, f1) /\
     start_pipeline env config w =
     (Raise (Exn (HTTPException 400)
               ("WSI folder does not exist: " +:+ PipelineSettings.wsi_folder merged)),
      set_fs f1 w)) \/
  (exists merged f1 e f2, merge_settings env config (fs w) = (Ok merged, f1) /\
     makedirs env (PipelineSettings.output_folder merged) f1 = (Raise e, f2) /\
     start_pipeline env config w =
     (Raise (if is_HTTPException e then e
             else Exn (HTTPException 500) ("Failed to start pipeline: " +:+ str e)),
      set_fs f2 w)) \/
  (exists merged f1 f2, merge_settings env config (fs w) = (Ok merged, f1) /\
     path_exists env f1 (PipelineSettings.wsi_folder merged) = true /\
     makedirs env (PipelineSettings.output_folder merged) f1 = (Ok tt, f2) /\
     start_pipeline env config w = accept env (app_settings env) merged (set_fs f2 w)).
Proof.
  destruct (merge_settings env config (fs w)) as [[merged|e] f1] eqn:Hm.
  - destruct (path_exists env f1 (PipelineSettings.wsi_folder merged)) eqn:Hx.
    + destruct (makedirs env (PipelineSettings.output_folder merged) f1)
        as [[[]|e] f2] eqn:Hd.
      * do 3 right. exists merged, f1, f2. repeat split; try done.
        by apply start_pipeline_accepts with f1.
      * do 2 right. left. exists merged, f1, e, f2. repeat split; try done.
        by apply start_pipeline_makedirs_fails with merged f1.
    + right. left. exists merged, f1. split; first done.
      by apply start_pipeline_wsi_missing.
  - left. exists e, f1. split; first done. by apply start_pipeline_merge_fails.
Qed.

Lemma wrapped_is_HTTPException (e : exn) :
  is_HTTPException
    (if is_HTTPException e then e
     else Exn (HTTPException 500) ("Failed to start pipeline: " +:+ str e)) = true.
Proof. destruct (is_HTTPException e) eqn:E; [exact E | reflexivity]. Qed.

Lemma same_control_set_fs (f : FS) (w : World) : same_control w (set_fs f w).
Proof. repeat split. Qed.

(** A refused submission left the store, the identifiers and the task
    queue as they were. *)
Lemma start_pipeline_refused (config : ApiPipelineConfig.t) (w w' : World) (e : exn) :
  start_pipeline env config w = (Raise e, w') ->
  is_HTTPException e = true /\ same_control w w'.
Proof.
  intros H.
  destruct (start_pipeline_cases config w)
    as [(e0 & f' & _ & E) | [(m & f1 & _ & E) | [(m & f1 & e0 & f2 & _ & _ & E)
       | (m & f1 & f2 & _ & _ & _ & E)]]];
    rewrite E in H.
  - injection H as <- <-. split; [apply wrapped_is_HTTPException | apply same_control_set_fs].
  - injection H as <- <-. split; [reflexivity | apply same_control_set_fs].
  - injection H as <- <-. split; [apply wrapped_is_HTTPException | apply same_control_set_fs].
  - pose proof (accept_ok (app_settings env) m (set_fs f2 w)) as Ho.
    rewrite H in Ho. discriminate.
Qed.

End Submission.


(** ** The executor and the background worker *)

Section Worker.
Context (env : Env).

Lemma same_control_refl (w : World) : same_control w w.
Proof. repeat split. Qed.

Lemma same_control_trans (w1 w2 w3 : World) :
  same_control w1 w2 -> same_control w2 w3 -> same_control w1 w3.
Proof.
  unfold same_control. intros (?&?&?&?&?&?&?) (?&?&?&?&?&?&?).
  repeat split; congruence.
Qed.

Lemma quiet_body_lift_fs {A} (c : FSM A) : quiet_body (lift_fs c).
Proof.
  intros w. unfold lift_fs. destruct (c (fs w)) as [r f']. cbn.
  split; [apply same_control_set_fs | reflexivity].
Qed.

Lemma quiet_body_ret {A} (a : A) : quiet_body (ret a).
Proof. intros w. split; [apply same_control_refl | reflexivity]. Qed.

(** What the executor records for one op: the failed attempts, then the
    attempt that returned, if any; a raised error is the one of the
    attempt after the last retry. *)
Lemma invoke_with_retries_spec {A} (name : string) (d : Z) (body : M A) :
  quiet_body body ->
  forall (n : nat) (w : World),
  exists fails : list exn,
    same_control w (snd (Dagster.invoke_with_retries name n d body w)) /\
    match fst (Dagster.invoke_with_retries name n d body w) with
    | Ok _ =>
        op_calls (snd (Dagster.invoke_with_retries name n d body w)) =
        op_calls w ++ fails_of name fails ++ [(name, None)] /\
        (length fails <= n)%nat
    | Raise e =>
        op_calls (snd (Dagster.invoke_with_retries name n d body w)) =
        op_calls w ++ fails_of name (fails ++ [e]) /\
        length fails = n
    end.
Proof.
  intros Hq n. induction n as [|n IH]; intros w.
  - cbn. destruct (Hq w) as [Hc Ho]. destruct (body w) as [[a|e] w1]; cbn in *.
    + exists []. cbn. rewrite Ho. repeat split; try apply Hc. lia.
    + exists []. cbn. rewrite Ho. repeat split; apply Hc.
  - cbn. destruct (Hq w) as [Hc Ho]. destruct (body w) as [[a|e] w1]; cbn [fst snd] in *.
    + exists []. cbn. rewrite Ho. repeat split; try apply Hc. lia.
    + unfold bind, time_sleep. cbn [fst snd].
      match goal with |- context [Dagster.invoke_with_retries name n d body ?w2] =>
        destruct (IH w2) as (fails & Hc2 & Hr);
        destruct (Dagster.invoke_with_retries name n d body w2) as [[a|e'] w3] end;
        cbn [fst snd] in *.
      * exists (e :: fails). destruct Hr as [Hr Hl]. split.
        { eapply same_control_trans; [|exact Hc2].
          destruct Hc as (?&?&?&?&?&?&?). repeat split; assumption. }
        split; [|cbn; lia]. rewrite Hr. cbn. rewrite Ho, <- app_assoc. reflexivity.
      * exists (e :: fails). destruct Hr as [Hr Hl]. split.
        { eapply same_control_trans; [|exact Hc2].
          destruct Hc as (?&?&?&?&?&?&?). repeat split; assumption. }
        split; [|cbn; lia]. rewrite Hr. cbn. rewrite Ho, <- app_assoc. reflexivity.
Qed.


Lemma histogpt_pipeline_trace (cfg : PipelineSettings.t) (w w' : World) (r : result unit) :
  histogpt_pipeline env cfg w = (r, w') ->
  same_control w w' /\
  exists tr, op_calls w' = op_calls w ++ tr /\ pipeline_trace r tr.
Proof.
  unfold histogpt_pipeline.
  unfold bind at 1.
  change (Dagster.execute_op (load_config_op cfg) w)
    with (Ok cfg, record_op_call "load_config_op" None w).
  cbv beta iota.
  change (Dagster.execute_op (process_embeddings_op env cfg))
    with (Dagster.invoke_with_retries "process_embeddings_op" 2 30
            (lift_fs (run_embeddings env cfg))).
  set (w1 := record_op_call "load_config_op" None w).
  assert (Hc1 : same_control w w1) by (repeat split).
  assert (Ho1 : op_calls w1 = op_calls w ++ [("load_config_op", None)]) by reflexivity.
  clearbody w1.
  unfold bind at 1.
  destruct (invoke_with_retries_spec "process_embeddings_op" 30 _
              (quiet_body_lift_fs (run_embeddings env cfg)) 2 w1) as (f2 & Hc2 & H2).
  destruct (Dagster.invoke_with_retries "process_embeddings_op" 2 30 _ w1)
    as [[embeddings|e] w2]; cbn [fst snd] in *; destruct H2 as [H2 L2].
  2:{ intros [= <- <-]. split; [exact (same_control_trans _ _ _ Hc1 Hc2)|].
      eexists. split; [rewrite H2, Ho1, <- app_assoc; reflexivity|].
      cbn. by apply trace_embeddings_failed. }
  unfold bind at 1.
  change (Dagster.execute_op (process_report_gen_op env cfg embeddings))
    with (Dagster.invoke_with_retries "process_report_gen_op" 2 30
            (lift_fs (generate_report env embeddings cfg))).
  destruct (invoke_with_retries_spec "process_report_gen_op" 30 _
              (quiet_body_lift_fs (generate_report env embeddings cfg)) 2 w2)
    as (f3 & Hc3 & H3).
  destruct (Dagster.invoke_with_retries "process_report_gen_op" 2 30 _ w2)
    as [[reports|e] w3]; cbn [fst snd] in *; destruct H3 as [H3 L3].
  2:{ intros [= <- <-].
      split; [exact (same_control_trans _ _ _ (same_control_trans _ _ _ Hc1 Hc2) Hc3)|].
      eexists. split; [rewrite H3, H2, Ho1, <- !app_assoc; reflexivity|].
      cbn. by apply trace_report_gen_failed. }
  change (Dagster.execute_op (process_aggregation_op env cfg reports))
    with (Dagster.invoke_with_retries "process_aggregation_op" 0 0
            (lift_fs (aggregate_reports env reports cfg))).
  destruct (invoke_with_retries_spec "process_aggregation_op" 0 _
              (quiet_body_lift_fs (aggregate_reports env reports cfg)) 0 w3)
    as (f4 & Hc4 & H4).
  destruct (Dagster.invoke_with_retries "process_aggregation_op" 0 0 _ w3)
    as [[[]|e] w4]; cbn [fst snd] in *; destruct H4 as [H4 L4];
    destruct f4; cbn in L4; try lia; intros [= <- <-].
  - split; [exact (same_control_trans _ _ _ (same_control_trans _ _ _
              (same_control_trans _ _ _ Hc1 Hc2) Hc3) Hc4)|].
    eexists. split; [rewrite H4, H3, H2, Ho1, <- !app_assoc; reflexivity|].
    cbn. rewrite <- ?app_assoc. cbn. by apply trace_completed.
  - split; [exact (same_control_trans _ _ _ (same_control_trans _ _ _
              (same_control_trans _ _ _ Hc1 Hc2) Hc3) Hc4)|].
    eexists. split; [rewrite H4, H3, H2, Ho1, <- !app_assoc; reflexivity|].
    cbn. rewrite <- ?app_assoc. cbn. by apply trace_aggregation_failed.
Qed.


Lemma run_job_spec (app : AppSettings.t) (cfg : PipelineSettings.t) (w mid : World)
    (outcome : result Dagster.ExecuteJobResult) :
  run_job env app cfg w = (outcome, mid) ->
  same_control w mid /\
  match outcome with
  | Raise e => op_calls mid = op_calls w
  | Ok result =>
      exists r tr, op_calls mid = op_calls w ++ tr /\ pipeline_trace r tr /\
        match r with
        | Ok _ => Dagster.success result = true
        | Raise e => Dagster.success result = false
        end /\
        Dagster.all_events result = dagster_events env tr
  end.
Proof.
  unfold run_job, bind, raise, ret, lift_fs, Dagster.execute_job.
  destruct (setup_logging_fault env) as [e|].
  { intros [= <- <-]. split; [apply same_control_refl | reflexivity]. }
  destruct (makedirs env _ (fs w)) as [[[]|e] f'].
  2:{ intros [= <- <-]. split; [apply same_control_set_fs | reflexivity]. }
  destruct (dagster_fault env) as [e|].
  { intros [= <- <-]. split; [apply same_control_set_fs | reflexivity]. }
  destruct (histogpt_pipeline env cfg (set_fs f' w)) as [r w2] eqn:Hp.
  apply histogpt_pipeline_trace in Hp as [Hc (tr & Ho & Ht)].
  assert (Hd : drop (length (op_calls (set_fs f' w))) (op_calls w2) = tr)
    by (rewrite Ho; apply drop_app_length).
  rewrite Hd.
  destruct r as [[]|e]; intros [= <- <-].
  - split; [exact (same_control_trans _ _ _ (same_control_set_fs f' w) Hc)|].
    exists (Ok tt), tr. repeat split; assumption.
  - split; [exact (same_control_trans _ _ _ (same_control_set_fs f' w) Hc)|].
    exists (Raise e), tr. repeat split; assumption.
Qed.

(** The effect of a status write on the world. *)
Lemma update_task_status_world (task_id : string) (status_obj : TaskStatus) (w w' : World)
    (r : result unit) :
  update_task_status env task_id status_obj w = (r, w') ->
  r = Ok tt /\
  redis_calls w' = S (redis_calls w) /\ clock_reads w' = clock_reads w /\
  uuid_calls w' = uuid_calls w /\ fs w' = fs w /\ op_calls w' = op_calls w /\
  background_tasks w' = background_tasks w /\
  match redis_fault env (redis_calls w) with
  | None => redis_db w' = <["task:" +:+ task_id := status_obj]> (redis_db w) /\
            redis_writes w' = redis_writes w ++ [("task:" +:+ task_id, status_obj)] /\
            logs w' = logs w
  | Some e => redis_db w' = redis_db w /\ redis_writes w' = redis_writes w /\
              logs w' = logs w ++ ["Failed to update status for task " +:+ task_id +:+
                                   ": " +:+ str e]
  end.
Proof.
  pose proof (update_task_status_cases env task_id status_obj w) as H.
  unfold redis_set, logging_critical in H.
  destruct (redis_fault env (redis_calls w)); rewrite H; intros [= <- <-];
    cbn; repeat split.
Qed.

Lemma run_pipeline_in_background_unfold (task_id : string) (app_config : AppSettings.t)
    (pipeline_config : PipelineSettings.t) (w : World) :
  let t0 := clock env (clock_reads w) in
  let w1 := snd (update_task_status env task_id (running_record t0 pipeline_config)
                   (snd (datetime_now env w))) in
  let outcome := fst (run_job env app_config pipeline_config w1) in
  let mid := snd (run_job env app_config pipeline_config w1) in
  run_pipeline_in_background env task_id app_config pipeline_config w =
  update_task_status env task_id
    (final_record t0 (clock env (clock_reads mid)) pipeline_config outcome)
    (snd (datetime_now env mid)).
Proof.
  cbv zeta.
  unfold run_pipeline_in_background, running_record, run_job.
  generalize (histogpt_pipeline env pipeline_config). intros job.
  unfold bind at 1.
  change (datetime_now env w) with (Ok (clock env (clock_reads w)), snd (datetime_now env w)).
  cbv beta iota.
  set (w0 := snd (datetime_now env w)).
  set (t0 := clock env (clock_reads w)).
  unfold bind at 1. unfold try_except at 1. unfold bind at 1.
  change ((Ok t0, w0).2) with w0.
  pose proof (update_task_status_ok env task_id
                (mkTaskStatus running t0 None None None pipeline_config) w0) as Hu.
  destruct (update_task_status env task_id
              (mkTaskStatus running t0 None None None pipeline_config) w0) as [r w1].
  simpl in Hu. subst r. cbn [snd].
  unfold run_job.
  unfold bind, raise, ret, lift_fs, Dagster.execute_job.
  destruct (setup_logging_fault env) as [e|]; cbn.
  { destruct (is_RedisError e); reflexivity. }
  destruct (makedirs env _ (fs w1)) as [[[]|e] f']; cbn.
  2:{ destruct (is_RedisError e); reflexivity. }
  destruct (dagster_fault env) as [e|]; cbn.
  { destruct (is_RedisError e); reflexivity. }
  destruct (job (set_fs f' w1)) as [[[]|e] w2]; cbn; reflexivity.
Qed.


(** One run of the worker: it returns; it issues two status writes, of the
    running record and of a terminal record that agrees with what the
    executor recorded. *)
Lemma run_pipeline_in_background_spec (task_id : string) (app : AppSettings.t)
    (cfg : PipelineSettings.t) (w w' : World) (r : result unit) :
  run_pipeline_in_background env task_id app cfg w = (r, w') ->
  exists (final : TaskStatus) (tr : list (string * option exn)),
    r = Ok tt /\
    op_calls w' = op_calls w ++ tr /\ worker_outcome env tr final /\
    start_time final = clock env (clock_reads w) /\
    end_time final = Some (clock env (S (clock_reads w))) /\
    pipeline_config final = cfg /\
    redis_calls w' = S (S (redis_calls w)) /\
    clock_reads w' = S (S (clock_reads w)) /\
    uuid_calls w' = uuid_calls w /\
    redis_writes w' =
      redis_writes w ++
      match redis_fault env (redis_calls w) with
      | None => [("task:" +:+ task_id, running_record (clock env (clock_reads w)) cfg)]
      | Some _ => []
      end ++
      match redis_fault env (S (redis_calls w)) with
      | None => [("task:" +:+ task_id, final)]
      | Some _ => []
      end /\
    (redis_fault env (S (redis_calls w)) = None ->
     redis_db w' !! ("task:" +:+ task_id) = Some final).
Proof.
  rewrite run_pipeline_in_background_unfold. cbv zeta.
  set (t0 := clock env (clock_reads w)).
  destruct (update_task_status env task_id (running_record t0 cfg)
              (snd (datetime_now env w))) as [r1 w1] eqn:H1.
  apply update_task_status_world in H1
    as (_ & Hcalls1 & Hclock1 & Huuid1 & _ & Hops1 & _ & Hstore1).
  cbn [snd datetime_now redis_calls clock_reads uuid_calls op_calls redis_db redis_writes
       logs] in *.
  destruct (run_job env app cfg w1) as [outcome mid] eqn:Hj.
  apply run_job_spec in Hj as [(Hdb & Hwr & Hcalls & Hclock & Huuid & _ & _) Hout].
  cbn [fst snd]. rewrite Hclock, Hclock1.
  set (final := final_record t0 (clock env (S (clock_reads w))) cfg outcome).
  intros H2. apply update_task_status_world in H2
    as (-> & Hcalls2 & Hclock2 & Huuid2 & _ & Hops2 & _ & Hstore2).
  cbn [snd datetime_now redis_calls clock_reads uuid_calls op_calls redis_db redis_writes
       logs] in *.
  rewrite Hcalls, Hcalls1 in Hstore2.
  assert (Hfinal : exists tr, op_calls mid = op_calls w ++ tr /\ worker_outcome env tr final).
  { subst final. destruct outcome as [result|e].
    - destruct Hout as (rj & tr & Ho & Ht & Hr & Hev). exists tr.
      split; [rewrite Ho, Hops1; reflexivity|].
      destruct rj as [[]|e].
      + cbn. rewrite Hr. by apply outcome_completed.
      + cbn. rewrite Hr, Hev. by apply outcome_failed with e.
    - exists []. split; [rewrite Hout, Hops1, app_nil_r; reflexivity|].
      cbn. apply outcome_not_started; cbn; eauto. }
  destruct Hfinal as (tr & Ho & Hw).
  exists final, tr. split; [reflexivity|].
  split; [rewrite Hops2; exact Ho|]. split; [exact Hw|].
  split; [subst final; destruct outcome as [[[] ?]|?]; reflexivity|].
  split; [subst final; destruct outcome as [[[] ?]|?]; reflexivity|].
  split; [subst final; destruct outcome as [[[] ?]|?]; reflexivity|].
  split; [lia|]. split; [lia|]. split; [congruence|].
  split.
  - destruct (redis_fault env (S (redis_calls w)));
      destruct Hstore2 as (_ & -> & _); rewrite Hwr;
      destruct (redis_fault env (redis_calls w));
      destruct Hstore1 as (_ & -> & _); rewrite <- ?app_assoc, ?app_nil_r; reflexivity.
  - intros Hf. rewrite Hf in Hstore2. destruct Hstore2 as (-> & _).
    apply lookup_insert_eq.
Qed.

End Worker.

(** ** What the executor's record tells *)

Ltac enum_fails :=
  repeat match goal with
    | H : (length ?l <= _)%nat |- _ =>
        is_var l; destruct l as [|? [|? [|? ?]]]; cbn in H; try lia; clear H
    | H : length ?l = _ |- _ =>
        is_var l; destruct l as [|? [|? [|? ?]]]; cbn in H; try lia; clear H
    end.

Lemma trace_aggregation_returned (r : result unit) (tr : list (string * option exn)) :
  pipeline_trace r tr ->
  succeeded "process_aggregation_op" tr = true ->
  r = Ok tt.
Proof.
  intros Ht Hs. destruct Ht; [reflexivity | | |]; exfalso; enum_fails;
    cbn in Hs; discriminate.
Qed.

Lemma trace_embeddings_exhausted (r : result unit) (tr : list (string * option exn)) :
  pipeline_trace r tr ->
  attempts "process_embeddings_op" tr <> [] ->
  succeeded "process_embeddings_op" tr = false ->
  (exists e, r = Raise e) /\
  length (attempts "process_embeddings_op" tr) = 3%nat /\
  attempts "process_report_gen_op" tr = [] /\
  attempts "process_aggregation_op" tr = [].
Proof.
  intros Ht Hne Hs. destruct Ht; enum_fails; cbn in Hs; try discriminate;
    repeat split; eauto.
Qed.

Section Lifecycle.
Context (env : Env).

Lemma accept_spec (app : AppSettings.t) (merged : PipelineSettings.t) (w w1 : World)
    (r : result string) :
  accept env app merged w = (r, w1) ->
  let task_id := uuid4 env (uuid_calls w) in
  let init_status := mkTaskStatus queued (clock env (clock_reads w)) None None None merged in
  r = Ok task_id /\
  background_tasks w1 = background_tasks w ++ [mkBgTask task_id app merged] /\
  clock_reads w1 = S (clock_reads w) /\ uuid_calls w1 = S (uuid_calls w) /\
  redis_calls w1 = S (redis_calls w) /\ op_calls w1 = op_calls w /\
  match redis_fault env (redis_calls w) with
  | None => redis_db w1 = <["task:" +:+ task_id := init_status]> (redis_db w) /\
            redis_writes w1 = redis_writes w ++ [("task:" +:+ task_id, init_status)]
  | Some _ => redis_db w1 = redis_db w /\ redis_writes w1 = redis_writes w
  end.
Proof.
  unfold accept, bind, uuid_uuid4, datetime_now, add_task, ret.
  match goal with |- context [update_task_status env ?t ?o ?w0] =>
    destruct (update_task_status env t o w0) as [r1 w2] eqn:Hu end.
  apply update_task_status_world in Hu
    as (-> & Hcalls & Hclock & Huuid & _ & Hops & Hbg & Hstore).
  cbn in *. intros [= <- <-]. cbn.
  repeat split; try assumption.
  - by rewrite Hbg.
  - destruct (redis_fault env (redis_calls w)); destruct Hstore as (? & ? & _);
      split; assumption.
Qed.


Lemma post_run_pipeline_refused (config : ApiPipelineConfig.t) (w w' : World) (e : exn) :
  post_run_pipeline env config w = (Raise e, w') ->
  start_pipeline env config (set_background_tasks [] w) = (Raise e, w').
Proof.
  unfold post_run_pipeline.
  destruct (start_pipeline env config (set_background_tasks [] w)) as [[tid|e0] w1].
  - destruct (run_background_tasks env (background_tasks w1) w1). discriminate.
  - intros [= <- <-]. reflexivity.
Qed.

(** An accepted submission, followed to the end of its background task. *)
Lemma post_run_pipeline_accepted (config : ApiPipelineConfig.t) (w w' : World)
    (task_id : string) :
  post_run_pipeline env config w = (Ok task_id, w') ->
  exists (merged : PipelineSettings.t) (final : TaskStatus)
         (tr : list (string * option exn)),
    task_id = uuid4 env (uuid_calls w) /\
    op_calls w' = op_calls w ++ tr /\ worker_outcome env tr final /\
    start_time final = clock env (S (clock_reads w)) /\
    end_time final = Some (clock env (S (S (clock_reads w)))) /\
    redis_writes w' =
      redis_writes w ++
      written (redis_fault env (redis_calls w)) ("task:" +:+ task_id)
        (queued_record (clock env (clock_reads w)) merged) ++
      written (redis_fault env (S (redis_calls w))) ("task:" +:+ task_id)
        (running_record (clock env (S (clock_reads w))) merged) ++
      written (redis_fault env (S (S (redis_calls w)))) ("task:" +:+ task_id) final /\
    (redis_fault env (S (S (redis_calls w))) = None ->
     redis_db w' !! ("task:" +:+ task_id) = Some final).
Proof.
  unfold post_run_pipeline.
  destruct (start_pipeline_cases env config (set_background_tasks [] w))
    as [(e0 & f' & _ & E) | [(m & f1 & _ & E) | [(m & f1 & e0 & f2 & _ & _ & E)
       | (m & f1 & f2 & _ & _ & _ & E)]]];
    rewrite E; try discriminate.
  destruct (accept env (app_settings env) m (set_fs f2 (set_background_tasks [] w)))
    as [r w1] eqn:Ha.
  apply accept_spec in Ha as (-> & Hbg & Hclock & Huuid & Hcalls & Hops & Hstore).
  cbn in Hbg, Hclock, Huuid, Hcalls, Hops, Hstore. rewrite Hbg.
  cbn [run_background_tasks]. unfold bind at 1.
  destruct (run_pipeline_in_background env _ _ _ w1) as [r2 w2] eqn:Hr.
  apply run_pipeline_in_background_spec in Hr
    as (final & tr & -> & Ho & Hw & Hst & Hen & _ & _ & _ & _ & Hwr & Hdb).
  cbn [bg_task_id bg_app_config bg_pipeline_config ret] in *.
  intros [= <- <-].
  exists m, final, tr. rewrite Hclock in *. rewrite Hcalls in *.
  repeat split; try assumption.
  - rewrite Ho, Hops. reflexivity.
  - rewrite Hwr. unfold written.
    destruct (redis_fault env (redis_calls w)); destruct Hstore as [_ ->];
      rewrite <- ?app_assoc; reflexivity.
Qed.

End Lifecycle.

(** ** The task lifecycle *)

Lemma new_op_calls_app (w w' : World) (tr : list (string * option exn)) :
  op_calls w' = op_calls w ++ tr -> new_op_calls w w' = tr.
Proof. intros H. unfold new_op_calls. rewrite H. apply drop_app_length. Qed.

Lemma new_writes_app (w w' : World) (l : list (string * TaskStatus)) :
  redis_writes w' = redis_writes w ++ l -> new_writes w w' = l.
Proof. intros H. unfold new_writes. rewrite H. apply drop_app_length. Qed.

Lemma worker_outcome_terminal (env : Env) (tr : list (string * option exn))
    (final : TaskStatus) :
  worker_outcome env tr final -> is_terminal (status final) = true.
Proof. intros [? H|? ? _ H|? ? ? _ H]; rewrite H; reflexivity. Qed.

(** C9: [update_task_status] returns normally whatever the store does: a
    failed write is logged and leaves the store as it was; and the
    background worker, which writes the status only through it, returns
    normally as well. *)
Theorem update_task_status_never_raises (env : Env) (task_id : string)
    (status_obj : TaskStatus) (w : World) :
  fst (update_task_status env task_id status_obj w) = Ok tt /\
  (forall e, redis_fault env (redis_calls w) = Some e ->
     logs (snd (update_task_status env task_id status_obj w)) =
       logs w ++ ["Failed to update status for task " +:+ task_id +:+ ": " +:+ str e] /\
     redis_db (snd (update_task_status env task_id status_obj w)) = redis_db w) /\
  (forall app_config pipeline_config,
     fst (run_pipeline_in_background env task_id app_config pipeline_config w) = Ok tt).
Proof.
  split; [apply update_task_status_ok|]. split.
  - intros e He.
    destruct (update_task_status env task_id status_obj w) as [r w'] eqn:Hu.
    apply update_task_status_world in Hu as (_ & _ & _ & _ & _ & _ & _ & Hs).
    rewrite He in Hs. destruct Hs as (? & _ & ?). split; assumption.
  - intros app cfg.
    destruct (run_pipeline_in_background env task_id app cfg w) as [r w'] eqn:Hr.
    apply run_pipeline_in_background_spec in Hr as (_ & _ & -> & _). reflexivity.
Qed.

(** C1 (the code at the failing input): with a store that refuses every
    write, [start_pipeline] still returns a task identifier and queues the
    background task, while no record of the task exists; the refusal is
    only logged. *)
Theorem start_pipeline_store_down_returns_task_id :
  fst (start_pipeline Demo.store_down Demo.empty_request Demo.world) = Ok "task-0" /\
  redis_db (snd (start_pipeline Demo.store_down Demo.empty_request Demo.world)) = ∅ /\
  logs (snd (start_pipeline Demo.store_down Demo.empty_request Demo.world)) =
    ["Failed to update status for task task-0: Connection refused"] /\
  length (background_tasks
            (snd (start_pipeline Demo.store_down Demo.empty_request Demo.world))) = 1%nat.
Proof. vm_compute. repeat split. Qed.

(** C2, as amended: when stage 2 ([process_embeddings_op], retry policy
    of 2 retries and 30 seconds) was invoked in a run of the worker and
    none of its invocations returned, whatever each of them raised, the
    stage was invoked exactly 3 times, the report and aggregation stages
    were not invoked, and the record the worker writes last, which is
    the stored one when that write reaches the store, has status failed
    and its end time set; its error is the message of the first
    [PIPELINE_FAILURE] event among the events Dagster reports for the
    run, or [Unknown pipeline error] when there is none. *)
Theorem embeddings_retries_exhausted (env : Env) (task_id : string)
    (app_config : AppSettings.t) (pipeline_config : PipelineSettings.t) (w : World)
    (r : result unit) (w' : World) :
  run_pipeline_in_background env task_id app_config pipeline_config w = (r, w') ->
  attempts "process_embeddings_op" (new_op_calls w w') <> [] ->
  succeeded "process_embeddings_op" (new_op_calls w w') = false ->
  redis_fault env (S (redis_calls w)) = None ->
  length (attempts "process_embeddings_op" (new_op_calls w w')) = 3%nat /\
  attempts "process_report_gen_op" (new_op_calls w w') = [] /\
  attempts "process_aggregation_op" (new_op_calls w w') = [] /\
  exists final : TaskStatus,
    redis_db w' !! ("task:" +:+ task_id) = Some final /\
    last (redis_writes w') = Some ("task:" +:+ task_id, final) /\
    status final = failed /\
    error final = Some (failure_message (dagster_events env (new_op_calls w w'))) /\
    is_Some (end_time final).
Proof.
  intros Hr.
  apply run_pipeline_in_background_spec in Hr
    as (final & tr & _ & Ho & Hw & _ & Hen & _ & _ & _ & _ & Hwr & Hdb).
  rewrite (new_op_calls_app _ _ _ Ho). intros Hne Hall Hf.
  rewrite Hf in Hwr.
  assert (Hfinal : status final = failed /\
                   error final = Some (failure_message (dagster_events env tr)) /\
                   length (attempts "process_embeddings_op" tr) = 3%nat /\
                   attempts "process_report_gen_op" tr = [] /\
                   attempts "process_aggregation_op" tr = []).
  { destruct Hw as [final _ _ _ | tr final Ht _ _ _ | tr e' final Ht Hs He _].
    - exfalso. apply Hne. reflexivity.
    - destruct (trace_embeddings_exhausted _ _ Ht Hne Hall) as [[e He] _]. discriminate.
    - destruct (trace_embeddings_exhausted _ _ Ht Hne Hall) as (_ & ? & ? & ?).
      repeat split; assumption. }
  destruct Hfinal as (Hs & He & H3 & Hrep & Hagg).
  repeat split; try assumption.
  exists final. repeat split; try assumption.
  - by apply Hdb.
  - rewrite Hwr, !app_assoc. apply last_snoc.
  - rewrite Hen. eauto.
Qed.

(** A run in which patching, and with it stage 2, fails on every call. *)
Lemma embeddings_retries_exhausted_witness :
  length (attempts "process_embeddings_op"
            (new_op_calls Demo.world Demo.patching_fails_run)) = 3%nat /\
  attempts "process_report_gen_op" (new_op_calls Demo.world Demo.patching_fails_run) = [] /\
  attempts "process_aggregation_op" (new_op_calls Demo.world Demo.patching_fails_run) = [] /\
  exists final : TaskStatus,
    redis_db Demo.patching_fails_run !! "task:t" = Some final /\
    last (redis_writes Demo.patching_fails_run) = Some ("task:t", final) /\
    status final = failed /\
    error final = Some (Demo.run_failure_text "process_embeddings_op") /\
    is_Some (end_time final).
Proof.
  apply (embeddings_retries_exhausted Demo.patching_fails "t" Demo.app Demo.settings
           Demo.world (Ok tt)).
  - vm_compute. reflexivity.
  - vm_compute. discriminate.
  - vm_compute. reflexivity.
  - reflexivity.
Defined.

(** C2 fails for the error text: stage 2 raises [patching failed] three
    times, and the failed record carries the run failure of the
    executor, which names the job and the failed step, not the message
    of the stage's exception. *)
Lemma failed_record_carries_the_run_failure_text :
  attempts "process_embeddings_op" (new_op_calls Demo.world Demo.patching_fails_run) =
    fails_of "process_embeddings_op"
      [Exn RuntimeError "patching failed"; Exn RuntimeError "patching failed";
       Exn RuntimeError "patching failed"] /\
  option_map status (redis_db Demo.patching_fails_run !! "task:t") = Some failed /\
  option_map error (redis_db Demo.patching_fails_run !! "task:t") =
    Some (Some (Demo.run_failure_text "process_embeddings_op")) /\
  Demo.run_failure_text "process_embeddings_op" <> "patching failed".
Proof.
  split; [vm_compute; reflexivity|]. split; [vm_compute; reflexivity|].
  split; [vm_compute; reflexivity|]. vm_compute. discriminate.
Qed.

(** C5: for an accepted submission whose four stages all returned, with
    the store taking every write and the clock not running backwards,
    the records written for the task are exactly a queued, a running and
    a completed one; the last is the stored one, its end time is not
    before its start time, it has results and no error. *)
Theorem successful_task_lifecycle (env : Env) (config : ApiPipelineConfig.t)
    (w w' : World) (task_id : string) :
  post_run_pipeline env config w = (Ok task_id, w') ->
  (forall n, redis_fault env n = None) ->
  (forall i j, (i <= j)%nat -> clock env i <= clock env j) ->
  succeeded "load_config_op" (new_op_calls w w') = true ->
  succeeded "process_embeddings_op" (new_op_calls w w') = true ->
  succeeded "process_report_gen_op" (new_op_calls w w') = true ->
  succeeded "process_aggregation_op" (new_op_calls w w') = true ->
  exists (first second final : TaskStatus) (t : Z),
    new_writes w w' = [("task:" +:+ task_id, first); ("task:" +:+ task_id, second);
                       ("task:" +:+ task_id, final)] /\
    status first = queued /\ status second = running /\ status final = completed /\
    redis_db w' !! ("task:" +:+ task_id) = Some final /\
    end_time final = Some t /\ start_time final <= t /\
    is_Some (results final) /\ error final = None.
Proof.
  intros Hp Hstore Hclock _ _ _ Hagg.
  apply post_run_pipeline_accepted in Hp
    as (merged & final & tr & _ & Ho & Hw & Hst & Hen & Hwr & Hdb).
  rewrite (new_op_calls_app _ _ _ Ho) in Hagg.
  rewrite !Hstore in Hwr. cbn [written app] in Hwr.
  eexists _, _, final, _.
  split; [exact (new_writes_app _ _ _ Hwr)|].
  destruct Hw as [final _ _ _ | tr final Ht Hs He Hres | tr e' final Ht _ _ _].
  - discriminate.
  - repeat split; try assumption.
    + apply Hdb, Hstore.
    + exact Hen.
    + rewrite Hst. apply Hclock. lia.
    + rewrite Hres. eauto.
  - pose proof (trace_aggregation_returned _ _ Ht Hagg). discriminate.
Qed.

(** An accepted request in a deployment where every stage returns. *)
Lemma successful_task_lifecycle_witness :
  exists (first second final : TaskStatus) (t : Z),
    new_writes Demo.world Demo.quiet_run =
      [("task:task-0", first); ("task:task-0", second); ("task:task-0", final)] /\
    status first = queued /\ status second = running /\ status final = completed /\
    redis_db Demo.quiet_run !! "task:task-0" = Some final /\
    end_time final = Some t /\ start_time final <= t /\
    is_Some (results final) /\ error final = None.
Proof.
  apply (successful_task_lifecycle Demo.quiet Demo.empty_request Demo.world
           Demo.quiet_run "task-0").
  - vm_compute. reflexivity.
  - reflexivity.
  - intros i j H. cbn. lia.
  - vm_compute. reflexivity.
  - vm_compute. reflexivity.
  - vm_compute. reflexivity.
  - vm_compute. reflexivity.
Defined.

(** C6: the status writes that a submission and its background task add
    to the store all go to the task's key, and their statuses are, in
    order, a part of queued, running, terminal: no write takes the
    record back to an earlier status and none changes a terminal
    status. *)
Theorem status_writes_monotone (env : Env) (config : ApiPipelineConfig.t) (w w' : World)
    (r : result string) :
  post_run_pipeline env config w = (r, w') ->
  Forall (fun kv => fst kv = "task:" +:+ uuid4 env (uuid_calls w)) (new_writes w w') /\
  (exists x, is_terminal x = true /\
             sublist (map (fun kv => status (snd kv)) (new_writes w w'))
                     [queued; running; x]) /\
  ordered transition_ok (map (fun kv => status (snd kv)) (new_writes w w')) = true.
Proof.
  intros Hp. destruct r as [task_id|e].
  - apply post_run_pipeline_accepted in Hp
      as (merged & final & tr & -> & _ & Hw & _ & _ & Hwr & _).
    rewrite (new_writes_app _ _ _ Hwr).
    apply worker_outcome_terminal in Hw. unfold written.
    destruct (redis_fault env (redis_calls w)), (redis_fault env (S (redis_calls w))),
      (redis_fault env (S (S (redis_calls w)))); cbn;
      (split; [repeat constructor|]);
      (split; [exists (status final); split; [exact Hw|];
               repeat first [apply sublist_nil | apply sublist_skip | apply sublist_cons]|]);
      destruct (status final); try discriminate; reflexivity.
  - apply post_run_pipeline_refused, start_pipeline_refused in Hp
      as (_ & _ & Hwr & _).
    cbn in Hwr. unfold new_writes. rewrite Hwr, drop_all. cbn.
    split; [constructor|]. split; [|reflexivity].
    exists failed. split; [reflexivity|].
    repeat first [apply sublist_nil | apply sublist_skip | apply sublist_cons].
Qed.

(** The writes of an accepted request whose task completes. *)
Lemma status_writes_monotone_witness :
  Forall (fun kv => fst kv = "task:task-0") (new_writes Demo.world Demo.quiet_run) /\
  (exists x, is_terminal x = true /\
             sublist (map (fun kv => status (snd kv)) (new_writes Demo.world Demo.quiet_run))
                     [queued; running; x]) /\
  ordered transition_ok
    (map (fun kv => status (snd kv)) (new_writes Demo.world Demo.quiet_run)) = true.
Proof.
  apply (status_writes_monotone Demo.quiet Demo.empty_request Demo.world Demo.quiet_run
           (Ok "task-0")).
  vm_compute. reflexivity.
Defined.

(** ** The stage functions *)



Section Stages.
Context (env : Env).

Lemma bind_Ok_inv {S A B} (c : SE S A) (k : A -> SE S B) (s s' : S) (b : B) :
  bind c k s = (Ok b, s') ->
  exists a s1, c s = (Ok a, s1) /\ k a s1 = (Ok b, s').
Proof.
  unfold bind. destruct (c s) as [[a|e] s1]; [eauto | discriminate].
Qed.

Lemma try_reraise {S A} (c : SE S A) (s : S) :
  try_except c (fun e => raise e) s = c s.
Proof. unfold try_except, raise. by destruct (c s) as [[a|e] s1]. Qed.

Lemma h5_items_success (root : string) (files : list string) :
  Forall (fun it => Embedding.status it = ItemStatus.success /\ Embedding.error it = None)
         (h5_items env root files).
Proof.
  unfold h5_items. induction files as [|fname files IH]; cbn; [constructor|].
  destruct (endswith fname ".h5"); cbn; [constructor; [split; reflexivity|]|]; exact IH.
Qed.

(** C10: every item of a list that [run_embeddings] returns has status
    success and no error. *)
Theorem run_embeddings_items_success (config_dict : PipelineSettings.t) (f f' : FS)
    (items : list Embedding.t) :
  run_embeddings env config_dict f = (Ok items, f') ->
  Forall (fun it => Embedding.status it = ItemStatus.success /\ Embedding.error it = None)
         items.
Proof.
  unfold run_embeddings. intros H.
  apply bind_Ok_inv in H as (exists_wsi & f1 & _ & H).
  destruct (negb exists_wsi); [discriminate|].
  apply bind_Ok_inv in H as (have_model & f2 & _ & H).
  apply bind_Ok_inv in H as (? & f3 & _ & H).
  apply bind_Ok_inv in H as (white_thresh & f4 & _ & H).
  apply bind_Ok_inv in H as (? & f5 & _ & H).
  apply bind_Ok_inv in H as (exists_dir & f6 & _ & H).
  destruct (negb exists_dir).
  - injection H as <- _. constructor.
  - apply bind_Ok_inv in H as (walk & f7 & _ & H). injection H as <- _.
    induction walk as [|[root files] walk IH]; cbn; [constructor|].
    apply Forall_app. split; [apply h5_items_success | exact IH].
Qed.

Lemma read_report_row (rep : Report.t) (f : FS) :
  read_report env rep f = (Ok (report_row env f rep), f).
Proof.
  unfold read_report, report_row, try_except, bind, os_path_exists, path_exists,
    read_text, ret.
  destruct (Report.report_path rep) as [p|]; [|reflexivity]. cbn.
  destruct (f !! resolve env p) as [[|text]|] eqn:E; cbn; rewrite ?E;
    destruct (read_fault env p); reflexivity.
Qed.

Lemma aggregate_loop_rows (reports : list Report.t) (f : FS) :
  forall rows failed,
  exists failed', aggregate_loop env reports rows failed f =
                  (Ok (rows ++ omap (report_row env f) reports, failed'), f).
Proof.
  induction reports as [|rep reports IH]; intros rows failed; cbn.
  - exists failed. by rewrite app_nil_r.
  - unfold bind. rewrite read_report_row.
    destruct (report_row env f rep) as [row|].
    + destruct (IH (rows ++ [row]) failed) as [failed' ->].
      exists failed'. by rewrite <- app_assoc.
    + apply IH.
Qed.

Lemma rows_and_unreadable (f : FS) (reports : list Report.t) :
  (length (omap (report_row env f) reports) + length (unreadable env f reports))%nat =
  length reports.
Proof.
  unfold unreadable. induction reports as [|rep reports IH]; cbn; [reflexivity|].
  destruct (report_row env f rep); cbn; lia.
Qed.

(** [makedirs] does not change which files can be read. *)
Lemma report_row_makedirs (p : string) (f f1 : FS) (rep : Report.t) :
  makedirs env p f = (Ok tt, f1) ->
  report_row env f1 rep = report_row env f rep.
Proof.
  unfold makedirs. destruct (mkdir_fault env p); [discriminate|].
  destruct (f !! resolve env p) as [[|?]|] eqn:E; try discriminate.
  - by intros [= <-].
  - intros [= <-]. unfold report_row.
    destruct (Report.report_path rep) as [q|]; [|reflexivity].
    destruct (decide (resolve env p = resolve env q)) as [Heq|Hne].
    + rewrite <- Heq, lookup_insert_eq, E. by destruct (read_fault env q).
    + by rewrite lookup_insert_ne.
Qed.

Lemma rows_makedirs (p : string) (f f1 : FS) (reports : list Report.t) :
  makedirs env p f = (Ok tt, f1) ->
  omap (report_row env f1) reports = omap (report_row env f) reports.
Proof.
  intros H. induction reports as [|rep reports IH]; cbn; [reflexivity|].
  by rewrite (report_row_makedirs _ _ _ rep H), IH.
Qed.

(** C3, as amended: for a non-empty list of [N] reports of which [M] have
    no readable source file (those without a path among them), when the
    output folder can be made and [results.csv] written, the aggregation
    stage writes a CSV with the header [wsi_name, report_text] and
    exactly [N - M] rows, one for each readable report in order, also
    when [M = N]; for the empty list it returns without writing. *)
Theorem aggregate_reports_csv (reports : list Report.t) (config_dict : PipelineSettings.t)
    (f f1 : FS) :
  reports <> [] ->
  makedirs env (PipelineSettings.output_folder config_dict) f = (Ok tt, f1) ->
  write_fault env (results_csv env config_dict) = None ->
  f1 !! resolve env (results_csv env config_dict) <> Some Dir ->
  exists rows : list (list string),
    aggregate_reports env reports config_dict f =
      (Ok tt, <[resolve env (results_csv env config_dict) :=
                  File (to_csv env (mkDataFrame ["wsi_name"; "report_text"] rows))]> f1) /\
    rows = omap (report_row env f) reports /\
    length rows = (length reports - length (unreadable env f reports))%nat /\
    (forall rep, Report.report_path rep = None -> report_row env f rep = None) /\
    aggregate_reports env [] config_dict f = (Ok tt, f).
Proof.
  unfold results_csv. intros Hne Hmk Hwf Hnode.
  exists (omap (report_row env f) reports).
  split; [|split; [reflexivity|split; [|split]]].
  - destruct reports as [|rep reports]; [done|].
    unfold aggregate_reports. unfold bind at 1. rewrite Hmk.
    unfold bind at 1.
    destruct (aggregate_loop_rows (rep :: reports) f1 [] []) as [failed' ->].
    cbn [app]. rewrite try_reraise.
    rewrite (rows_makedirs _ _ _ (rep :: reports) Hmk).
    set (rows := omap (report_row env f) (rep :: reports)).
    replace (match rows with
             | [] => mkDataFrame ["wsi_name"; "report_text"] []
             | _ :: _ => mkDataFrame ["wsi_name"; "report_text"] rows
             end) with (mkDataFrame ["wsi_name"; "report_text"] rows)
      by (by destruct rows).
    unfold write_text. rewrite Hwf.
    destruct (f1 !! resolve env (path_join env (PipelineSettings.output_folder config_dict)
                                   "results.csv")) as [[|?]|]; done.
  - pose proof (rows_and_unreadable f reports). lia.
  - intros rep H. unfold report_row. by rewrite H.
  - reflexivity.
Qed.



Lemma report_for_error (dir prompt : string) (item : Embedding.t) (f : FS) :
  Embedding.status item = ItemStatus.error ->
  report_for env dir prompt item f = (Ok (skipped_entry item), f).
Proof. intros H. unfold report_for. rewrite H. reflexivity. Qed.

Lemma report_for_returns (dir prompt : string) (item : Embedding.t) (f : FS) :
  is_Some (Embedding.hdf5_path item) ->
  exists rep f', report_for env dir prompt item f = (Ok rep, f').
Proof.
  intros [p Hp]. unfold report_for. rewrite Hp.
  assert (H : exists rep f',
    (present <- os_path_exists env (Some p) ;;
     if negb present
     then ret (Report.Build (Embedding.wsi_name item) None ItemStatus.error
                 (Some "Missing HDF5 features"))
     else
       try_except
         (decoded_text <- (fun f0 => (histogpt_generate env (default "" (Some p)) prompt f0, f0)) ;;
          let report_path := path_join env dir (Embedding.wsi_name item +:+ ".txt") in
          write_text env report_path decoded_text ;;;
          ret (Report.Build (Embedding.wsi_name item) (Some report_path)
                 ItemStatus.success None))
         (fun e => ret (Report.Build (Embedding.wsi_name item) None ItemStatus.error
                          (Some (str e)))))%py f = (Ok rep, f')).
  { unfold bind, os_path_exists, try_except, ret. cbn.
    destruct (negb (path_exists env f p)); [eauto|].
    destruct (histogpt_generate env p prompt f); [|eauto].
    destruct (write_text env _ _ f) as [[[]|e] f1]; eauto. }
  destruct (Embedding.status item); [exact H | eauto | exact H].
Qed.

Lemma for_each_report_for (dir prompt : string) (items : list Embedding.t) :
  Forall (fun it => Embedding.status it <> ItemStatus.error ->
                    is_Some (Embedding.hdf5_path it)) items ->
  forall f, exists reports f',
    for_each (report_for env dir prompt) items f = (Ok reports, f') /\
    length reports = length items /\
    forall i item, items !! i = Some item ->
      Embedding.status item = ItemStatus.error ->
      reports !! i = Some (skipped_entry item).
Proof.
  induction 1 as [|item items Hitem _ IH]; intros f; cbn.
  - exists [], f. repeat split. intros i item H. by rewrite lookup_nil in H.
  - assert (Hr : exists rep f1, report_for env dir prompt item f = (Ok rep, f1) /\
                   (Embedding.status item = ItemStatus.error -> rep = skipped_entry item)).
    { destruct (Embedding.status item) eqn:Hs.
      - destruct (report_for_returns dir prompt item f) as (rep & f1 & H);
          [apply Hitem; discriminate|].
        exists rep, f1. split; [exact H | discriminate].
      - exists (skipped_entry item), f. split; [by apply report_for_error | reflexivity].
      - destruct (report_for_returns dir prompt item f) as (rep & f1 & H);
          [apply Hitem; discriminate|].
        exists rep, f1. split; [exact H | discriminate]. }
    destruct Hr as (rep & f1 & Hr & Hskip).
    destruct (IH f1) as (reports & f' & Hrest & Hlen & Hpos).
    exists (rep :: reports), f'. unfold bind. rewrite Hr, Hrest. cbn.
    split; [reflexivity|]. split; [by rewrite Hlen|].
    intros [|i] it Hi Hs; cbn in *.
    + injection Hi as <-. by rewrite Hskip.
    + by apply Hpos.
Qed.

(** C4, as amended: an upstream item marked error is not acted on: when
    the model is in place and every other item names a feature file, the
    report stage returns, with one entry per item in order, and the
    entry of each item marked error is a skipped one with no report.
    An item marked skipped is not recognised: it is handled like one
    marked success. *)
Theorem generate_report_skips_error_items (embeddings : list Embedding.t)
    (config_dict : PipelineSettings.t) (f f1 : FS) :
  isfile env f (PipelineSettings.histogpt_model_path config_dict) = true ->
  makedirs env (reports_dir env config_dict) f = (Ok tt, f1) ->
  torch_load env (PipelineSettings.histogpt_model_path config_dict) f1 = None ->
  tokenizer_fault env = None ->
  Forall (fun it => Embedding.status it <> ItemStatus.error ->
                    is_Some (Embedding.hdf5_path it)) embeddings ->
  exists reports f',
    generate_report env embeddings config_dict f = (Ok reports, f') /\
    length reports = length embeddings /\
    forall i item, embeddings !! i = Some item ->
      Embedding.status item = ItemStatus.error ->
      reports !! i = Some (skipped_entry item).
Proof.
  unfold reports_dir. intros Hmodel Hmk Hload Htok Hitems.
  destruct embeddings as [|item items].
  { exists [], f. repeat split. intros i item H. by rewrite lookup_nil in H. }
  unfold generate_report.
  destruct (for_each_report_for
              (path_join env (PipelineSettings.output_folder config_dict) "reports")
              (default "Final diagnosis:" (PipelineSettings.diagnosis_prompt config_dict))
              (item :: items) Hitems f1) as (reports & f' & Hloop & Hlen & Hpos).
  exists reports, f'. split; [|split; assumption].
  unfold bind at 1. cbn beta iota. rewrite Hmodel. cbn [negb].
  unfold bind at 1. cbn [ret]. unfold bind at 1. rewrite Hmk.
  unfold bind at 1. rewrite try_reraise. rewrite Hload.
  unfold bind at 1. rewrite Htok. cbn [ret]. exact Hloop.
Qed.

End Stages.

(** ** The stage functions on concrete inputs *)

(** Patching left one feature file and one other file: one item, marked
    success. *)
Lemma run_embeddings_items_success_witness :
  Forall (fun it => Embedding.status it = ItemStatus.success /\ Embedding.error it = None)
         [Demo.item_success].
Proof.
  apply (run_embeddings_items_success Demo.with_features Demo.settings Demo.initial_fs
           (snd (run_embeddings Demo.with_features Demo.settings Demo.initial_fs))).
  vm_compute. reflexivity.
Defined.

(** C3 fails for the empty list: [N = M = 0], and the stage returns
    without writing [results.csv]. *)
Lemma aggregate_reports_empty_writes_no_csv :
  aggregate_reports Demo.quiet [] Demo.settings Demo.initial_fs = (Ok tt, Demo.initial_fs) /\
  Demo.initial_fs !! resolve Demo.quiet (results_csv Demo.quiet Demo.settings) = None.
Proof. split; vm_compute; reflexivity. Qed.

(** Three reports, two of them without a readable file: one row. *)
Lemma aggregate_reports_csv_witness :
  exists rows : list (list string),
    aggregate_reports Demo.quiet Demo.reports Demo.settings Demo.reports_fs =
      (Ok tt, <[resolve Demo.quiet (results_csv Demo.quiet Demo.settings) :=
                  File (to_csv Demo.quiet (mkDataFrame ["wsi_name"; "report_text"] rows))]>
                (<["/data/out" := Dir]> Demo.reports_fs)) /\
    rows = omap (report_row Demo.quiet Demo.reports_fs) Demo.reports /\
    length rows = (length Demo.reports -
                   length (unreadable Demo.quiet Demo.reports_fs Demo.reports))%nat /\
    (forall rep, Report.report_path rep = None ->
                 report_row Demo.quiet Demo.reports_fs rep = None) /\
    aggregate_reports Demo.quiet [] Demo.settings Demo.reports_fs = (Ok tt, Demo.reports_fs).
Proof.
  apply (aggregate_reports_csv Demo.quiet Demo.reports Demo.settings Demo.reports_fs
           (<["/data/out" := Dir]> Demo.reports_fs)).
  - discriminate.
  - vm_compute. reflexivity.
  - reflexivity.
  - vm_compute. discriminate.
Defined.

(** C4 fails for items marked skipped: one with a feature file gets a
    report and a success entry, one without a path makes the whole stage
    raise. *)
Lemma generate_report_acts_on_skipped_items :
  fst (generate_report Demo.quiet [Demo.item_skipped_with_features] Demo.settings
         Demo.features_fs) =
    Ok [Report.Build "slide1" (Some "/data/out/reports/slide1.txt") ItemStatus.success None] /\
  fst (generate_report Demo.quiet [Demo.item_skipped] Demo.settings Demo.features_fs) =
    Raise (Exn TypeError
             "stat: path should be string, bytes, os.PathLike or integer, not NoneType").
Proof. split; vm_compute; reflexivity. Qed.

(** An item marked error before one with features. *)
Lemma generate_report_skips_error_items_witness :
  exists reports f',
    generate_report Demo.quiet [Demo.item_error; Demo.item_success] Demo.settings
      Demo.features_fs = (Ok reports, f') /\
    length reports = length [Demo.item_error; Demo.item_success] /\
    forall i item, [Demo.item_error; Demo.item_success] !! i = Some item ->
      Embedding.status item = ItemStatus.error ->
      reports !! i = Some (skipped_entry item).
Proof.
  apply (generate_report_skips_error_items Demo.quiet [Demo.item_error; Demo.item_success]
           Demo.settings Demo.features_fs
           (<["/data/out/reports" := Dir]> Demo.features_fs)).
  - vm_compute. reflexivity.
  - vm_compute. reflexivity.
  - reflexivity.
  - reflexivity.
  - repeat constructor; cbn; eauto. intros H. by contradiction H.
Defined.

(** ** Settings *)

Section Settings.
Context (env : Env).

(** The input validator reads the file system and leaves it alone. *)
Lemma validate_wsi_folder (input : option string) (f : FS) :
  exists r, validate_field "wsi_folder" input (validate_input_folder env) f = (Ok r, f) /\
    match input with
    | Some v =>
        if path_exists env f (expanduser env v)
        then r = inl (resolve env (expanduser env v))
        else exists msg, r = inr msg
    | None => exists msg, r = inr msg
    end.
Proof.
  unfold validate_field, validate_input_folder, try_except, bind, ret.
  destruct input as [v|]; [|eauto].
  destruct (path_exists env f (expanduser env v)); cbn; eauto.
Qed.

Lemma makedirs_keeps (p q : string) (f : FS) :
  path_exists env f q = true ->
  path_exists env (snd (makedirs env p f)) q = true.
Proof.
  unfold makedirs, path_exists. intros H.
  destruct (mkdir_fault env p); [exact H|].
  destruct (f !! resolve env p) as [[|c]|] eqn:E; cbn; try exact H.
  destruct (decide (resolve env p = resolve env q)) as [Heq|Hne].
  - by rewrite Heq, lookup_insert_eq.
  - by rewrite lookup_insert_ne.
Qed.

Lemma makedirs_creates (p : string) (f : FS) :
  mkdir_fault env p = None ->
  path_exists env (snd (makedirs env p f)) p = true.
Proof.
  unfold makedirs, path_exists. intros ->.
  destruct (f !! resolve env p) as [[|c]|] eqn:E; cbn; rewrite ?E; try reflexivity.
  by rewrite lookup_insert_eq.
Qed.

(** The file system after the constructor is the one after the output
    validator's [mkdir], when there is an output folder to validate. *)
Lemma PipelineSettings_init_fs (kw : Kwargs.t) (f : FS) (out : string) :
  field_source (Kwargs.output_folder kw) (Kwargs.output_folder (environ env)) = Some out ->
  snd (PipelineSettings_init env kw f) = snd (makedirs env (expanduser env out) f).
Proof.
  intros Ho. unfold PipelineSettings_init. unfold bind at 1.
  destruct (validate_wsi_folder
              (field_source (Kwargs.wsi_folder kw) (Kwargs.wsi_folder (environ env))) f)
    as (r1 & -> & _).
  rewrite Ho.
  unfold validate_field, validate_output_folder, try_except, bind, ret, raise.
  destruct (makedirs env (expanduser env out) f) as [[[]|e] f1]; cbn.
  - destruct r1; reflexivity.
  - destruct (exn_cls e); cbn; try reflexivity. destruct r1; reflexivity.
Qed.

(** A constructed object: both folders had an input, the input folder
    exists, the output folder was made, and the fields are as
    [PipelineSettings_fields] says. *)
Lemma PipelineSettings_init_Ok (kw : Kwargs.t) (f f' : FS) (s : PipelineSettings.t) :
  PipelineSettings_init env kw f = (Ok s, f') ->
  exists wsi out,
    field_source (Kwargs.wsi_folder kw) (Kwargs.wsi_folder (environ env)) = Some wsi /\
    field_source (Kwargs.output_folder kw) (Kwargs.output_folder (environ env)) = Some out /\
    path_exists env f (expanduser env wsi) = true /\
    s = PipelineSettings_fields env kw (resolve env (expanduser env wsi))
          (resolve env (expanduser env out)).
Proof.
  unfold PipelineSettings_init. unfold bind at 1.
  destruct (validate_wsi_folder
              (field_source (Kwargs.wsi_folder kw) (Kwargs.wsi_folder (environ env))) f)
    as (r1 & -> & Hr1).
  unfold bind at 1.
  destruct (field_source (Kwargs.output_folder kw) (Kwargs.output_folder (environ env)))
    as [out|].
  2:{ cbn. destruct r1; discriminate. }
  unfold validate_field, validate_output_folder, try_except, bind, ret, raise.
  destruct (makedirs env (expanduser env out) f) as [[[]|e] f1]; cbn.
  2:{ destruct (exn_cls e); cbn; try discriminate. destruct r1; discriminate. }
  destruct r1 as [wsi_folder|msg]; [|discriminate].
  intros [= <- <-].
  destruct (field_source (Kwargs.wsi_folder kw) (Kwargs.wsi_folder (environ env)))
    as [wsi|]; [|destruct Hr1; discriminate].
  exists wsi, out.
  destruct (path_exists env f (expanduser env wsi)); [|destruct Hr1; discriminate].
  injection Hr1 as ->. repeat split.
Qed.

(** The constructor fails when the input folder it is given is missing. *)
Lemma PipelineSettings_init_wsi_missing (kw : Kwargs.t) (f : FS) (wsi : string) :
  field_source (Kwargs.wsi_folder kw) (Kwargs.wsi_folder (environ env)) = Some wsi ->
  path_exists env f (expanduser env wsi) = false ->
  exists e, fst (PipelineSettings_init env kw f) = Raise e.
Proof.
  intros Hw Hx.
  destruct (PipelineSettings_init env kw f) as [[s|e] f'] eqn:H; [|eauto].
  apply PipelineSettings_init_Ok in H as (wsi' & out & Hw' & _ & Hx' & _).
  rewrite Hw in Hw'. injection Hw' as <-. congruence.
Qed.

(** The base settings come from the constructor, called with no keyword
    argument or with the two fallback folders. *)
Lemma load_pipeline_settings_None (f f1 : FS) (base : PipelineSettings.t) :
  load_pipeline_settings env None f = (Ok base, f1) ->
  PipelineSettings_init env Kwargs.empty f = (Ok base, f1) \/
  exists f0, PipelineSettings_init env fallback_kwargs f0 = (Ok base, f1).
Proof.
  unfold load_pipeline_settings, try_except.
  destruct (PipelineSettings_init env Kwargs.empty f) as [[s|e] f0].
  - intros [= <- <-]. by left.
  - intros H. right. by exists f0.
Qed.


Lemma field_value_override {A} (a : option A) (b : A) (e : option A) (d : A) :
  field_value (field_source a (Some b)) e d = default b a.
Proof. by destruct a. Qed.

Lemma field_value_env {A} (e : option A) (d : A) : field_value None e d = default d e.
Proof. by destruct e. Qed.

(** The base settings' fields other than the two folders: the
    environment's value, else the default. *)
Lemma load_pipeline_settings_fields (f f1 : FS) (base : PipelineSettings.t) :
  load_pipeline_settings env None f = (Ok base, f1) ->
  exists wsi_folder output_folder,
    base = PipelineSettings_fields env Kwargs.empty wsi_folder output_folder.
Proof.
  intros H. apply load_pipeline_settings_None in H as [H|[f0 H]];
    apply PipelineSettings_init_Ok in H as (wsi & out & _ & _ & _ & ->); eauto.
Qed.

Lemma merge_settings_Ok (config : ApiPipelineConfig.t) (f f1 f2 : FS)
    (base merged : PipelineSettings.t) :
  load_pipeline_settings env None f = (Ok base, f1) ->
  merge_settings env config f = (Ok merged, f2) ->
  PipelineSettings_init env (dict_merge (dict base) (user_overrides config)) f1 =
  (Ok merged, f2).
Proof. intros H1. unfold merge_settings, bind. by rewrite H1. Qed.

(** C7, as amended: in the merged settings, [file_ending],
    [save_patches], [batch_size] and [max_workers] hold the caller's
    value when the request gives a non-null one, else the environment's,
    else the default; [wsi_folder] and [output_folder] hold the resolved
    form, as their validators return it, of the caller's value when
    non-null, else of the loaded base settings' value, which is the
    resolved environment value when the environment-only settings
    validate; every other field holds the environment's value, else the
    default.  A null field of the request never overrides. *)
Theorem merged_settings_precedence (config : ApiPipelineConfig.t) (f f1 f2 : FS)
    (base merged : PipelineSettings.t) :
  load_pipeline_settings env None f = (Ok base, f1) ->
  merge_settings env config f = (Ok merged, f2) ->
  let ev := environ env in
  PipelineSettings.wsi_folder merged =
    resolve env (expanduser env (requested_wsi_folder config base)) /\
  PipelineSettings.output_folder merged =
    resolve env (expanduser env (requested_output_folder config base)) /\
  PipelineSettings.file_ending merged =
    default (default ".svs" (Kwargs.file_ending ev)) (ApiPipelineConfig.file_ending config) /\
  PipelineSettings.save_patches merged =
    default (default false (Kwargs.save_patches ev)) (ApiPipelineConfig.save_patches config) /\
  PipelineSettings.batch_size merged =
    default (default 32 (Kwargs.batch_size ev)) (ApiPipelineConfig.batch_size config) /\
  PipelineSettings.max_workers merged =
    default (default (cpu_count env) (Kwargs.max_workers ev))
            (ApiPipelineConfig.max_workers config) /\
  PipelineSettings.execution_timeout merged = default 3600 (Kwargs.execution_timeout ev) /\
  PipelineSettings.max_retries merged = default 2 (Kwargs.max_retries ev) /\
  PipelineSettings.ctranspath_model_path merged =
    default "data/models/ctranspath.pth" (Kwargs.ctranspath_model_path ev) /\
  PipelineSettings.histogpt_model_path merged =
    default "data/models/histogpt-1b-6k-pruned.pth" (Kwargs.histogpt_model_path ev) /\
  PipelineSettings.patch_size merged = default 256 (Kwargs.patch_size ev) /\
  PipelineSettings.white_thresh merged = default "170,185,175" (Kwargs.white_thresh ev) /\
  PipelineSettings.edge_threshold merged = default 2 (Kwargs.edge_threshold ev) /\
  PipelineSettings.ctranspath_model_url merged =
    default "https://huggingface.co/marr-peng-lab/histogpt/resolve/main/ctranspath.pth?download=true"
            (Kwargs.ctranspath_model_url ev) /\
  PipelineSettings.histogpt_model_url merged =
    default "https://huggingface.co/marr-peng-lab/histogpt/resolve/main/histogpt-1b-6k-pruned.pth?download=true"
            (Kwargs.histogpt_model_url ev) /\
  PipelineSettings.downscaling_factor merged =
    default (4 # 1)%Q (Kwargs.downscaling_factor ev) /\
  PipelineSettings.diagnosis_prompt merged = Kwargs.diagnosis_prompt ev /\
  (is_Ok (fst (PipelineSettings_init env Kwargs.empty f)) = true ->
   exists wsi out,
     Kwargs.wsi_folder ev = Some wsi /\ Kwargs.output_folder ev = Some out /\
     PipelineSettings.wsi_folder base = resolve env (expanduser env wsi) /\
     PipelineSettings.output_folder base = resolve env (expanduser env out)).
Proof.
  intros Hload Hmerge. cbv zeta.
  pose proof (merge_settings_Ok _ _ _ _ _ _ Hload Hmerge) as Hinit.
  apply PipelineSettings_init_Ok in Hinit as (wsi & out & Hw & Ho & _ & ->).
  destruct (load_pipeline_settings_fields _ _ _ Hload) as (bw & bo & Hbase).
  assert (wsi = requested_wsi_folder config base) as ->.
  { unfold requested_wsi_folder. cbn in Hw.
    destruct (ApiPipelineConfig.wsi_folder config); cbn in *; congruence. }
  assert (out = requested_output_folder config base) as ->.
  { unfold requested_output_folder. cbn in Ho.
    destruct (ApiPipelineConfig.output_folder config); cbn in *; congruence. }
  assert (Henv : is_Ok (fst (PipelineSettings_init env Kwargs.empty f)) = true ->
     exists wsi out,
       Kwargs.wsi_folder (environ env) = Some wsi /\
       Kwargs.output_folder (environ env) = Some out /\
       PipelineSettings.wsi_folder base = resolve env (expanduser env wsi) /\
       PipelineSettings.output_folder base = resolve env (expanduser env out)).
  { unfold load_pipeline_settings, try_except in Hload.
    destruct (PipelineSettings_init env Kwargs.empty f) as [[s0|e0] f0] eqn:H0;
      [|discriminate].
    intros _. injection Hload as -> _.
    apply PipelineSettings_init_Ok in H0 as (w0 & o0 & Hw0 & Ho0 & _ & ->).
    exists w0, o0. cbn in Hw0, Ho0. repeat split; assumption. }
  clear Hload Hmerge Hw Ho. subst base.
  cbn [PipelineSettings_fields PipelineSettings.wsi_folder PipelineSettings.output_folder
       PipelineSettings.file_ending PipelineSettings.save_patches
       PipelineSettings.batch_size PipelineSettings.max_workers
       PipelineSettings.execution_timeout PipelineSettings.max_retries
       PipelineSettings.ctranspath_model_path PipelineSettings.histogpt_model_path
       PipelineSettings.patch_size PipelineSettings.white_thresh
       PipelineSettings.edge_threshold PipelineSettings.ctranspath_model_url
       PipelineSettings.histogpt_model_url PipelineSettings.downscaling_factor
       PipelineSettings.diagnosis_prompt
       dict_merge dict user_overrides Kwargs.empty
       Kwargs.file_ending Kwargs.save_patches Kwargs.batch_size Kwargs.max_workers
       Kwargs.execution_timeout Kwargs.max_retries Kwargs.ctranspath_model_path
       Kwargs.histogpt_model_path Kwargs.patch_size Kwargs.white_thresh
       Kwargs.edge_threshold Kwargs.ctranspath_model_url Kwargs.histogpt_model_url
       Kwargs.downscaling_factor Kwargs.diagnosis_prompt].
  rewrite !field_value_override, !field_value_env. cbn [default option.default].
  repeat (split; [reflexivity|]).
  split; [by destruct (Kwargs.diagnosis_prompt (environ env))|]. exact Henv.
Qed.

End Settings.

(** ** Settings on concrete requests *)

(** C7 fails for a folder field: the request names [data/wsi], the merged
    settings hold the resolved path. *)
Lemma merged_wsi_folder_is_not_the_callers_value :
  ApiPipelineConfig.wsi_folder Demo.relative_request = Some "data/wsi" /\
  fst (merge_settings Demo.quiet Demo.relative_request Demo.initial_fs) =
    Ok Demo.relative_settings /\
  PipelineSettings.wsi_folder Demo.relative_settings = "/app/data/wsi" /\
  PipelineSettings.wsi_folder Demo.relative_settings <> "data/wsi".
Proof.
  split; [reflexivity|]. split; [vm_compute; reflexivity|].
  split; [reflexivity | discriminate].
Qed.

(** A request that overrides the input folder and the batch size. *)
Lemma merged_settings_precedence_witness :
  PipelineSettings.wsi_folder Demo.relative_settings = "/app/data/wsi" /\
  PipelineSettings.output_folder Demo.relative_settings = "/data/out" /\
  PipelineSettings.file_ending Demo.relative_settings = ".svs" /\
  PipelineSettings.batch_size Demo.relative_settings = 8 /\
  PipelineSettings.max_workers Demo.relative_settings = 4.
Proof.
  destruct (merged_settings_precedence Demo.quiet Demo.relative_request Demo.initial_fs
              (snd (load_pipeline_settings Demo.quiet None Demo.initial_fs))
              (snd (merge_settings Demo.quiet Demo.relative_request Demo.initial_fs))
              Demo.settings Demo.relative_settings)
    as (Hw & Ho & Hf & _ & Hb & Hm & _).
  - vm_compute. reflexivity.
  - vm_compute. reflexivity.
  - split; [exact Hw|]. split; [exact Ho|]. split; [exact Hf|].
    split; [exact Hb | exact Hm].
Defined.

(** ** Refused submissions *)

Section Refusal.
Context (env : Env).

(** A missing input folder, with an output folder that can be made, is a
    [ValidationError] of the constructor. *)
Lemma PipelineSettings_init_wsi_error (kw : Kwargs.t) (f f2 : FS) (wsi out : string) :
  field_source (Kwargs.wsi_folder kw) (Kwargs.wsi_folder (environ env)) = Some wsi ->
  field_source (Kwargs.output_folder kw) (Kwargs.output_folder (environ env)) = Some out ->
  path_exists env f (expanduser env wsi) = false ->
  makedirs env (expanduser env out) f = (Ok tt, f2) ->
  exists e, exn_cls e = ValidationError /\
            PipelineSettings_init env kw f = (Raise e, f2).
Proof.
  intros Hw Ho Hx Hmk.
  unfold PipelineSettings_init. rewrite Hw, Ho.
  unfold bind at 1. unfold validate_field at 1, validate_input_folder, try_except, bind.
  rewrite Hx. cbn.
  unfold validate_field, validate_output_folder, try_except, bind, ret. rewrite Hmk. cbn.
  eexists. split; [|reflexivity]. reflexivity.
Qed.

(** The settings that [start_pipeline] merged name an input folder that
    exists: the constructor has just checked it. *)
Lemma merged_wsi_folder_exists (config : ApiPipelineConfig.t) (f f2 : FS)
    (merged : PipelineSettings.t) :
  (forall p, resolve env (resolve env p) = resolve env p) ->
  merge_settings env config f = (Ok merged, f2) ->
  path_exists env f2 (PipelineSettings.wsi_folder merged) = true.
Proof.
  intros Hres Hm. unfold merge_settings in Hm.
  apply bind_Ok_inv in Hm as (base & f1 & _ & Hi).
  pose proof Hi as Hi'.
  apply (PipelineSettings_init_Ok env) in Hi as (wsi & out & _ & Ho & Hx & ->).
  pose proof (PipelineSettings_init_fs env _ f1 out Ho) as Hfs.
  rewrite Hi' in Hfs. cbn [snd] in Hfs. subst f2.
  apply (makedirs_keeps env (expanduser env out)) in Hx.
  unfold path_exists in *. cbn. by rewrite Hres.
Qed.

(** C8: the answer of [start_pipeline] to a submission it refuses,
    where resolved paths resolve to themselves and the base settings
    load.  The test before the 400 answer never fails: the settings were
    merged only if their input folder exists, so a missing input
    location is met by the constructor, and with an output location that
    can be made the caller gets the constructor's [ValidationError]
    wrapped in the 500 answer of the last handler.  A refused submission
    gets an HTTP error and leaves the identifiers, the store and the task
    queue untouched; and the output location exists once
    [start_pipeline] has run, made by the output validator, whether the
    submission was accepted or not, unless the system refuses the
    [mkdir]. *)
Theorem invalid_submission_is_answered_with_500 (config : ApiPipelineConfig.t) (w : World)
    (base : PipelineSettings.t) (f1 : FS) :
  (forall p, resolve env (resolve env p) = resolve env p) ->
  load_pipeline_settings env None (fs w) = (Ok base, f1) ->
  (forall merged f2, merge_settings env config (fs w) = (Ok merged, f2) ->
     path_exists env f2 (PipelineSettings.wsi_folder merged) = true) /\
  (path_exists env f1 (expanduser env (requested_wsi_folder config base)) = false ->
   (exists e w', start_pipeline env config w = (Raise e, w')) /\
   forall f2,
     makedirs env (expanduser env (requested_output_folder config base)) f1 = (Ok tt, f2) ->
     exists e, exn_cls e = ValidationError /\
       merge_settings env config (fs w) = (Raise e, f2) /\
       start_pipeline env config w =
         (Raise (Exn (HTTPException 500) ("Failed to start pipeline: " +:+ str e)),
          set_fs f2 w)) /\
  (forall e w', start_pipeline env config w = (Raise e, w') ->
     is_HTTPException e = true /\
     uuid_calls w' = uuid_calls w /\ redis_db w' = redis_db w /\
     redis_writes w' = redis_writes w /\ redis_calls w' = redis_calls w /\
     background_tasks w' = background_tasks w) /\
  (mkdir_fault env (expanduser env (requested_output_folder config base)) = None ->
   path_exists env (fs (snd (start_pipeline env config w)))
     (expanduser env (requested_output_folder config base)) = true).
Proof.
  intros Hres Hload.
  assert (Hw : field_source
                 (Kwargs.wsi_folder (dict_merge (dict base) (user_overrides config)))
                 (Kwargs.wsi_folder (environ env)) =
               Some (requested_wsi_folder config base)).
  { unfold requested_wsi_folder. cbn.
    by destruct (ApiPipelineConfig.wsi_folder config). }
  assert (Ho : field_source
                 (Kwargs.output_folder (dict_merge (dict base) (user_overrides config)))
                 (Kwargs.output_folder (environ env)) =
               Some (requested_output_folder config base)).
  { unfold requested_output_folder. cbn.
    by destruct (ApiPipelineConfig.output_folder config). }
  assert (Hm : merge_settings env config (fs w) =
               PipelineSettings_init env (dict_merge (dict base) (user_overrides config)) f1).
  { unfold merge_settings, bind. by rewrite Hload. }
  split; [|split; [|split]].
  - intros merged f2. by apply merged_wsi_folder_exists.
  - intros Hx. split.
    + destruct (PipelineSettings_init_wsi_missing env _ f1 _ Hw Hx) as [e He].
      destruct (PipelineSettings_init env (dict_merge (dict base) (user_overrides config)) f1)
        as [r f2] eqn:Hi.
      cbn in He. subst r.
      rewrite (start_pipeline_merge_fails env config w e f2 Hm). eauto.
    + intros f2 Hmk.
      destruct (PipelineSettings_init_wsi_error _ f1 f2 _ _ Hw Ho Hx Hmk) as (e & Hc & Hi).
      exists e. split; [exact Hc|]. rewrite <- Hm in Hi. split; [exact Hi|].
      rewrite (start_pipeline_merge_fails env config w e f2 Hi).
      unfold is_HTTPException. by rewrite Hc.
  - intros e w' Hr. apply start_pipeline_refused in Hr as (? & ? & ? & ? & _ & ? & _ & ?).
    repeat split; assumption.
  - intros Hmk.
    assert (Hmade : path_exists env (snd (merge_settings env config (fs w)))
                      (expanduser env (requested_output_folder config base)) = true).
    { rewrite Hm, (PipelineSettings_init_fs env _ f1 _ Ho). by apply makedirs_creates. }
    destruct (start_pipeline_cases env config w)
      as [(e0 & f' & Em & E) | [(m & f2 & Em & E) | [(m & f2 & e0 & f3 & Em & Ed & E)
         | (m & f2 & f3 & Em & _ & Ed & E)]]];
      rewrite E; rewrite Em in Hmade; cbn [snd] in Hmade.
    + exact Hmade.
    + exact Hmade.
    + cbn. pose proof (makedirs_keeps env (PipelineSettings.output_folder m) _ f2 Hmade) as H.
      by rewrite Ed in H.
    + pose proof (makedirs_keeps env (PipelineSettings.output_folder m) _ f2 Hmade) as H.
      rewrite Ed in H. cbn in H.
      destruct (accept env (app_settings env) m (set_fs f3 w)) as [r w1] eqn:Ha. cbn.
      assert (fs w1 = f3) as ->; [|exact H].
      revert Ha. unfold accept, bind, uuid_uuid4, datetime_now, add_task, ret.
      match goal with |- context [update_task_status env ?t ?o ?w0] =>
        destruct (update_task_status env t o w0) as [r1 w2] eqn:Hu end.
      apply (update_task_status_world env) in Hu as (-> & _ & _ & _ & Hfs & _).
      intros [= <- <-]. cbn in *. exact Hfs.
Qed.

End Refusal.

(** A request whose input folder is missing and whose output folder is
    new: the answer is the 500 of the last handler, around the
    constructor's validation error; and an environment whose input
    folder is missing, with a request that names none: the base settings
    are the fallback's and the submission is accepted. *)
Lemma invalid_submission_is_answered_with_500_witness :
  (exists e,
     exn_cls e = ValidationError /\
     start_pipeline Demo.quiet Demo.bad_request Demo.world =
       (Raise (Exn (HTTPException 500) ("Failed to start pipeline: " +:+ str e)),
        set_fs (snd (merge_settings Demo.quiet Demo.bad_request Demo.initial_fs))
               Demo.world)) /\
  path_exists Demo.quiet Demo.initial_fs "/data/new_out" = false /\
  Kwargs.wsi_folder (environ Scenario.wsi_missing) = Some "/nowhere" /\
  path_exists Scenario.wsi_missing Demo.initial_fs "/nowhere" = false /\
  fst (start_pipeline Scenario.wsi_missing Demo.empty_request Demo.world) = Ok "task-0".
Proof.
  destruct (invalid_submission_is_answered_with_500 Demo.quiet Demo.bad_request Demo.world
              Demo.settings (snd (load_pipeline_settings Demo.quiet None Demo.initial_fs)))
    as (_ & Hrefused & _ & _).
  - intros p. unfold resolve, Demo.quiet, Demo.env, Demo.resolve.
    destruct (String.prefix "/" p) eqn:E; [by rewrite E|]. reflexivity.
  - vm_compute. reflexivity.
  - split; [|split; [reflexivity|split; [reflexivity|split; [reflexivity|]]]].
    + destruct Hrefused as [_ H500]; [vm_compute; reflexivity|].
      destruct (H500 (snd (merge_settings Demo.quiet Demo.bad_request Demo.initial_fs)))
        as (e & Hc & _ & Hs);
        [vm_compute; reflexivity|].
      exists e. split; [exact Hc | exact Hs].
    + vm_compute. reflexivity.
Defined.

(** * Further properties *)

(** ** The read endpoints *)

Section ReadEndpoints.

Lemma get_result_lookup (task_id : string) (w : World) :
  get_result None task_id w =
  (match redis_db w !! ("task:" +:+ task_id) with
   | None => Raise (Exn (HTTPException 404) "Task not found")
   | Some task_data =>
       if is_terminal (status task_data)
       then Ok task_data
       else Raise (Exn (HTTPException 400) "Task is still running")
   end, w).
Proof.
  unfold get_result, try_except, bind, redis_get, raise, ret.
  destruct (redis_db w !! ("task:" +:+ task_id)) as [task_data|]; [|reflexivity].
  destruct (status task_data); reflexivity.
Qed.

Lemma check_status_lookup (task_id : string) (w : World) :
  check_status None task_id w =
  (match redis_db w !! ("task:" +:+ task_id) with
   | None => Raise (Exn (HTTPException 500)
                      "Error retrieving task status: 404: Task not found")
   | Some task_data => Ok task_data
   end, w).
Proof.
  unfold check_status, try_except, bind, redis_get, raise, ret.
  destruct (redis_db w !! ("task:" +:+ task_id)); [reflexivity|].
  vm_compute. reflexivity.
Qed.

(** X1: with the store answering, [get_result] leaves the world as it
    was and returns a record exactly when the store holds it under the
    task's key with status completed or failed; it answers 404 exactly
    when the store holds no record for the id, and 400 exactly when the
    record is queued or running. *)
Theorem get_result_answers (task_id : string) (w : World) :
  snd (get_result None task_id w) = w /\
  (forall task_data,
     fst (get_result None task_id w) = Ok task_data <->
     redis_db w !! ("task:" +:+ task_id) = Some task_data /\
     is_terminal (status task_data) = true) /\
  (fst (get_result None task_id w) = Raise (Exn (HTTPException 404) "Task not found") <->
   redis_db w !! ("task:" +:+ task_id) = None) /\
  (fst (get_result None task_id w) =
     Raise (Exn (HTTPException 400) "Task is still running") <->
   exists task_data, redis_db w !! ("task:" +:+ task_id) = Some task_data /\
                     is_terminal (status task_data) = false).
Proof.
  rewrite get_result_lookup. cbn [fst snd]. split; [reflexivity|].
  destruct (redis_db w !! ("task:" +:+ task_id)) as [t|].
  - destruct (is_terminal (status t)) eqn:Ht.
    + split; [|split].
      * intros t'. split; [intros [= <-]; done | intros [[= <-] _]; done].
      * split; discriminate.
      * split; [discriminate|]. intros (t' & [= <-] & H). congruence.
    + split; [|split].
      * intros t'. split; [discriminate | intros [[= <-] H]; congruence].
      * split; discriminate.
      * split; [|done]. intros _. by exists t.
  - split; [|split].
    + intros t'. split; [discriminate | intros [H _]; discriminate].
    + done.
    + split; [discriminate|]. intros (t' & H & _). discriminate.
Qed.

(** X2: with the store answering, [check_status] returns the record of a
    known id, and answers an id without a record with status 500: the 404
    it raises is caught by its own [except Exception]. *)
Theorem check_status_answers (task_id : string) (w : World) :
  (forall task_data, redis_db w !! ("task:" +:+ task_id) = Some task_data ->
     check_status None task_id w = (Ok task_data, w)) /\
  (redis_db w !! ("task:" +:+ task_id) = None ->
     exists detail,
       check_status None task_id w = (Raise (Exn (HTTPException 500) detail), w)).
Proof.
  unfold check_status, try_except, bind, redis_get, raise, ret. split.
  - intros task_data ->. reflexivity.
  - intros ->. cbn. eauto.
Qed.

Lemma for_each_frame {A B} (body : A -> M B) (l : list A) :
  (forall a w, snd (body a w) = w) -> forall w, snd (for_each body l w) = w.
Proof.
  intros Hb. induction l as [|a l IH]; intros w; cbn; [reflexivity|].
  unfold bind. pose proof (Hb a w) as Ha. destruct (body a w) as [[b|e] w1]; cbn in Ha; subst w1.
  - pose proof (IH w) as Hl. destruct (for_each body l w) as [[bs|e] w2]; cbn in *; by subst.
  - reflexivity.
Qed.

Lemma task_id_of_key_frame (k : string) (w : World) : snd (task_id_of_key k w) = w.
Proof. unfold task_id_of_key. by destruct (py_split "task:" k) as [|? [|? ?]]. Qed.

(** X3: whatever the store does, the read endpoints raise nothing but an
    [HTTPException], and they leave the world as it was. *)
Theorem read_endpoints_raise_http_only (fault : option exn) (task_id : string) (w : World) :
  (forall e w', check_status fault task_id w = (Raise e, w') ->
     is_HTTPException e = true) /\
  (forall e w', get_result fault task_id w = (Raise e, w') ->
     is_HTTPException e = true) /\
  (forall e w', list_tasks fault w = (Raise e, w') -> is_HTTPException e = true) /\
  snd (check_status fault task_id w) = w /\
  snd (get_result fault task_id w) = w /\
  snd (list_tasks fault w) = w.
Proof.
  repeat split.
  - unfold check_status, try_except, bind, redis_get, raise, ret. intros e w'.
    destruct fault as [e0|].
    + destruct (is_RedisError e0); intros [= <- _]; reflexivity.
    + destruct (redis_db w !! ("task:" +:+ task_id)); cbn; [discriminate|].
      intros [= <- _]. reflexivity.
  - unfold get_result, try_except, bind, redis_get, raise, ret. intros e w'.
    destruct fault as [e0|].
    + destruct (is_RedisError e0); [intros [= <- _]; reflexivity|].
      destruct (is_HTTPException e0) eqn:E; intros [= <- _]; [exact E | reflexivity].
    + destruct (redis_db w !! ("task:" +:+ task_id)) as [t|]; cbn.
      * destruct (status t); cbn; try discriminate; intros [= <- _]; reflexivity.
      * intros [= <- _]. reflexivity.
  - unfold list_tasks, try_except, bind, redis_keys, raise. intros e w'.
    destruct fault as [e0|].
    + destruct (is_RedisError e0); intros [= <- _]; reflexivity.
    + destruct (for_each task_id_of_key _ w) as [[ids|e1] w1]; [discriminate|].
      destruct (is_RedisError e1); intros [= <- _]; reflexivity.
  - unfold check_status, try_except, bind, redis_get, raise, ret.
    destruct fault as [e0|]; [by destruct (is_RedisError e0)|].
    by destruct (redis_db w !! ("task:" +:+ task_id)).
  - unfold get_result, try_except, bind, redis_get, raise, ret.
    destruct fault as [e0|];
      [by destruct (is_RedisError e0), (is_HTTPException e0)|].
    destruct (redis_db w !! ("task:" +:+ task_id)) as [t|]; [|reflexivity].
    by destruct (status t).
  - unfold list_tasks, try_except, bind, redis_keys, raise.
    destruct fault as [e0|]; [by destruct (is_RedisError e0)|].
    pose proof (for_each_frame task_id_of_key
                  (List.filter (String.prefix "task:") (elements (dom (redis_db w))))
                  task_id_of_key_frame w) as H.
    destruct (for_each task_id_of_key _ w) as [[ids|e1] w1]; cbn in H; subst w1;
      [reflexivity|]. by destruct (is_RedisError e1).
Qed.

(** X8: [health_check] returns whatever the ping does: it reports
    healthy exactly when the ping answered true, degraded when it
    answered false or raised a Redis error, and error otherwise. *)
Theorem health_check_never_raises (ping : result bool) (w : World) :
  exists h, health_check ping w = (Ok h, w) /\
    health_version h = "2.0.0" /\
    (health_status h = "healthy" <-> ping = Ok true) /\
    (health_status h = "degraded" <->
       ping = Ok false \/ exists e, ping = Raise e /\ is_RedisError e = true) /\
    (health_status h = "error" <->
       exists e, ping = Raise e /\ is_RedisError e = false).
Proof.
  unfold health_check, try_except, bind, ret.
  destruct ping as [[|]|e]; cbn.
  - eexists. split; [reflexivity|]. cbn. repeat split; try done.
    + intros [|(e & ? & _)]; discriminate.
    + intros (e & ? & _). discriminate.
  - eexists. split; [reflexivity|]. cbn. repeat split; try done.
    + by left.
    + intros (e & ? & _). discriminate.
  - destruct (is_RedisError e) eqn:E; cbn; eexists; (split; [reflexivity|]); cbn;
      repeat split; try done.
    + right. eauto.
    + intros (e' & [= <-] & He). congruence.
    + intros [|(e' & [= <-] & He)]; [discriminate | congruence].
    + eauto.
Qed.

End ReadEndpoints.

(** ** Writing and reading the store *)

Section StoreRoundTrip.
Context (env : Env).

Lemma update_task_status_stored (task_id : string) (status_obj : TaskStatus) (w : World) :
  redis_db (snd (update_task_status env task_id status_obj w)) =
  stored (redis_fault env (redis_calls w)) ("task:" +:+ task_id) status_obj (redis_db w).
Proof.
  destruct (update_task_status env task_id status_obj w) as [r w'] eqn:H.
  apply update_task_status_world in H as (_ & _ & _ & _ & _ & _ & _ & Hs).
  unfold stored. cbn. destruct (redis_fault env (redis_calls w)); by destruct Hs as [-> _].
Qed.

(** X4: a status write that the store takes can be read back:
    [check_status] returns the written record, and [get_result] returns it
    when its status is completed or failed and answers 400 when it is
    queued or running. *)
Theorem write_then_read (task_id : string) (status_obj : TaskStatus) (w : World) :
  redis_fault env (redis_calls w) = None ->
  check_status None task_id (snd (update_task_status env task_id status_obj w)) =
    (Ok status_obj, snd (update_task_status env task_id status_obj w)) /\
  get_result None task_id (snd (update_task_status env task_id status_obj w)) =
    (if is_terminal (status status_obj)
     then Ok status_obj
     else Raise (Exn (HTTPException 400) "Task is still running"),
     snd (update_task_status env task_id status_obj w)).
Proof.
  intros Hf.
  assert (Hdb : redis_db (snd (update_task_status env task_id status_obj w))
                  !! ("task:" +:+ task_id) = Some status_obj).
  { rewrite update_task_status_stored, Hf. apply lookup_insert_eq. }
  split.
  - unfold check_status, try_except, bind, redis_get, raise, ret. by rewrite Hdb.
  - rewrite get_result_lookup. by rewrite Hdb.
Qed.


(** The store after a run of the worker. *)
Lemma run_pipeline_in_background_store (task_id : string) (app : AppSettings.t)
    (cfg : PipelineSettings.t) (w w' : World) (r : result unit) :
  run_pipeline_in_background env task_id app cfg w = (r, w') ->
  exists final : TaskStatus,
    is_terminal (status final) = true /\ is_Some (end_time final) /\
    redis_db w' =
      stored (redis_fault env (S (redis_calls w))) ("task:" +:+ task_id) final
        (stored (redis_fault env (redis_calls w)) ("task:" +:+ task_id)
           (running_record (clock env (clock_reads w)) cfg) (redis_db w)).
Proof.
  rewrite run_pipeline_in_background_unfold. cbv zeta.
  set (t0 := clock env (clock_reads w)).
  pose proof (update_task_status_stored task_id (running_record t0 cfg)
                (snd (datetime_now env w))) as Hdb1.
  destruct (update_task_status env task_id (running_record t0 cfg)
              (snd (datetime_now env w))) as [r1 w1] eqn:H1.
  apply update_task_status_world in H1 as (_ & Hcalls1 & _).
  cbn [snd datetime_now redis_calls redis_db] in *.
  destruct (run_job env app cfg w1) as [outcome mid] eqn:Hj.
  apply run_job_spec in Hj as [(Hdb & _ & Hcalls & _) _].
  cbn [fst snd].
  match goal with |- update_task_status env task_id ?fin ?w2 = _ -> _ =>
    set (final := fin); pose proof (update_task_status_stored task_id final w2) as Hdb2 end.
  intros H2. rewrite H2 in Hdb2. cbn [snd datetime_now redis_calls redis_db] in Hdb2.
  exists final. split; [|split].
  - subst final. by destruct outcome as [[[] ?]|?].
  - subst final. destruct outcome as [[[] ?]|?]; cbn; eauto.
  - rewrite Hdb2, Hcalls, Hcalls1, Hdb, Hdb1. reflexivity.
Qed.

(** The store after an accepted submission and its background task. *)
Lemma post_run_pipeline_store (config : ApiPipelineConfig.t) (w w' : World)
    (task_id : string) :
  post_run_pipeline env config w = (Ok task_id, w') ->
  exists (merged : PipelineSettings.t) (final : TaskStatus),
    is_terminal (status final) = true /\ is_Some (end_time final) /\
    redis_db w' =
      stored (redis_fault env (S (S (redis_calls w)))) ("task:" +:+ task_id) final
        (stored (redis_fault env (S (redis_calls w))) ("task:" +:+ task_id)
           (running_record (clock env (S (clock_reads w))) merged)
           (stored (redis_fault env (redis_calls w)) ("task:" +:+ task_id)
              (queued_record (clock env (clock_reads w)) merged) (redis_db w))).
Proof.
  unfold post_run_pipeline.
  destruct (start_pipeline_cases env config (set_background_tasks [] w))
    as [(e0 & f' & _ & E) | [(m & f1 & _ & E) | [(m & f1 & e0 & f2 & _ & _ & E)
       | (m & f1 & f2 & _ & _ & _ & E)]]];
    rewrite E; try discriminate.
  destruct (accept env (app_settings env) m (set_fs f2 (set_background_tasks [] w)))
    as [r w1] eqn:Ha.
  apply accept_spec in Ha as (-> & Hbg & Hclock & _ & Hcalls & _ & Hstore).
  cbn in Hbg, Hclock, Hcalls, Hstore. rewrite Hbg.
  cbn [run_background_tasks]. unfold bind at 1.
  destruct (run_pipeline_in_background env _ _ _ w1) as [r2 w2] eqn:Hr.
  pose proof Hr as Hr'.
  apply run_pipeline_in_background_spec in Hr' as (_ & _ & -> & _).
  apply run_pipeline_in_background_store in Hr as (final & Ht & He & Hdb).
  cbn [bg_task_id bg_app_config bg_pipeline_config ret] in *.
  intros [= <- <-].
  exists m, final. split; [exact Ht|]. split; [exact He|].
  rewrite Hdb, Hcalls, Hclock. f_equal. f_equal. unfold stored.
  destruct (redis_fault env (redis_calls w)); destruct Hstore as [-> _]; reflexivity.
Qed.

(** X5: once an accepted submission's background task is over and the
    store took its last write, [get_result] returns the task's terminal
    record, with its end time set. *)
Theorem finished_task_has_a_result (config : ApiPipelineConfig.t) (w w' : World)
    (task_id : string) :
  post_run_pipeline env config w = (Ok task_id, w') ->
  redis_fault env (S (S (redis_calls w))) = None ->
  exists final : TaskStatus,
    get_result None task_id w' = (Ok final, w') /\
    check_status None task_id w' = (Ok final, w') /\
    is_terminal (status final) = true /\ is_Some (end_time final).
Proof.
  intros Hp Hf. apply post_run_pipeline_store in Hp as (merged & final & Ht & He & Hdb).
  rewrite Hf in Hdb. cbn [stored] in Hdb.
  assert (Hl : redis_db w' !! ("task:" +:+ task_id) = Some final)
    by (rewrite Hdb; apply lookup_insert_eq).
  exists final. rewrite get_result_lookup, check_status_lookup, Hl, Ht. repeat split; assumption.
Qed.

(** X6: when the store refuses the last write of a task whose key was
    free, the task's outcome never becomes readable: [get_result]
    answers 400, task still running, if the store took one of the two
    earlier writes, and 404 if it took none. *)
Theorem lost_final_write_hides_the_outcome (config : ApiPipelineConfig.t) (w w' : World)
    (task_id : string) (e : exn) :
  post_run_pipeline env config w = (Ok task_id, w') ->
  redis_db w !! ("task:" +:+ task_id) = None ->
  redis_fault env (S (S (redis_calls w))) = Some e ->
  get_result None task_id w' =
  (Raise (if refused (redis_fault env (redis_calls w)) &&
             refused (redis_fault env (S (redis_calls w)))
          then Exn (HTTPException 404) "Task not found"
          else Exn (HTTPException 400) "Task is still running"), w').
Proof.
  intros Hp Hfree Hf. apply post_run_pipeline_store in Hp as (merged & final & _ & _ & Hdb).
  rewrite Hf in Hdb. cbn [stored] in Hdb.
  rewrite get_result_lookup, Hdb. unfold stored, refused.
  destruct (redis_fault env (redis_calls w)), (redis_fault env (S (redis_calls w))); cbn.
  - by rewrite Hfree.
  - by rewrite lookup_insert_eq.
  - by rewrite lookup_insert_eq.
  - by rewrite lookup_insert_eq.
Qed.

End StoreRoundTrip.

(** A completed record written to a store that answers. *)
Lemma write_then_read_witness :
  check_status None "t"
    (snd (update_task_status Demo.quiet "t" Scenario.completed_record Demo.world)) =
    (Ok Scenario.completed_record,
     snd (update_task_status Demo.quiet "t" Scenario.completed_record Demo.world)) /\
  get_result None "t"
    (snd (update_task_status Demo.quiet "t" Scenario.completed_record Demo.world)) =
    (Ok Scenario.completed_record,
     snd (update_task_status Demo.quiet "t" Scenario.completed_record Demo.world)).
Proof.
  apply (write_then_read Demo.quiet "t" Scenario.completed_record Demo.world).
  reflexivity.
Defined.

(** An accepted request in a deployment where every stage returns. *)
Lemma finished_task_has_a_result_witness :
  exists final : TaskStatus,
    get_result None "task-0" Demo.quiet_run = (Ok final, Demo.quiet_run) /\
    check_status None "task-0" Demo.quiet_run = (Ok final, Demo.quiet_run) /\
    is_terminal (status final) = true /\ is_Some (end_time final).
Proof.
  apply (finished_task_has_a_result Demo.quiet Demo.empty_request Demo.world
           Demo.quiet_run "task-0"); vm_compute; reflexivity.
Defined.

(** The store refuses the third write: the task stays running for good. *)
Lemma lost_final_write_hides_the_outcome_witness :
  get_result None "task-0" Scenario.last_write_lost_run =
  (Raise (Exn (HTTPException 400) "Task is still running"), Scenario.last_write_lost_run).
Proof.
  apply (lost_final_write_hides_the_outcome Scenario.last_write_lost Demo.empty_request
           Demo.world Scenario.last_write_lost_run "task-0"
           (Exn RedisConnectionError "Connection refused")); vm_compute; reflexivity.
Defined.


(** ** Listing the tasks *)

Lemma append_empty_r (s : string) : s +:+ "" = s.
Proof.
  induction s as [|c s IH]; [reflexivity|].
  change (String c s +:+ "") with (String c (s +:+ "")). by rewrite IH.
Qed.

Lemma append_assoc_char (cur : string) (c : ascii) (rest : string) :
  (cur +:+ String c "") +:+ rest = cur +:+ String c rest.
Proof.
  induction cur as [|d cur IH]; [reflexivity|].
  change ((String d cur +:+ String c "") +:+ rest)
    with (String d ((cur +:+ String c "") +:+ rest)).
  by rewrite IH.
Qed.

Lemma prefix_append (s1 s2 : string) :
  String.prefix s1 s2 = true -> exists t, s2 = s1 +:+ t.
Proof.
  revert s2. induction s1 as [|a s1 IH]; intros s2 H; [by exists s2|].
  destruct s2 as [|b s2]; [discriminate|]. cbn in H.
  destruct (ascii_dec a b) as [->|]; [|discriminate].
  destruct (IH _ H) as [t ->]. by exists t.
Qed.

Lemma prefix_of_append (s1 t : string) : String.prefix s1 (s1 +:+ t) = true.
Proof.
  induction s1 as [|a s1 IH]; [by destruct t|].
  change (String a s1 +:+ t) with (String a (s1 +:+ t)). cbn.
  by destruct (ascii_dec a a).
Qed.

(** A string without the separator is one piece. *)
Lemma split_scan_no_sep (sep s : string) :
  contains sep s = false -> forall cur, split_scan sep 0 cur s = [cur +:+ s].
Proof.
  induction s as [|c s IH]; intros H cur; cbn in *.
  - by rewrite append_empty_r.
  - apply orb_false_iff in H as [Hp Hc]. cbn in Hp. rewrite Hp.
    by rewrite (IH Hc), append_assoc_char.
Qed.

(** The first piece is a prefix of what was scanned. *)
Lemma split_scan_head (sep s : string) :
  forall cur, exists x l rest,
    split_scan sep 0 cur s = x :: l /\ cur +:+ s = x +:+ rest.
Proof.
  induction s as [|c s IH]; intros cur; cbn.
  - exists cur, [], "". by rewrite append_empty_r.
  - match goal with |- context [if ?b then _ else _] => destruct b end.
    + eexists cur, _, _. split; reflexivity.
    + destruct (IH (cur +:+ String c "")) as (x & l & rest & -> & Hx).
      exists x, l, rest. split; [reflexivity|]. by rewrite <- Hx, append_assoc_char.
Qed.

Lemma py_split_task_key (t : string) :
  py_split "task:" ("task:" +:+ t) = "" :: split_scan "task:" 0 "" t.
Proof.
  unfold py_split.
  change ("task:" +:+ t) with (String "t" ("ask:" +:+ t)).
  unfold split_scan at 1. fold split_scan.
  change (String "t" ("ask:" +:+ t)) with ("task:" +:+ t).
  rewrite prefix_of_append. reflexivity.
Qed.


Lemma task_id_of_key_returns (k : string) (w : World) :
  String.prefix "task:" k = true ->
  task_id_of_key k w = (Ok (listed_id k), w).
Proof.
  intros H. apply prefix_append in H as [t ->].
  unfold task_id_of_key, listed_id. rewrite py_split_task_key.
  destruct (split_scan_head "task:" t "") as (x & l & rest & -> & _). reflexivity.
Qed.

Lemma listed_id_plain (task_id : string) :
  contains "task:" task_id = false -> listed_id ("task:" +:+ task_id) = task_id.
Proof.
  intros H. unfold listed_id. rewrite py_split_task_key, (split_scan_no_sep _ _ H).
  reflexivity.
Qed.

Lemma listed_id_prefix (k : string) :
  String.prefix "task:" k = true -> exists rest, k = "task:" +:+ listed_id k +:+ rest.
Proof.
  intros H. apply prefix_append in H as [t ->].
  unfold listed_id. rewrite py_split_task_key.
  destruct (split_scan_head "task:" t "") as (x & l & rest & -> & Hx).
  change ("" +:+ t) with t in Hx. exists rest. rewrite Hx. reflexivity.
Qed.

Lemma for_each_pure {A B} (body : A -> M B) (g : A -> B) (l : list A) (w : World) :
  Forall (fun a => body a w = (Ok (g a), w)) l ->
  for_each body l w = (Ok (map g l), w).
Proof.
  induction 1 as [|a l Ha _ IH]; cbn; [reflexivity|].
  unfold bind. by rewrite Ha, IH.
Qed.

(** X7: with the store answering, [list_tasks] returns; it lists the
    identifier of every stored task whose identifier does not itself
    contain the text [task:], and every identifier it lists begins the
    identifier of a stored task. *)
Theorem list_tasks_lists_stored_tasks (w : World) :
  exists ids : list string,
    list_tasks None w = (Ok ids, w) /\
    (forall task_id, contains "task:" task_id = false ->
       is_Some (redis_db w !! ("task:" +:+ task_id)) -> task_id ∈ ids) /\
    (forall task_id, task_id ∈ ids ->
       exists rest, is_Some (redis_db w !! ("task:" +:+ task_id +:+ rest))).
Proof.
  set (keys := List.filter (String.prefix "task:") (elements (dom (redis_db w)))).
  assert (Hkeys : forall k, k ∈ keys <->
                    is_Some (redis_db w !! k) /\ String.prefix "task:" k = true).
  { intros k. unfold keys. rewrite list_elem_of_In, filter_In, <- list_elem_of_In,
      elem_of_elements, elem_of_dom. reflexivity. }
  exists (map listed_id keys). split; [|split].
  - unfold list_tasks, try_except, bind, redis_keys. fold keys.
    rewrite (for_each_pure task_id_of_key listed_id); [reflexivity|].
    apply Forall_forall. intros k Hk. apply task_id_of_key_returns.
    by apply Hkeys in Hk as [_ ?].
  - intros task_id Hc Hs. rewrite <- (listed_id_plain _ Hc).
    apply list_elem_of_In, in_map, list_elem_of_In, Hkeys.
    split; [exact Hs | apply prefix_of_append].
  - intros task_id Hin. apply list_elem_of_In, in_map_iff in Hin as (k & <- & Hk).
    apply list_elem_of_In, Hkeys in Hk as [Hs Hp].
    destruct (listed_id_prefix _ Hp) as [rest Hr]. exists rest. by rewrite <- Hr.
Qed.

(** ** Start-up *)


Ltac use_refused H n :=
  let e := fresh "e" in let Hp := fresh "Hp" in let Hc := fresh "Hc" in
  destruct (H n ltac:(lia)) as (e & Hp & Hc); rewrite Hp; cbn; rewrite Hc; cbn.

(** X9: when Redis refuses the connection at all three pings,
    [startup_event] does not raise: it returns after sleeping one second
    twice, and the application starts without its store. *)
Theorem startup_event_gives_up_quietly (ping : nat -> result bool) (w : World) :
  (forall n, (n < 3)%nat -> refused_ping ping n) ->
  fst (startup_event ping w) = Ok tt /\
  sleeps (snd (startup_event ping w)) = sleeps w ++ [1; 1] /\
  redis_db (snd (startup_event ping w)) = redis_db w.
Proof.
  intros H. unfold startup_event. cbn.
  use_refused H 0%nat. unfold bind, time_sleep. cbn.
  use_refused H 1%nat. unfold bind, time_sleep. cbn.
  use_refused H 2%nat. unfold bind. cbn.
  rewrite <- app_assoc. repeat split.
Qed.

(** X10: [startup_event] stops at the first ping that does not raise a
    connection error: after [k] refused pings, with one second slept
    after each, it returns if the next ping answers and raises what that
    ping raised otherwise. *)
Theorem startup_event_stops_at_first_answer (ping : nat -> result bool) (k : nat)
    (w : World) :
  (k < 3)%nat ->
  (forall n, (n < k)%nat -> refused_ping ping n) ->
  (forall e, ping k = Raise e -> exn_cls e <> RedisConnectionError) ->
  fst (startup_event ping w) = match ping k with Ok _ => Ok tt | Raise e => Raise e end /\
  sleeps (snd (startup_event ping w)) = sleeps w ++ repeat 1 k.
Proof.
  intros Hk H Hother. unfold startup_event.
  destruct k as [|[|[|k]]]; [| | |lia]; cbn.
  - destruct (ping 0%nat) as [b|e] eqn:Hp; cbn; [by rewrite app_nil_r|].
    specialize (Hother e eq_refl). destruct (exn_cls e); cbn; rewrite ?app_nil_r; done.
  - use_refused H 0%nat. unfold bind, time_sleep. cbn.
    destruct (ping 1%nat) as [b|e'] eqn:Hp1; cbn; [done|].
    specialize (Hother e' eq_refl). destruct (exn_cls e'); cbn; done.
  - use_refused H 0%nat. unfold bind, time_sleep. cbn.
    use_refused H 1%nat. unfold bind, time_sleep. cbn.
    destruct (ping 2%nat) as [b|e'] eqn:Hp2; cbn; [by rewrite <- app_assoc|].
    specialize (Hother e' eq_refl). destruct (exn_cls e'); cbn; rewrite <- ?app_assoc; done.
Qed.

(** Redis refuses every ping. *)
Lemma startup_event_gives_up_quietly_witness :
  fst (startup_event Scenario.ping_never Demo.world) = Ok tt /\
  sleeps (snd (startup_event Scenario.ping_never Demo.world)) = sleeps Demo.world ++ [1; 1] /\
  redis_db (snd (startup_event Scenario.ping_never Demo.world)) = redis_db Demo.world.
Proof.
  apply (startup_event_gives_up_quietly Scenario.ping_never Demo.world).
  intros n _. eexists. split; reflexivity.
Defined.

(** Redis refuses the first ping and answers the second. *)
Lemma startup_event_stops_at_first_answer_witness :
  fst (startup_event Scenario.ping_second Demo.world) = Ok tt /\
  sleeps (snd (startup_event Scenario.ping_second Demo.world)) = sleeps Demo.world ++ [1].
Proof.
  apply (startup_event_stops_at_first_answer Scenario.ping_second 1 Demo.world).
  - lia.
  - intros n Hn. assert (n = 0%nat) as -> by lia. eexists. split; reflexivity.
  - intros e H. discriminate H.
Defined.


(** ** Loading the settings *)

Section Loading.
Context (env : Env).

(** X11: when the settings of the environment alone do not validate,
    [load_pipeline_settings] takes both folders from its fallback: the
    settings it returns name [data/wsi], which exists, and
    [data/test_output], whatever folders the environment names; the
    other fields still come from the environment or the defaults. *)
Theorem load_pipeline_settings_fallback (f f0 f1 : FS) (e : exn)
    (base : PipelineSettings.t) :
  PipelineSettings_init env Kwargs.empty f = (Raise e, f0) ->
  load_pipeline_settings env None f = (Ok base, f1) ->
  PipelineSettings.wsi_folder base = resolve env (expanduser env "data/wsi") /\
  PipelineSettings.output_folder base = resolve env (expanduser env "data/test_output") /\
  path_exists env f0 (expanduser env "data/wsi") = true /\
  PipelineSettings.file_ending base = default ".svs" (Kwargs.file_ending (environ env)) /\
  PipelineSettings.batch_size base = default 32 (Kwargs.batch_size (environ env)).
Proof.
  intros H0 Hload. unfold load_pipeline_settings, try_except in Hload.
  rewrite H0 in Hload.
  apply PipelineSettings_init_Ok in Hload as (wsi & out & Hw & Ho & Hx & ->).
  cbn in Hw, Ho. injection Hw as <-. injection Ho as <-.
  cbn. rewrite !field_value_env. repeat split. exact Hx.
Qed.

(** X12: with a configuration file that exists, [load_pipeline_settings]
    builds the settings from the file's pipeline section alone, each
    field from the file, else the environment, else the default; it does
    not fall back, and whatever goes wrong is raised as a [ValueError].
    A path that is empty or names no file is ignored. *)
Theorem load_pipeline_settings_json (p : string) (f : FS) :
  p <> "" ->
  path_exists env f p = true ->
  (forall s f', load_pipeline_settings env (Some p) f = (Ok s, f') ->
     exists pipeline_data,
       json_load_pipeline env p = Ok pipeline_data /\
       PipelineSettings_init env pipeline_data f = (Ok s, f') /\
       PipelineSettings.file_ending s =
         default (default ".svs" (Kwargs.file_ending (environ env)))
                 (Kwargs.file_ending pipeline_data) /\
       PipelineSettings.batch_size s =
         default (default 32 (Kwargs.batch_size (environ env)))
                 (Kwargs.batch_size pipeline_data)) /\
  (forall e f', load_pipeline_settings env (Some p) f = (Raise e, f') ->
     exn_cls e = ValueError) /\
  (forall g, path_exists env g p = false ->
     load_pipeline_settings env (Some p) g = load_pipeline_settings env None g) /\
  load_pipeline_settings env (Some "") f = load_pipeline_settings env None f.
Proof.
  intros Hp Hx. unfold load_pipeline_settings at 1 2.
  apply String.eqb_neq in Hp. rewrite Hp, Hx. cbn [negb andb].
  unfold try_except, raise.
  split; [|split; [|split]].
  - intros s f'. destruct (json_load_pipeline env p) as [data|e0]; [|discriminate].
    destruct (PipelineSettings_init env data f) as [[s0|e0] f0] eqn:Hi; [|discriminate].
    intros [= <- <-]. exists data. split; [reflexivity|]. split; [exact Hi|].
    apply PipelineSettings_init_Ok in Hi as (wsi & out & _ & _ & _ & ->). cbn.
    unfold field_value, field_source.
    by destruct (Kwargs.file_ending data), (Kwargs.batch_size data),
      (Kwargs.file_ending (environ env)), (Kwargs.batch_size (environ env)).
  - intros e f'. destruct (json_load_pipeline env p) as [data|e0].
    + destruct (PipelineSettings_init env data f) as [[s0|e1] f0]; [discriminate|].
      by intros [= <- _].
    + by intros [= <- _].
  - intros g Hg. unfold load_pipeline_settings. by rewrite Hg, andb_false_r.
  - reflexivity.
Qed.

End Loading.

(** The environment names a missing input folder and a batch size. *)
Lemma load_pipeline_settings_fallback_witness :
  PipelineSettings.wsi_folder Scenario.fallback_settings = "/app/data/wsi" /\
  PipelineSettings.output_folder Scenario.fallback_settings = "/app/data/test_output" /\
  PipelineSettings.batch_size Scenario.fallback_settings = 8.
Proof.
  pose (e := match fst (PipelineSettings_init Scenario.wsi_missing Kwargs.empty
                           Demo.initial_fs) with
             | Raise e => e
             | Ok _ => Exn ValidationError ""
             end).
  destruct (load_pipeline_settings_fallback Scenario.wsi_missing Demo.initial_fs
              (snd (PipelineSettings_init Scenario.wsi_missing Kwargs.empty Demo.initial_fs))
              (snd (load_pipeline_settings Scenario.wsi_missing None Demo.initial_fs))
              e Scenario.fallback_settings) as (Hw & Ho & _ & _ & Hb).
  - vm_compute. reflexivity.
  - vm_compute. reflexivity.
  - split; [exact Hw|]. split; [exact Ho | exact Hb].
Defined.

(** A configuration file that gives the batch size. *)
Lemma load_pipeline_settings_json_witness :
  PipelineSettings.file_ending Scenario.json_settings = ".svs" /\
  PipelineSettings.batch_size Scenario.json_settings = 16.
Proof.
  destruct (load_pipeline_settings_json Scenario.json_config "config.json"
              Scenario.config_fs) as (Hok & _).
  - discriminate.
  - vm_compute. reflexivity.
  - destruct (Hok Scenario.json_settings
                (snd (load_pipeline_settings Scenario.json_config (Some "config.json")
                        Scenario.config_fs)))
      as (pipeline_data & Hd & _ & Hfe & Hbs).
    + vm_compute. reflexivity.
    + vm_compute in Hd. injection Hd as <-. split; [exact Hfe | exact Hbs].
Defined.


Section AppLoading.
Context (env : Env) (json_load_app : string -> result AppKwargs.t).

(** X13: [load_app_settings] with a configuration file that exists
    returns the settings of the environment with every field that the
    file's app section gives replaced by the file's value, or raises a
    [ValueError]; a path that is absent, empty or names no file is
    ignored and the settings of the environment are returned. *)
Theorem load_app_settings_json_overrides (json_path : option string) (f : FS) :
  snd (load_app_settings_json env json_load_app json_path f) = f /\
  (forall p, json_path = Some p -> p <> "" -> path_exists env f p = true ->
     match json_load_app p with
     | Ok app_data =>
         fst (load_app_settings_json env json_load_app json_path f) =
         Ok (AppSettings_merged (app_settings env) app_data) /\
         AppSettings.redis_url (AppSettings_merged (app_settings env) app_data) =
           default (AppSettings.redis_url (app_settings env)) (AppKwargs.redis_url app_data)
     | Raise ex =>
         exists msg,
           fst (load_app_settings_json env json_load_app json_path f) =
           Raise (Exn ValueError msg)
     end) /\
  ((json_path = None \/ json_path = Some "" \/
    exists p, json_path = Some p /\ path_exists env f p = false) ->
   fst (load_app_settings_json env json_load_app json_path f) = Ok (app_settings env)).
Proof.
  unfold load_app_settings_json, try_except, raise, ret. split; [|split].
  - destruct json_path as [p|]; [|reflexivity].
    destruct (negb (p =? "") && path_exists env f p); [|reflexivity].
    by destruct (json_load_app p).
  - intros p -> Hp Hx. apply String.eqb_neq in Hp. rewrite Hp, Hx. cbn [negb andb].
    destruct (json_load_app p); cbn; eauto.
  - intros [->|[->|(p & -> & Hx)]]; [reflexivity..|].
    by rewrite Hx, andb_false_r.
Qed.

End AppLoading.

(** ** Downloading the model weights *)

Section Download.
Context (env : Env).

Lemma makedirs_same_files (p : string) (f : FS) :
  same_files (snd (makedirs env p f)) f.
Proof.
  unfold makedirs, same_files. intros q c.
  destruct (mkdir_fault env p); [reflexivity|].
  destruct (f !! resolve env p) as [[|c0]|] eqn:E; cbn; try reflexivity.
  destruct (decide (resolve env p = q)) as [<-|Hne].
  - rewrite lookup_insert_eq, E. split; discriminate.
  - by rewrite lookup_insert_ne.
Qed.

(** X14: [download_file] writes nothing unless the server answers with
    status 200: when the request raises or another status comes back,
    the call raises and every file is as it was. *)
Theorem download_file_needs_status_200 (url dest_path : string) (f : FS) :
  (forall response, http_get env url = Ok response -> status_code response <> 200) ->
  (exists e, fst (download_file env url dest_path f) = Raise e) /\
  same_files (snd (download_file env url dest_path f)) f.
Proof.
  intros Hs. unfold download_file, bind, raise.
  pose proof (makedirs_same_files (dirname env dest_path) f) as Hm.
  destruct (makedirs env (dirname env dest_path) f) as [[[]|e] f1]; cbn in *; [|eauto].
  destruct (http_get env url) as [response|e] eqn:Hg; cbn; [|eauto].
  specialize (Hs response eq_refl). apply Z.eqb_neq in Hs. rewrite Hs. cbn. eauto.
Qed.

Lemma download_file_written (url dest_path : string) (f f1 : FS)
    (response : HttpResponse) :
  makedirs env (dirname env dest_path) f = (Ok tt, f1) ->
  http_get env url = Ok response ->
  status_code response = 200 ->
  write_fault env dest_path = None ->
  f1 !! resolve env dest_path <> Some Dir ->
  download_file env url dest_path f =
  (if (content_length response =? 0)%Z ||
      (chunks_length (iter_content response) =? content_length response)%Z
   then Ok tt else Raise size_mismatch,
   <[resolve env dest_path := File (String.concat "" (iter_content response))]> f1).
Proof.
  intros Hm Hg Hs Hw Hd. unfold download_file, bind, raise, ret, write_text.
  rewrite Hm, Hg, Hs, Hw. cbn.
  destruct (f1 !! resolve env dest_path) as [[|c]|]; [done|..];
    by destruct (content_length response =? 0)%Z,
      (chunks_length (iter_content response) =? content_length response)%Z.
Qed.

(** X15: once the server has answered with status 200 and the file could
    be opened, [download_file] leaves the chunks it received in the
    destination file, whatever it then reports: it returns when the
    announced length is 0 or is the number of bytes received, and raises
    the size mismatch otherwise, with the short file left in place. *)
Theorem download_file_keeps_what_it_received (url dest_path : string) (f f1 : FS)
    (response : HttpResponse) :
  makedirs env (dirname env dest_path) f = (Ok tt, f1) ->
  http_get env url = Ok response ->
  status_code response = 200 ->
  write_fault env dest_path = None ->
  f1 !! resolve env dest_path <> Some Dir ->
  read_fault env dest_path = None ->
  fst (download_file env url dest_path f) =
    (if (content_length response =? 0)%Z ||
        (chunks_length (iter_content response) =? content_length response)%Z
     then Ok tt else Raise size_mismatch) /\
  isfile env (snd (download_file env url dest_path f)) dest_path = true /\
  fst (read_text env dest_path (snd (download_file env url dest_path f))) =
    Ok (String.concat "" (iter_content response)).
Proof.
  intros Hm Hg Hs Hw Hd Hr.
  rewrite (download_file_written url dest_path f f1 response Hm Hg Hs Hw Hd). cbn [fst snd].
  unfold isfile, read_text. rewrite Hr, lookup_insert_eq. done.
Qed.

Lemma run_embeddings_no_download (h : string -> result HttpResponse)
    (config_dict : PipelineSettings.t) (f : FS) :
  isfile env f (PipelineSettings.ctranspath_model_path config_dict) = true ->
  run_embeddings (with_http_get h env) config_dict f = run_embeddings env config_dict f.
Proof.
  intros Hm. unfold run_embeddings, bind.
  change (path_exists (with_http_get h env)) with (path_exists env).
  change (isfile (with_http_get h env)) with (isfile env).
  destruct (path_exists env f (PipelineSettings.wsi_folder config_dict)); cbn [negb];
    [|reflexivity].
  cbv beta iota. rewrite Hm. reflexivity.
Qed.

(** X16: a download of the CTranspath weights that is cut short makes
    [run_embeddings] raise the size mismatch and leaves the short file
    where the weights belong; the next attempt finds a file there and
    goes on without asking the network again. *)
Theorem run_embeddings_keeps_short_download (config_dict : PipelineSettings.t)
    (f f1 : FS) (response : HttpResponse) :
  path_exists env f (PipelineSettings.wsi_folder config_dict) = true ->
  isfile env f (PipelineSettings.ctranspath_model_path config_dict) = false ->
  makedirs env (dirname env (PipelineSettings.ctranspath_model_path config_dict)) f =
    (Ok tt, f1) ->
  http_get env (PipelineSettings.ctranspath_model_url config_dict) = Ok response ->
  status_code response = 200 ->
  content_length response <> 0 ->
  chunks_length (iter_content response) <> content_length response ->
  write_fault env (PipelineSettings.ctranspath_model_path config_dict) = None ->
  f1 !! resolve env (PipelineSettings.ctranspath_model_path config_dict) <> Some Dir ->
  run_embeddings env config_dict f = (Raise size_mismatch, short_download env config_dict response f1) /\
  isfile env (short_download env config_dict response f1)
         (PipelineSettings.ctranspath_model_path config_dict) = true /\
  forall h, run_embeddings (with_http_get h env) config_dict
              (short_download env config_dict response f1) =
            run_embeddings env config_dict (short_download env config_dict response f1).
Proof.
  intros Hx Hm Hmk Hg Hs Hl Hc Hw Hd.
  set (model_path := PipelineSettings.ctranspath_model_path config_dict) in *.
  assert (Hf2 : isfile env (short_download env config_dict response f1) model_path = true).
  { unfold isfile, short_download. fold model_path. by rewrite lookup_insert_eq. }
  split; [|split; [exact Hf2|]].
  - unfold run_embeddings. unfold bind at 1. rewrite Hx. cbn [negb].
    unfold bind at 1. fold model_path. rewrite Hm. cbn [negb].
    unfold bind at 1. rewrite try_reraise.
    rewrite (download_file_written _ model_path f f1 response Hmk Hg Hs Hw Hd).
    apply Z.eqb_neq in Hl, Hc. rewrite Hl, Hc. reflexivity.
  - intros h. by apply run_embeddings_no_download.
Qed.

End Download.

(** The server answers 404. *)
Lemma download_file_needs_status_200_witness :
  (exists e, fst (download_file Scenario.not_found "https://models.example/ctranspath.pth"
                    "data/models/ctranspath.pth" Scenario.no_model_fs) = Raise e) /\
  same_files (snd (download_file Scenario.not_found "https://models.example/ctranspath.pth"
                     "data/models/ctranspath.pth" Scenario.no_model_fs))
             Scenario.no_model_fs.
Proof.
  apply (download_file_needs_status_200 Scenario.not_found).
  intros response H. vm_compute in H. injection H as <-. discriminate.
Defined.

(** The server announces 100 bytes and sends five. *)
Lemma download_file_keeps_what_it_received_witness :
  fst (download_file Scenario.truncated "https://models.example/ctranspath.pth"
         "data/models/ctranspath.pth" Scenario.no_model_fs) = Raise size_mismatch /\
  isfile Scenario.truncated
    (snd (download_file Scenario.truncated "https://models.example/ctranspath.pth"
            "data/models/ctranspath.pth" Scenario.no_model_fs))
    "data/models/ctranspath.pth" = true /\
  fst (read_text Scenario.truncated "data/models/ctranspath.pth"
         (snd (download_file Scenario.truncated "https://models.example/ctranspath.pth"
                 "data/models/ctranspath.pth" Scenario.no_model_fs))) = Ok "abcde".
Proof.
  apply (download_file_keeps_what_it_received Scenario.truncated
           "https://models.example/ctranspath.pth" "data/models/ctranspath.pth"
           Scenario.no_model_fs Scenario.models_dir_fs Scenario.short_response);
    try (vm_compute; reflexivity).
  vm_compute. discriminate.
Defined.

(** The same server, asked for the CTranspath weights by the embeddings
    stage. *)
Lemma run_embeddings_keeps_short_download_witness :
  run_embeddings Scenario.truncated Demo.settings Scenario.no_model_fs =
    (Raise size_mismatch,
     short_download Scenario.truncated Demo.settings Scenario.short_response
                    Scenario.models_dir_fs) /\
  isfile Scenario.truncated
    (short_download Scenario.truncated Demo.settings Scenario.short_response
                    Scenario.models_dir_fs)
    (PipelineSettings.ctranspath_model_path Demo.settings) = true.
Proof.
  destruct (run_embeddings_keeps_short_download Scenario.truncated Demo.settings
              Scenario.no_model_fs Scenario.models_dir_fs Scenario.short_response)
    as (H1 & H2 & _);
    try (vm_compute; reflexivity); try (vm_compute; discriminate).
  split; [exact H1 | exact H2].
Defined.


Section Reports.
Context (env : Env).

Lemma keeps_files_refl (f : FS) : keeps_files f f.
Proof. intros k c H. eauto. Qed.

Lemma keeps_files_trans (f g h : FS) : keeps_files f g -> keeps_files g h -> keeps_files f h.
Proof. intros H1 H2 k c H. destruct (H1 k c H) as [c' H']. eauto. Qed.

Lemma keeps_files_insert (k : string) (c : string) (f : FS) :
  keeps_files f (<[k := File c]> f).
Proof.
  intros q c0 H. destruct (decide (k = q)) as [<-|Hne].
  - rewrite lookup_insert_eq. eauto.
  - rewrite lookup_insert_ne by done. eauto.
Qed.

Lemma entry_ok_keeps (dir : string) (f g : FS) (rep : Report.t) :
  keeps_files f g -> entry_ok env dir f rep -> entry_ok env dir g rep.
Proof.
  unfold entry_ok, isfile. intros Hk. destruct (is_success rep); [|done].
  intros [Hp Hf]. split; [done|].
  destruct (f !! resolve env (path_join env dir (Report.wsi_name rep +:+ ".txt")))
    as [[|c]|] eqn:E; try discriminate.
  destruct (Hk _ _ E) as [c' ->]. reflexivity.
Qed.

Lemma report_for_entry (dir prompt : string) (item : Embedding.t) (f f' : FS)
    (rep : Report.t) :
  report_for env dir prompt item f = (Ok rep, f') ->
  Report.wsi_name rep = Embedding.wsi_name item /\
  keeps_files f f' /\
  entry_ok env dir f' rep.
Proof.
  unfold report_for, entry_ok, is_success.
  assert (Hrest :
    (present <- os_path_exists env (Embedding.hdf5_path item) ;;
     if negb present
     then ret (Report.Build (Embedding.wsi_name item) None ItemStatus.error
                            (Some "Missing HDF5 features"))
     else
       try_except
         (decoded_text <- (fun f => (histogpt_generate env
                                       (default "" (Embedding.hdf5_path item)) prompt f, f)) ;;
          write_text env (path_join env dir (Embedding.wsi_name item +:+ ".txt"))
                     decoded_text ;;;
          ret (Report.Build (Embedding.wsi_name item)
                 (Some (path_join env dir (Embedding.wsi_name item +:+ ".txt")))
                 ItemStatus.success None))
         (fun e => ret (Report.Build (Embedding.wsi_name item) None ItemStatus.error
                                     (Some (str e))))) f = (Ok rep, f') ->
    Report.wsi_name rep = Embedding.wsi_name item /\
    keeps_files f f' /\
    (if match Report.status rep with ItemStatus.success => true | _ => false end
     then Report.report_path rep = Some (path_join env dir (Report.wsi_name rep +:+ ".txt")) /\
          isfile env f' (path_join env dir (Report.wsi_name rep +:+ ".txt")) = true
     else Report.report_path rep = None)).
  { unfold bind at 1, os_path_exists.
    destruct (Embedding.hdf5_path item) as [p|]; [|discriminate].
    destruct (path_exists env f p); cbn [negb].
    2:{ intros [= <- <-]. cbn. auto using keeps_files_refl. }
    unfold try_except, bind, ret, write_text. change (default "" (Some p)) with p.
    destruct (histogpt_generate env p prompt f) as [text|e]; cbn beta iota.
    2:{ intros [= <- <-]. cbn. auto using keeps_files_refl. }
    destruct (write_fault env (path_join env dir (Embedding.wsi_name item +:+ ".txt")));
      cbn beta iota.
    { intros [= <- <-]. cbn. auto using keeps_files_refl. }
    destruct (f !! resolve env (path_join env dir (Embedding.wsi_name item +:+ ".txt")))
      as [[|c]|]; cbn beta iota; intros [= <- <-]; cbn;
      auto using keeps_files_refl;
      (split; [reflexivity|]; split; [apply keeps_files_insert|]; split; [reflexivity|];
       unfold isfile; by rewrite lookup_insert_eq). }
  destruct (Embedding.status item); [exact Hrest| |exact Hrest].
  intros [= <- <-]. cbn. auto using keeps_files_refl.
Qed.

Lemma for_each_report_for_entries (dir prompt : string) (items : list Embedding.t) :
  forall f f' reports,
  for_each (report_for env dir prompt) items f = (Ok reports, f') ->
  map Report.wsi_name reports = map Embedding.wsi_name items /\
  keeps_files f f' /\
  Forall (entry_ok env dir f') reports.
Proof.
  induction items as [|item items IH]; intros f f' reports.
  - intros [= <- <-]. auto using keeps_files_refl.
  - cbn [for_each]. intros H.
    apply bind_Ok_inv in H as (rep & f1 & Hrep & H).
    apply bind_Ok_inv in H as (reps & f2 & Hreps & H).
    injection H as <- <-.
    apply report_for_entry in Hrep as (Hn & Hk & He).
    apply IH in Hreps as (Hns & Hks & Hes).
    split; [cbn; congruence|]. split; [by eapply keeps_files_trans|].
    constructor; [by eapply entry_ok_keeps|done].
Qed.

Lemma generate_report_for_each (embeddings : list Embedding.t)
    (config_dict : PipelineSettings.t) (f f' : FS) (reports : list Report.t) :
  generate_report env embeddings config_dict f = (Ok reports, f') ->
  exists prompt f0,
    for_each (report_for env (reports_dir env config_dict) prompt) embeddings f0 =
    (Ok reports, f').
Proof.
  unfold generate_report. destruct embeddings as [|item items].
  - intros [= <- <-]. by exists "", f.
  - intros H.
    apply bind_Ok_inv in H as (? & ? & _ & H).
    apply bind_Ok_inv in H as (? & ? & _ & H).
    apply bind_Ok_inv in H as (? & ? & _ & H).
    apply bind_Ok_inv in H as (? & ? & _ & H).
    apply bind_Ok_inv in H as (? & ? & _ & H).
    eauto.
Qed.

(** X17: when [generate_report] returns, its list has one entry for each
    item, in the items' order and under the items' names; each entry
    marked success names the report file of its slide under the reports
    folder, and that file exists; every other entry names no file. *)
Theorem generate_report_entries (embeddings : list Embedding.t)
    (config_dict : PipelineSettings.t) (f f' : FS) (reports : list Report.t) :
  generate_report env embeddings config_dict f = (Ok reports, f') ->
  map Report.wsi_name reports = map Embedding.wsi_name embeddings /\
  Forall (entry_ok env (reports_dir env config_dict) f') reports.
Proof.
  intros H. apply generate_report_for_each in H as (prompt & f0 & H).
  apply for_each_report_for_entries in H as (Hn & _ & He). done.
Qed.


Lemma aggregate_reports_written (reports : list Report.t)
    (config_dict : PipelineSettings.t) (f f1 : FS) :
  reports <> [] ->
  makedirs env (PipelineSettings.output_folder config_dict) f = (Ok tt, f1) ->
  write_fault env (results_csv env config_dict) = None ->
  f1 !! resolve env (results_csv env config_dict) <> Some Dir ->
  aggregate_reports env reports config_dict f =
  (Ok tt, <[resolve env (results_csv env config_dict) :=
              File (to_csv env (mkDataFrame ["wsi_name"; "report_text"]
                                  (omap (report_row env f1) reports)))]> f1).
Proof.
  unfold results_csv. intros Hne Hmk Hwf Hnode.
  destruct reports as [|rep reports]; [done|].
  unfold aggregate_reports. unfold bind at 1. rewrite Hmk.
  unfold bind at 1.
  destruct (aggregate_loop_rows env (rep :: reports) f1 [] []) as [failed' ->].
  cbn [app]. rewrite try_reraise.
  set (rows := omap (report_row env f1) (rep :: reports)).
  replace (match rows with
           | [] => mkDataFrame ["wsi_name"; "report_text"] []
           | _ :: _ => mkDataFrame ["wsi_name"; "report_text"] rows
           end) with (mkDataFrame ["wsi_name"; "report_text"] rows)
    by (by destruct rows).
  unfold write_text. rewrite Hwf.
  destruct (f1 !! resolve env (path_join env (PipelineSettings.output_folder config_dict)
                                 "results.csv")) as [[|?]|]; done.
Qed.

Lemma makedirs_Ok_inv (p : string) (f f1 : FS) :
  makedirs env p f = (Ok tt, f1) ->
  mkdir_fault env p = None /\ f1 !! resolve env p = Some Dir /\
  (forall q, q <> resolve env p -> f1 !! q = f !! q).
Proof.
  unfold makedirs. destruct (mkdir_fault env p); [discriminate|].
  destruct (f !! resolve env p) as [[|c]|] eqn:E; intros [= <-]; try done.
  split; [done|]. split; [by rewrite lookup_insert_eq|].
  intros q Hq. by rewrite lookup_insert_ne.
Qed.

Lemma aggregate_reports_Ok_inv (reports : list Report.t)
    (config_dict : PipelineSettings.t) (f f' : FS) :
  reports <> [] ->
  aggregate_reports env reports config_dict f = (Ok tt, f') ->
  exists f1,
    makedirs env (PipelineSettings.output_folder config_dict) f = (Ok tt, f1) /\
    write_fault env (results_csv env config_dict) = None /\
    f1 !! resolve env (results_csv env config_dict) <> Some Dir.
Proof.
  unfold results_csv. intros Hne. destruct reports as [|rep reports]; [done|].
  unfold aggregate_reports. unfold bind at 1.
  destruct (makedirs env (PipelineSettings.output_folder config_dict) f)
    as [[[]|e] f1]; [|discriminate].
  unfold bind at 1.
  destruct (aggregate_loop_rows env (rep :: reports) f1 [] []) as [failed' ->].
  cbn [app]. rewrite try_reraise. unfold write_text.
  destruct (write_fault env (path_join env (PipelineSettings.output_folder config_dict)
                               "results.csv")); [discriminate|].
  destruct (f1 !! resolve env (path_join env (PipelineSettings.output_folder config_dict)
                                 "results.csv")) as [[|?]|] eqn:E; [discriminate|..];
    intros _; exists f1; rewrite E; done.
Qed.

Lemma rows_of_entries (dir : string) (f : FS) (reports : list Report.t) :
  (forall p, read_fault env p = None) ->
  Forall (entry_ok env dir f) reports ->
  map (hd "") (omap (report_row env f) reports) =
  map Report.wsi_name (List.filter is_success reports).
Proof.
  intros Hr. induction 1 as [|rep reports He _ IH]; [reflexivity|].
  cbn [omap list_omap List.filter]. unfold entry_ok in He. unfold report_row at 1.
  destruct (is_success rep).
  - destruct He as [-> Hf]. rewrite Hr. unfold isfile in Hf.
    destruct (f !! resolve env (path_join env dir (Report.wsi_name rep +:+ ".txt")))
      as [[|c]|]; try discriminate.
    cbn. by rewrite IH.
  - rewrite He. exact IH.
Qed.

(** X18: the report stage followed by the aggregation stage: when the
    reports were generated for a non-empty list of items, files can be
    read and [results.csv] can be written, the CSV has exactly one row
    for each entry marked success, in the order of the items and under
    their names, and no row for any other entry. *)
Theorem reports_then_aggregate (embeddings : list Embedding.t)
    (config_dict : PipelineSettings.t) (f f1 f2 : FS) (reports : list Report.t) :
  generate_report env embeddings config_dict f = (Ok reports, f1) ->
  embeddings <> [] ->
  (forall p, read_fault env p = None) ->
  makedirs env (PipelineSettings.output_folder config_dict) f1 = (Ok tt, f2) ->
  write_fault env (results_csv env config_dict) = None ->
  f2 !! resolve env (results_csv env config_dict) <> Some Dir ->
  exists rows : list (list string),
    aggregate_reports env reports config_dict f1 =
      (Ok tt, <[resolve env (results_csv env config_dict) :=
                  File (to_csv env (mkDataFrame ["wsi_name"; "report_text"] rows))]> f2) /\
    map (hd "") rows = map Report.wsi_name (List.filter is_success reports) /\
    length rows = length (List.filter is_success reports).
Proof.
  intros Hg Hne Hr Hmk Hw Hd.
  apply generate_report_for_each in Hg as (prompt & f0 & Hg).
  apply for_each_report_for_entries in Hg as (Hn & _ & He).
  assert (Hrne : reports <> []).
  { intros ->. destruct embeddings; [done|discriminate]. }
  exists (omap (report_row env f2) reports).
  split; [by apply aggregate_reports_written|].
  rewrite (rows_makedirs env _ _ _ reports Hmk).
  pose proof (rows_of_entries _ _ _ Hr He) as Hrows.
  split; [exact Hrows|].
  by rewrite <- (length_map (hd "")), Hrows, length_map.
Qed.

(** X19: running the aggregation stage again changes nothing: when it
    has returned, no report is read from the place of [results.csv] and
    [results.csv] is not the output folder itself, a second run on the
    same reports returns and leaves every file as the first run left
    it. *)
Theorem aggregate_reports_again (reports : list Report.t)
    (config_dict : PipelineSettings.t) (f f' : FS) :
  aggregate_reports env reports config_dict f = (Ok tt, f') ->
  resolve env (results_csv env config_dict) <>
    resolve env (PipelineSettings.output_folder config_dict) ->
  Forall (fun rep => forall p, Report.report_path rep = Some p ->
            resolve env p <> resolve env (results_csv env config_dict)) reports ->
  aggregate_reports env reports config_dict f' = (Ok tt, f').
Proof.
  intros H Hout Hpaths. destruct reports as [|rep0 reports0] eqn:Er.
  { by injection H as <-. }
  rewrite <- Er in *.
  assert (Hne : reports <> []) by (rewrite Er; done).
  destruct (aggregate_reports_Ok_inv reports config_dict f f' Hne H) as (f1 & Hmk & Hw & Hd).
  rewrite (aggregate_reports_written reports config_dict f f1 Hne Hmk Hw Hd) in H.
  injection H as <-.
  apply makedirs_Ok_inv in Hmk as (Hmf & Hdir & _).
  set (csv := resolve env (results_csv env config_dict)) in *.
  remember (to_csv env (mkDataFrame ["wsi_name"; "report_text"]
                          (omap (report_row env f1) reports))) as text eqn:Et.
  assert (Hmk' : makedirs env (PipelineSettings.output_folder config_dict)
                   (<[csv := File text]> f1) = (Ok tt, <[csv := File text]> f1)).
  { unfold makedirs. rewrite Hmf, lookup_insert_ne by done. by rewrite Hdir. }
  rewrite (aggregate_reports_written reports config_dict _ _ Hne Hmk' Hw).
  2:{ fold csv. by rewrite lookup_insert_eq. }
  fold csv. rewrite insert_insert_eq.
  assert (Hrows : omap (report_row env (<[csv := File text]> f1)) reports =
                  omap (report_row env f1) reports).
  { clear -Hpaths. induction Hpaths as [|rep reports Hp _ IH]; [reflexivity|].
    cbn [omap list_omap]. rewrite IH. unfold report_row.
    destruct (Report.report_path rep) as [p|]; [|reflexivity].
    by rewrite lookup_insert_ne by (apply not_eq_sym, Hp; reflexivity). }
  by rewrite Hrows, <- Et.
Qed.

End Reports.

(** A failed item and an item with features. *)
Lemma generate_report_entries_witness :
  map Report.wsi_name Scenario.generated =
    map Embedding.wsi_name [Demo.item_error; Demo.item_success] /\
  Forall (entry_ok Demo.quiet (reports_dir Demo.quiet Demo.settings) Scenario.generated_fs)
         Scenario.generated.
Proof.
  apply (generate_report_entries Demo.quiet [Demo.item_error; Demo.item_success]
           Demo.settings Demo.features_fs Scenario.generated_fs Scenario.generated).
  vm_compute. reflexivity.
Defined.

(** The same two items, through both stages: one row. *)
Lemma reports_then_aggregate_witness :
  exists rows : list (list string),
    fst (aggregate_reports Demo.quiet Scenario.generated Demo.settings
           Scenario.generated_fs) = Ok tt /\
    map (hd "") rows = ["slide1"] /\ length rows = 1%nat.
Proof.
  destruct (reports_then_aggregate Demo.quiet [Demo.item_error; Demo.item_success]
              Demo.settings Demo.features_fs Scenario.generated_fs
              (snd (makedirs Demo.quiet (PipelineSettings.output_folder Demo.settings)
                      Scenario.generated_fs))
              Scenario.generated)
    as (rows & Ha & Hn & Hl).
  - vm_compute. reflexivity.
  - discriminate.
  - intros p. reflexivity.
  - vm_compute. reflexivity.
  - reflexivity.
  - vm_compute. discriminate.
  - exists rows. split; [by rewrite Ha|]. split; [exact Hn | exact Hl].
Defined.

(** The reports of the demonstration, aggregated twice. *)
Lemma aggregate_reports_again_witness :
  aggregate_reports Demo.quiet Demo.reports Demo.settings Scenario.aggregated_fs =
  (Ok tt, Scenario.aggregated_fs).
Proof.
  apply (aggregate_reports_again Demo.quiet Demo.reports Demo.settings Demo.reports_fs).
  - vm_compute. reflexivity.
  - vm_compute. discriminate.
  - repeat constructor; intros p H; vm_compute in H; try discriminate H;
      injection H as <-; vm_compute; discriminate.
Defined.


Section Job.
Context (env : Env).

Lemma pipeline_trace_order (r : result unit) (tr : list (string * option exn)) :
  pipeline_trace r tr ->
  attempts "load_config_op" tr = [("load_config_op", None)] /\
  (1 <= length (attempts "process_embeddings_op" tr) <= 3)%nat /\
  (length (attempts "process_report_gen_op" tr) <= 3)%nat /\
  (length (attempts "process_aggregation_op" tr) <= 1)%nat /\
  (attempts "process_report_gen_op" tr <> [] ->
   succeeded "process_embeddings_op" tr = true) /\
  (attempts "process_aggregation_op" tr <> [] ->
   succeeded "process_report_gen_op" tr = true) /\
  (r = Ok tt <-> succeeded "process_aggregation_op" tr = true).
Proof.
  intros Ht. destruct Ht; enum_fails; cbn;
    repeat split; try lia; try done.
Qed.

(** X20: on the executor as modelled from the specification, one run of
    the job invokes [load_config_op] once, the embeddings stage one to
    three times, the report stage at most three times and the
    aggregation stage at most once; the report stage is invoked only
    after an invocation of the embeddings stage returned, the
    aggregation stage only after one of the report stage returned, and
    the job returns exactly when the aggregation stage does. *)
Theorem histogpt_pipeline_stage_order (op_config : PipelineSettings.t) (w : World) :
  attempts "load_config_op" (job_calls env op_config w) = [("load_config_op", None)] /\
  (1 <= length (attempts "process_embeddings_op" (job_calls env op_config w)) <= 3)%nat /\
  (length (attempts "process_report_gen_op" (job_calls env op_config w)) <= 3)%nat /\
  (length (attempts "process_aggregation_op" (job_calls env op_config w)) <= 1)%nat /\
  (attempts "process_report_gen_op" (job_calls env op_config w) <> [] ->
   succeeded "process_embeddings_op" (job_calls env op_config w) = true) /\
  (attempts "process_aggregation_op" (job_calls env op_config w) <> [] ->
   succeeded "process_report_gen_op" (job_calls env op_config w) = true) /\
  (fst (histogpt_pipeline env op_config w) = Ok tt <->
   succeeded "process_aggregation_op" (job_calls env op_config w) = true).
Proof.
  unfold job_calls.
  destruct (histogpt_pipeline env op_config w) as [r w'] eqn:Hp.
  apply histogpt_pipeline_trace in Hp as [_ (tr & Ho & Ht)].
  cbn [fst snd]. rewrite (new_op_calls_app _ _ _ Ho).
  by apply pipeline_trace_order.
Qed.

End Job.

Section CommandLineRun.
Context (env : Env) (json_load_app : string -> result AppKwargs.t).

Lemma main_cases (args_config : option string) (w w' : World) (r : result Z) :
  main env json_load_app (Namespace args_config) w = (r, w') ->
  same_control w w' /\
  match r with
  | Raise e => op_calls w' = op_calls w
  | Ok n =>
      exists r0 tr, op_calls w' = op_calls w ++ tr /\ pipeline_trace r0 tr /\
        n = match r0 with Ok _ => 0 | Raise _ => 1 end
  end.
Proof.
  unfold main. unfold bind at 1. unfold lift_fs at 1.
  destruct (load_app_settings_json env json_load_app args_config (fs w)) as [[app|e0] f1].
  2:{ intros [= <- <-]. split; [apply same_control_set_fs|reflexivity]. }
  unfold bind at 1. unfold lift_fs at 1. cbn [fs set_fs].
  destruct (load_pipeline_settings env args_config f1) as [[cfg|e0] f2].
  2:{ intros [= <- <-]. split; [|reflexivity].
      eapply same_control_trans; apply same_control_set_fs. }
  unfold bind.
  destruct (run_job env app cfg (set_fs f2 (set_fs f1 w))) as [outcome mid] eqn:Hj.
  apply run_job_spec in Hj as [Hc Hj].
  assert (Hc' : same_control w mid).
  { eapply same_control_trans; [|exact Hc].
    eapply same_control_trans; apply same_control_set_fs. }
  destruct outcome as [result|e0].
  - destruct Hj as (r0 & tr & Ho & Ht & Hr & _).
    destruct r0 as [[]|e0].
    + rewrite Hr. intros [= <- <-]. split; [done|]. by exists (Ok tt), tr.
    + rewrite Hr. intros [= <- <-]. split; [done|].
      by exists (Raise e0), tr.
  - intros [= <- <-]. split; [done|]. exact Hj.
Qed.

(** X21: the command line never touches the status store.  The process
    ends with status 0 exactly when the help was asked for or the
    aggregation stage returned, with status 2 exactly when the command
    line was refused, and with status 1 otherwise.  A stage is invoked
    only when the command line was accepted; when [main] exits with
    status 1 itself, the job ran and a stage failed for good; when an
    exception leaves [main], no stage was invoked. *)
Theorem main_exit_status (parsed : ParseArgs) (w : World) :
  same_control w (snd (main env json_load_app parsed w)) /\
  (exit_status (fst (main env json_load_app parsed w)) = 0 <->
   parsed = Help \/
   succeeded "process_aggregation_op" (main_calls env json_load_app parsed w) = true) /\
  (exit_status (fst (main env json_load_app parsed w)) = 2 <-> parsed = UsageError) /\
  (exit_status (fst (main env json_load_app parsed w)) = 0 \/
   exit_status (fst (main env json_load_app parsed w)) = 1 \/
   exit_status (fst (main env json_load_app parsed w)) = 2) /\
  (main_calls env json_load_app parsed w <> [] -> exists config, parsed = Namespace config) /\
  (fst (main env json_load_app parsed w) = Ok 1 ->
   exists e, pipeline_trace (Raise e) (main_calls env json_load_app parsed w)) /\
  (forall e, fst (main env json_load_app parsed w) = Raise e ->
   main_calls env json_load_app parsed w = []).
Proof.
  unfold main_calls. destruct parsed as [args_config| |].
  - destruct (main env json_load_app (Namespace args_config) w) as [r w'] eqn:Hm.
    apply main_cases in Hm as [Hc Hm]. cbn [fst snd]. split; [exact Hc|].
    destruct r as [n|e].
    + destruct Hm as (r0 & tr & Ho & Ht & ->).
      rewrite (new_op_calls_app _ _ _ Ho).
      pose proof (pipeline_trace_order r0 tr Ht) as (_ & _ & _ & _ & _ & _ & Hiff).
      destruct r0 as [[]|e0]; cbn [exit_status].
      * split; [split; [intros _; right; by apply Hiff | done]|].
        split; [split; discriminate|]. split; [by left|]. split; [eauto|].
        split; discriminate.
      * split; [split; [discriminate|]|].
        { intros [H|H]; [discriminate|]. apply Hiff in H. discriminate. }
        split; [split; discriminate|]. split; [right; by left|]. split; [eauto|].
        split; [intros _; by exists e0 | discriminate].
    + unfold new_op_calls. rewrite Hm, drop_all. cbn [exit_status].
      split; [split; [discriminate | intros [H|H]; discriminate]|].
      split; [split; discriminate|]. split; [right; by left|].
      split; [done|]. split; [discriminate | done].
  - cbn. unfold new_op_calls. rewrite drop_all.
    split; [apply same_control_refl|].
    split; [split; [by left | done]|]. split; [split; discriminate|].
    split; [by left|]. split; [done|]. split; discriminate.
  - cbn. unfold new_op_calls. rewrite drop_all.
    split; [apply same_control_refl|].
    split; [split; [discriminate | intros [H|H]; discriminate]|].
    split; [done|]. split; [right; by right|]. split; [done|]. split; discriminate.
Qed.

End CommandLineRun.
